(** * The record store and payment ledger of htsms, embedded in Rocq

    Source: [src/htsms/storage.py] (class [ExcelStore] and the two sheet
    helpers), [src/htsms/app.py] and [src/htsms/wx_app.py] (the two
    [_next_id] variants).

    The store keeps its tables in spreadsheet worksheets.  The worksheet
    object itself belongs to the spreadsheet library, so the first part of
    this file fixes the behaviour of the handful of worksheet operations
    the store calls ([cell], [ws[1]], [iter_rows], [append],
    [delete_rows], [max_row], [max_column]); everything after that is a
    line-by-line transcription of the Python functions. *)

From Stdlib Require Import ZArith Lia Bool Ascii.
From stdpp Require Import base option list gmap strings pretty.

Open Scope string_scope.
Open Scope list_scope.
Open Scope nat_scope.

(** ** Cell values

    A cell holds [None], a string or a number.  Numbers are modelled by
    integers: Python compares [int] and [float] by numeric value, and the
    store only ever tests amounts for truthiness, for [<= 0] and for
    equality. *)

Inductive value :=
| VNone
| VStr (s : string)
| VNum (n : Z).

#[global] Instance value_eq_dec : EqDecision value.
Proof. solve_decision. Defined.

Definition value_to_sum (v : value) : option (string + Z) :=
  match v with
  | VNone => None
  | VStr s => Some (inl s)
  | VNum n => Some (inr n)
  end.

Definition value_of_sum (x : option (string + Z)) : value :=
  match x with
  | None => VNone
  | Some (inl s) => VStr s
  | Some (inr n) => VNum n
  end.

#[global] Instance value_countable : Countable value.
Proof. by apply (inj_countable' value_to_sum value_of_sum); intros []. Defined.

(** [v is None] *)
Definition is_none (v : value) : bool := bool_decide (v = VNone).

(** [str(v)] *)
Definition py_str (v : value) : string :=
  match v with
  | VNone => "None"
  | VStr s => s
  | VNum n => pretty n
  end.

(** Truthiness, as used by [x or d]. *)
Definition truthy (v : value) : bool :=
  match v with
  | VNone => false
  | VStr s => negb (bool_decide (s = ""))
  | VNum n => negb (bool_decide (n = 0%Z))
  end.

Definition py_or (v d : value) : value := if truthy v then v else d.

(** ** Dictionaries

    A row decoded by [_sheet_to_dicts] is a [dict] keyed by the header
    cells (which may be [None]).  A dict display or comprehension inserts
    its items left to right, so a repeated key keeps the last value. *)

Abbreviation record := (gmap value value).

Definition py_dict (items : list (value * value)) : record :=
  foldl (fun d kv => <[kv.1 := kv.2]> d) ∅ items.

(** [d.get(k, dflt)] *)
Definition dict_get (d : record) (k : string) (dflt : value) : value :=
  default dflt (d !! VStr k).

(** ** Worksheets

    [ws_rows] holds the cells of the sheet row by row: element [r-1] is
    sheet row [r], and its length is the highest column of that row in
    which a cell object exists (a gap inside a row reads as [None], which
    is also what an empty cell object reads as).  Rows and columns are
    numbered from 1 as in the library.  [ws_current_row] is the library's
    [_current_row], the row after which [append] writes. *)

Record worksheet := Worksheet {
  ws_rows : list (list value);
  ws_current_row : nat
}.

#[global] Instance worksheet_eq_dec : EqDecision worksheet.
Proof. solve_decision. Defined.

(** A workbook: its sheets by title. *)
Abbreviation workbook := (gmap string worksheet).

(** A sheet just created by [create_sheet]: no cells. *)
Definition empty_sheet : worksheet := Worksheet [] 0.

Definition max_row (ws : worksheet) : nat := Nat.max 1 (length (ws_rows ws)).

Definition max_column (ws : worksheet) : nat :=
  Nat.max 1 (max_list (length <$> ws_rows ws)).

(** Extend a row with empty cells up to column [c]. *)
Definition pad (c : nat) (row : list value) : list value :=
  row ++ replicate (c - length row) VNone.

Definition ensure_rows (r : nat) (rows : list (list value)) : list (list value) :=
  rows ++ replicate (r - length rows) [].

(** [ws._get_cell(r, c)]: the cell is created (empty) when it does not
    exist, and [_current_row] is raised to [r]. *)
Definition get_cell (r c : nat) (ws : worksheet) : worksheet :=
  Worksheet (alter (pad c) (r - 1) (ensure_rows r (ws_rows ws)))
            (Nat.max r (ws_current_row ws)).

(** The value read at a coordinate. *)
Definition cell_value (r c : nat) (ws : worksheet) : value :=
  default VNone (ws_rows ws !! (r - 1) ≫= fun row => row !! (c - 1)).

(** [ws.cell(row=r, column=c, value=v)]: the library assigns the value
    only when it is not [None]. *)
Definition cell (r c : nat) (v : value) (ws : worksheet) : worksheet :=
  let ws' := get_cell r c ws in
  if is_none v then ws'
  else Worksheet (alter (fun row => <[c - 1 := v]> row) (r - 1) (ws_rows ws'))
                 (ws_current_row ws').

(** [[ws.cell(row=r, column=c).value for c in range(1, n + 1)]]: the
    values, and the sheet with the cells created. *)
Definition read_cells (r n : nat) (ws : worksheet) : list value * worksheet :=
  let ws' := if bool_decide (n = 0) then ws else get_cell r n ws in
  ((fun c => cell_value r c ws') <$> seq 1 n, ws').

(** [[cell.value for cell in ws[1]]]: row 1 from column 1 to
    [max_column]. *)
Definition row1_values (ws : worksheet) : list value * worksheet :=
  read_cells 1 (max_column ws) ws.

(** [for col, h in enumerate(headers, start=1): ws.cell(row=r, column=col, value=h)] *)
Definition write_cells (r : nat) (vals : list value) (ws : worksheet) : worksheet :=
  foldl (fun w cv => cell r (S cv.1) cv.2 w) ws (imap pair vals).

(** [ws.iter_rows(min_row=2, values_only=True)], consumed to the end:
    rows 2 to [max_row], each read from column 1 to [max_column]; both
    bounds are taken when the iterator is made. *)
Definition iter_rows_from2 (ws : worksheet) : list (list value) * worksheet :=
  let c := max_column ws in
  foldl (fun acc r => let '(vs, w) := read_cells r c acc.2 in (acc.1 ++ [vs], w))
        ([], ws) (seq 2 (max_row ws - 1)).

(** [ws.append(values)]: the values go to row [_current_row + 1], columns
    1 onwards, replacing whatever cells are there. *)
Definition append (vals : list value) (ws : worksheet) : worksheet :=
  let r := S (ws_current_row ws) in
  let rows := if bool_decide (vals = []) then ws_rows ws
              else alter (fun row => vals ++ drop (length vals) row) (r - 1)
                         (ensure_rows r (ws_rows ws)) in
  Worksheet rows r.

(** Drop the rows without cells at the bottom of the sheet. *)
Fixpoint trim_rows (rows : list (list value)) : list (list value) :=
  match rows with
  | [] => []
  | row :: rest =>
      match trim_rows rest with
      | [] => if bool_decide (row = []) then [] else [row]
      | rest' => row :: rest'
      end
  end.

(** [ws.delete_rows(idx, 1)] for [idx >= 1].  The library first makes the
    rows below [idx] rectangular (columns 1 to [max_column]), moves them
    up by one, clears what is left of the old last row, and sets
    [_current_row] to the new [max_row] (0 when no cell is left). *)
Definition delete_rows (idx : nat) (ws : worksheet) : worksheet :=
  let rows :=
    if bool_decide (idx <= length (ws_rows ws)) then
      trim_rows (take (idx - 1) (ws_rows ws)
                 ++ (pad (max_column ws) <$> drop idx (ws_rows ws)))
    else ws_rows ws in
  Worksheet rows (length rows).

(** ** Sheet schema manager ([_ensure_sheet_headers], [_cleanup_sheet]) *)

(** The required columns as cell values. *)
Definition hvals (headers : list string) : list value := VStr <$> headers.

(** The loop at the end of [_ensure_sheet_headers]:
    [for h in headers: if h not in existing: ws.cell(1, len(existing) + 1, h); existing.append(h)] *)
Definition append_missing (headers : list string) (existing : list value)
    (ws : worksheet) : list value * worksheet :=
  foldl (fun acc h =>
           if bool_decide (VStr h ∈ acc.1) then acc
           else (acc.1 ++ [VStr h], cell 1 (length acc.1 + 1) (VStr h) acc.2))
        (existing, ws) headers.

Definition _ensure_sheet_headers (ws : worksheet) (headers : list string) : worksheet :=
  if bool_decide (max_row ws < 1 ∨ max_column ws < 1) then
    write_cells 1 (hvals headers) ws
  else
    let '(row1_vals, ws1) := row1_values ws in
    let ws1 := get_cell 1 1 ws1 in
    if is_none (cell_value 1 1 ws1) && forallb is_none row1_vals then
      let '(row2_match, ws2) :=
        if bool_decide (2 <= max_row ws1) then
          let '(row2_vals, ws2) := read_cells 2 (length headers) ws1 in
          (bool_decide (row2_vals = hvals headers), ws2)
        else (false, ws1) in
      if row2_match then delete_rows 1 ws2
      else write_cells 1 (hvals headers) ws2
    else
      let '(existing, ws2) := row1_values ws1 in
      if bool_decide (existing ≠ hvals headers) then
        (append_missing headers existing ws2).2
      else ws2.

(** [v is None or v == ""] *)
Definition is_blank (v : value) : bool := is_none v || bool_decide (v = VStr "").

(** The loop of [_cleanup_sheet]; [cleanup_rows k] visits rows [k+1]
    down to 2. *)
Fixpoint cleanup_rows (k : nat) (headers : list string) (ws : worksheet) : worksheet :=
  match k with
  | 0 => ws
  | S k' =>
      let row := S k in
      let '(vals, ws1) := read_cells row (length headers) ws in
      let ws2 :=
        if bool_decide (vals = hvals headers) then delete_rows row ws1
        else if forallb is_blank vals then delete_rows row ws1
        else ws1 in
      cleanup_rows k' headers ws2
  end.

Definition _cleanup_sheet (ws : worksheet) (headers : list string) : worksheet :=
  if bool_decide (max_row ws <= 1) then ws
  else cleanup_rows (max_row ws - 1) headers ws.

Definition repair (headers : list string) (ws : worksheet) : worksheet :=
  _cleanup_sheet (_ensure_sheet_headers ws headers) headers.

(** ** Exceptions and stateful computations

    A Python call either returns or raises; in both cases the objects it
    mutated stay mutated.  [M S A] is a computation over a mutable [S]
    that returns an [A] or raises. *)

Inductive exn :=
| FileNotFoundError
| KeyError
| TypeError
| ValueError
| PermissionError.

Inductive result (A : Type) :=
| Ok (a : A)
| Raise (e : exn).
Arguments Ok {A} a.
Arguments Raise {A} e.

#[global] Instance exn_eq_dec : EqDecision exn.
Proof. solve_decision. Defined.

#[global] Instance result_eq_dec {A} `{EqDecision A} : EqDecision (result A).
Proof. solve_decision. Defined.

Definition M (S A : Type) : Type := S -> result A * S.

Definition ret {S A} (a : A) : M S A := fun s => (Ok a, s).
Definition raise {S A} (e : exn) : M S A := fun s => (Raise e, s).
Definition bind {S A B} (m : M S A) (k : A -> M S B) : M S B :=
  fun s => match m s with
           | (Ok a, s') => k a s'
           | (Raise e, s') => (Raise e, s')
           end.
Definition get {S} : M S S := fun s => (Ok s, s).
Definition modify {S} (f : S -> S) : M S unit := fun s => (Ok tt, f s).
(** A function that returns a value and the mutated object. *)
Definition lift {S A} (f : S -> A * S) : M S A :=
  fun s => let '(a, s') := f s in (Ok a, s').

Declare Scope py_scope.
Delimit Scope py_scope with py.
Notation "x <- m ;; k" := (bind m (fun x => k))
  (at level 100, m at next level, right associativity) : py_scope.
Notation "m ;;; k" := (bind m (fun _ => k))
  (at level 100, right associativity) : py_scope.
Open Scope py_scope.

(** [try: body  except Exception: pass] around a computation whose only
    effect is its result. *)
Definition try_pass {A} (r : result A) : option A :=
  match r with Ok a => Some a | Raise _ => None end.

Section Builtins.

(** [int(s)] and [float(s)] for a string [s]: [None] stands for
    [ValueError].  The parsers are Python's own and are left open. *)
Variable int_of_str : string -> option Z.
Variable float_of_str : string -> option Z.

(** [int(v)] *)
Definition py_int (v : value) : result Z :=
  match v with
  | VNone => Raise TypeError
  | VNum n => Ok n
  | VStr s => match int_of_str s with Some n => Ok n | None => Raise ValueError end
  end.

(** [float(v)] *)
Definition py_float (v : value) : result Z :=
  match v with
  | VNone => Raise TypeError
  | VNum n => Ok n
  | VStr s => match float_of_str s with Some n => Ok n | None => Raise ValueError end
  end.

(** ** Row codec ([_sheet_to_dicts], [_find_row_by_id]) *)

(** [{headers[i]: r[i] for i in range(min(len(headers), len(r)))}] *)
Definition decode_row (headers r : list value) : record :=
  py_dict (zip headers r).

Definition _sheet_to_dicts : M worksheet (list record) :=
  headers <- lift row1_values ;;
  rows <- lift iter_rows_from2 ;;
  ret (decode_row headers <$> filter (fun r => ¬ forallb is_none r) rows).

(** [headers.index(h)]: the position of the first element equal to [h]. *)
Fixpoint list_index (h : value) (headers : list value) : option nat :=
  match headers with
  | [] => None
  | x :: rest => if bool_decide (x = h) then Some 0
                 else S <$> list_index h rest
  end.

(** The scan of [_find_row_by_id] over the given rows: each cell looked at
    is created when missing. *)
Fixpoint scan_rows (id_idx : nat) (person_id : value) (rows : list nat)
    (ws : worksheet) : option nat * worksheet :=
  match rows with
  | [] => (None, ws)
  | row :: rest =>
      let ws' := get_cell row id_idx ws in
      if bool_decide (cell_value row id_idx ws' = person_id) then (Some row, ws')
      else scan_rows id_idx person_id rest ws'
  end.

Definition _find_row_by_id (id_header : string) (person_id : string)
    : M worksheet (option nat) :=
  headers <- lift row1_values ;;
  match list_index (VStr id_header) headers with
  | None => ret None
  | Some i =>
      ws <- get ;;
      lift (scan_rows (i + 1) (VStr person_id) (seq 2 (max_row ws - 1)))
  end.

(** ** The store

    [path_file] is the document at [self.path] ([None]: no such file),
    [_wb] the cached workbook object, and [save_ok] tells whether the
    next [wb.save] succeeds (it fails, for instance, while another
    program holds the file).  The workbook handed out by [_load] is the
    cached object itself, so a mutation through the handle is a mutation
    of [_wb]. *)

Record store := Store {
  path_file : option workbook;
  _wb : option workbook;
  save_ok : bool
}.

#[global] Instance store_eq_dec : EqDecision store.
Proof. solve_decision. Defined.

Definition STUDENTS_SHEET := "students".
Definition TEACHERS_SHEET := "teachers".
Definition STUDENT_PAYMENTS_SHEET := "student_payments".
Definition TEACHER_PAYMENTS_SHEET := "teacher_payments".
Definition ACTIVITY_SHEET := "activity_log".

Definition invalidate_cache : M store unit :=
  modify (fun st => Store (path_file st) None (save_ok st)).

Definition _load : M store unit :=
  fun st =>
    match _wb st with
    | Some _ => (Ok tt, st)
    | None =>
        match path_file st with
        | None => (Raise FileNotFoundError, st)
        | Some wb => (Ok tt, Store (path_file st) (Some wb) (save_ok st))
        end
    end.

(** [wb.save(self.path); self._wb = wb] for the handle returned by
    [_load]. *)
Definition _save : M store unit :=
  fun st =>
    if save_ok st then (Ok tt, Store (_wb st) (_wb st) (save_ok st))
    else (Raise PermissionError, st).

(** [ws = wb[name]] followed by code working on [ws]. *)
Definition on_sheet {A} (name : string) (m : M worksheet A) : M store A :=
  fun st =>
    match _wb st with
    | None => (Raise FileNotFoundError, st)
    | Some wb =>
        match wb !! name with
        | None => (Raise KeyError, st)
        | Some ws =>
            let '(r, ws') := m ws in
            (r, Store (path_file st) (Some (<[name := ws']> wb)) (save_ok st))
        end
    end.

Definition list_students : M store (list record) :=
  _load ;;; on_sheet STUDENTS_SHEET _sheet_to_dicts.

Definition list_teachers : M store (list record) :=
  _load ;;; on_sheet TEACHERS_SHEET _sheet_to_dicts.

(** *** Upsert *)

Definition insert_values (headers : list value) (data : record) (now : string)
    : list value :=
  (fun h => if bool_decide (h = VStr "created_at") then VStr now
            else if bool_decide (h = VStr "updated_at") then VStr now
            else default (VStr "") (data !! h)) <$> headers.

Definition update_cell (row : nat) (data : record) (now : string)
    (ws : worksheet) (ch : nat * value) : worksheet :=
  let col := S ch.1 in
  let h := ch.2 in
  if bool_decide (h = VStr "created_at") then ws
  else if bool_decide (h = VStr "updated_at") then cell row col (VStr now) ws
  else match data !! h with
       | Some v => cell row col v ws
       | None => ws
       end.

Definition update_row (row : nat) (headers : list value) (data : record)
    (now : string) (ws : worksheet) : worksheet :=
  foldl (update_cell row data now) ws (imap pair headers).

(** The body shared by [upsert_student] and [upsert_teacher], which differ
    in the sheet and the id column only. *)
Definition upsert_in_sheet (id_header : string) (data : record) (now : string)
    : M worksheet unit :=
  headers <- lift row1_values ;;
  row <- _find_row_by_id id_header (py_str (dict_get data id_header (VStr ""))) ;;
  match row with
  | None => modify (append (insert_values headers data now))
  | Some r => modify (update_row r headers data now)
  end.

Definition upsert_student (data : record) (now : string) : M store unit :=
  _load ;;; on_sheet STUDENTS_SHEET (upsert_in_sheet "student_id" data now) ;;; _save.

Definition upsert_teacher (data : record) (now : string) : M store unit :=
  _load ;;; on_sheet TEACHERS_SHEET (upsert_in_sheet "teacher_id" data now) ;;; _save.

(** *** Delete *)

Definition delete_in_sheet (id_header person_id : string) : M worksheet bool :=
  row <- _find_row_by_id id_header person_id ;;
  match row with
  | None => ret false
  | Some r => modify (delete_rows r) ;;; ret true
  end.

Definition delete_person (sheet id_header person_id : string) : M store bool :=
  _load ;;;
  found <- on_sheet sheet (delete_in_sheet id_header person_id) ;;
  if found : bool then _save ;;; ret true else ret false.

Definition delete_student (student_id : string) : M store bool :=
  delete_person STUDENTS_SHEET "student_id" student_id.

Definition delete_teacher (teacher_id : string) : M store bool :=
  delete_person TEACHERS_SHEET "teacher_id" teacher_id.

(** *** Activity log *)

Record AppEvent := {
  timestamp : string;
  action : string;
  entity_type : string;
  entity_id : string;
  details : string
}.

Definition add_event (event : AppEvent) : M store unit :=
  _load ;;;
  on_sheet ACTIVITY_SHEET
    (modify (append [VStr (timestamp event); VStr (action event);
                     VStr (entity_type event); VStr (entity_id event);
                     VStr (details event)])) ;;;
  _save.

(** [rows[start:]] for an integer [start] of either sign. *)
Definition slice_from {A} (start : Z) (rows : list A) : list A :=
  let len := Z.of_nat (length rows) in
  let start := if bool_decide (start < 0)%Z then Z.max 0 (start + len) else Z.min start len in
  drop (Z.to_nat start) rows.

Definition list_events (limit : Z) : M store (list record) :=
  _load ;;;
  rows <- on_sheet ACTIVITY_SHEET _sheet_to_dicts ;;
  ret (slice_from (- limit) rows).

(** ** Payment ledger *)

Definition payments_sheet (entity : string) : string :=
  if bool_decide (entity = "student") then STUDENT_PAYMENTS_SHEET
  else TEACHER_PAYMENTS_SHEET.

Definition id_column (entity : string) : string :=
  if bool_decide (entity = "student") then "student_id" else "teacher_id".

(** [str(r.get(id_col, "")) == person_id and int(r.get("year", 0)) == year
     and int(r.get("month", 0)) == month], with the short-circuit of
    [and]. *)
Definition key_matches (id_col person_id : string) (year month : Z) (r : record)
    : result bool :=
  if bool_decide (py_str (dict_get r id_col (VStr "")) = person_id) then
    match py_int (dict_get r "year" (VNum 0)) with
    | Raise e => Raise e
    | Ok y =>
        if bool_decide (y = year) then
          match py_int (dict_get r "month" (VNum 0)) with
          | Raise e => Raise e
          | Ok m => Ok (bool_decide (m = month))
          end
        else Ok false
    end
  else Ok false.

(** [for idx, r in enumerate(rows, start=idx): if <key matches>: ...; break]:
    the first matching record and its number. *)
Fixpoint find_record (id_col person_id : string) (year month : Z)
    (rows : list record) (idx : nat) : result (option (nat * record)) :=
  match rows with
  | [] => Ok None
  | r :: rest =>
      match key_matches id_col person_id year month r with
      | Raise e => Raise e
      | Ok true => Ok (Some (idx, r))
      | Ok false => find_record id_col person_id year month rest (S idx)
      end
  end.

Definition of_result {S A} (r : result A) : M S A :=
  match r with Ok a => ret a | Raise e => raise e end.

(** [{"status": "Pending", "amount": 0.0}] *)
Definition default_record : record :=
  py_dict [(VStr "status", VStr "Pending"); (VStr "amount", VNum 0)].

Definition get_payment_record (entity person_id : string) (year month : Z)
    : M store record :=
  _load ;;;
  rows <- on_sheet (payments_sheet entity) _sheet_to_dicts ;;
  found <- of_result (find_record (id_column entity) person_id year month rows 2) ;;
  match found with
  | Some (_, r) => ret r
  | None => ret default_record
  end.

Definition get_payment_status (entity person_id : string) (year month : Z)
    : M store string :=
  rec <- get_payment_record entity person_id year month ;;
  ret (py_str (py_or (dict_get rec "status" (VStr "Pending")) (VStr "Pending"))).

Definition update_payment_cell (row : nat) (status : string) (amount : Z)
    (now : string) (ws : worksheet) (ch : nat * value) : worksheet :=
  let col := S ch.1 in
  let h := ch.2 in
  if bool_decide (h = VStr "updated_at") then cell row col (VStr now) ws
  else if bool_decide (h = VStr "status") then cell row col (VStr status) ws
  else if bool_decide (h = VStr "amount") then cell row col (VNum amount) ws
  else ws.

Definition set_payment_in_sheet (id_col person_id : string) (year month : Z)
    (status : string) (amount : Z) (now : string) : M worksheet unit :=
  headers <- lift row1_values ;;
  rows <- _sheet_to_dicts ;;
  target <- of_result (find_record id_col person_id year month rows 2) ;;
  match target with
  | None =>
      let data := py_dict [(VStr id_col, VStr person_id); (VStr "year", VNum year);
                           (VStr "month", VNum month); (VStr "status", VStr status);
                           (VStr "amount", VNum amount); (VStr "updated_at", VStr now)] in
      modify (append ((fun h => default (VStr "") (data !! h)) <$> headers))
  | Some (target_row, _) =>
      modify (fun ws => foldl (update_payment_cell target_row status amount now) ws
                              (imap pair headers))
  end.

Definition set_payment (entity person_id : string) (year month : Z)
    (status : string) (amount : Z) (now : string) : M store unit :=
  _load ;;;
  on_sheet (payments_sheet entity)
    (set_payment_in_sheet (id_column entity) person_id year month status amount now) ;;;
  _save.

Definition list_all_payments (entity : string) : M store (list record) :=
  _load ;;; on_sheet (payments_sheet entity) _sheet_to_dicts.

(** [s.lower()] on ASCII letters. *)
Definition lower_ascii (a : ascii) : ascii :=
  let n := nat_of_ascii a in
  if bool_decide (65 <= n <= 90) then ascii_of_nat (n + 32) else a.

Fixpoint lower (s : string) : string :=
  match s with
  | EmptyString => EmptyString
  | String a rest => String (lower_ascii a) (lower rest)
  end.

(** *** Statistics *)

Record stats := { paid : nat; pending : nat; total : nat }.

(** The loop of [payment_stats] over the people not yet visited. *)
Fixpoint count_people (entity : string) (year month : Z) (people : list record)
    (paid pending : nat) : M store (nat * nat) :=
  match people with
  | [] => ret (paid, pending)
  | p :: rest =>
      let pid := py_str (dict_get p (id_column entity) (VStr "")) in
      if bool_decide (pid = "") then count_people entity year month rest paid pending
      else
        st <- get_payment_status entity pid year month ;;
        if bool_decide (lower st = "paid")
        then count_people entity year month rest (paid + 1) pending
        else count_people entity year month rest paid (pending + 1)
  end.

Definition payment_stats (entity : string) (year month : Z) : M store stats :=
  people <- (if bool_decide (entity = "student") then list_students else list_teachers) ;;
  pp <- count_people entity year month people 0 0 ;;
  ret {| paid := pp.1; pending := pp.2; total := pp.1 + pp.2 |}.

(** *** Arrears *)

Record pending_month := { pm_year : Z; pm_month : Z; pm_amount : Z }.

(** The first loop of [get_pending_months]: the records of the person by
    (year, month); a record whose year or month does not convert is
    skipped. *)
Definition build_lookup (id_col person_id : string) (all_payments : list record)
    : gmap (Z * Z) record :=
  foldl (fun lookup rec =>
           if bool_decide (py_str (dict_get rec id_col (VStr "")) = person_id) then
             match py_int (dict_get rec "year" (VNum 0)),
                   py_int (dict_get rec "month" (VNum 0)) with
             | Ok y, Ok m => <[(y, m) := rec]> lookup
             | _, _ => lookup
             end
           else lookup)
        ∅ all_payments.

(** The second loop: [n] more months, walking back from [(y, m)];
    [pending] is the list built so far. *)
Fixpoint walk_back (n : nat) (lookup : gmap (Z * Z) record) (default_amount : Z)
    (y m : Z) (pending : list pending_month) : result (list pending_month) :=
  match n with
  | 0 => Ok pending
  | S n' =>
      let step :=
        match lookup !! (y, m) with
        | None => Ok (pending ++ [{| pm_year := y; pm_month := m; pm_amount := default_amount |}])
        | Some rec =>
            if bool_decide (lower (py_str (dict_get rec "status" (VStr ""))) ≠ "paid") then
              match py_float (py_or (dict_get rec "amount" (VNum 0)) (VNum 0)) with
              | Raise e => Raise e
              | Ok amt =>
                  let amt := if bool_decide (amt <= 0)%Z then default_amount else amt in
                  Ok (pending ++ [{| pm_year := y; pm_month := m; pm_amount := amt |}])
              end
            else Ok pending
        end in
      match step with
      | Raise e => Raise e
      | Ok pending' =>
          let m1 := (m - 1)%Z in
          if bool_decide (m1 < 1)%Z
          then walk_back n' lookup default_amount (y - 1)%Z 12%Z pending'
          else walk_back n' lookup default_amount y m1 pending'
      end
  end.

Definition get_pending_months (entity person_id : string) (up_to_year up_to_month : Z)
    (default_amount : Z) : M store (list pending_month) :=
  all_payments <- list_all_payments entity ;;
  let paid_lookup := build_lookup (id_column entity) person_id all_payments in
  pending <- of_result (walk_back 24 paid_lookup default_amount up_to_year up_to_month []) ;;
  ret (reverse pending).

(** ** Schema repair of the whole document *)

Definition student_headers (student_custom_fields : list string) : list string :=
  ["student_id"; "first_name"; "last_name"; "age"; "class"; "section";
   "primary_contact"; "secondary_contact"; "created_at"; "updated_at"]
  ++ student_custom_fields.

Definition teacher_headers (teacher_custom_fields : list string) : list string :=
  ["teacher_id"; "first_name"; "last_name"; "role"; "primary_contact";
   "secondary_contact"; "created_at"; "updated_at"] ++ teacher_custom_fields.

Definition payment_headers (id_col : string) : list string :=
  [id_col; "year"; "month"; "status"; "amount"; "updated_at"].

Definition activity_headers : list string :=
  ["timestamp"; "action"; "entity_type"; "entity_id"; "details"].

(** [ws = wb.create_sheet(name) if name not in wb.sheetnames else wb[name]]
    followed by the two repairs of that sheet. *)
Definition ensure_sheet (name : string) (headers : list string) (wb : workbook)
    : workbook :=
  let ws := default empty_sheet (wb !! name) in
  <[name := _cleanup_sheet (_ensure_sheet_headers ws headers) headers]> wb.

Definition ensure_tables (student_custom_fields teacher_custom_fields : list string)
    (wb : workbook) : workbook :=
  let wb := ensure_sheet STUDENTS_SHEET (student_headers student_custom_fields) wb in
  let wb := ensure_sheet TEACHERS_SHEET (teacher_headers teacher_custom_fields) wb in
  let wb := ensure_sheet STUDENT_PAYMENTS_SHEET (payment_headers "student_id") wb in
  let wb := ensure_sheet TEACHER_PAYMENTS_SHEET (payment_headers "teacher_id") wb in
  ensure_sheet ACTIVITY_SHEET activity_headers wb.

Definition ensure_workbook (student_custom_fields teacher_custom_fields : list string)
    : M store unit :=
  fun st =>
    let wb := default ∅ (path_file st) in
    let wb := ensure_tables student_custom_fields teacher_custom_fields wb in
    if save_ok st then (Ok tt, Store (Some wb) (Some wb) (save_ok st))
    else (Raise PermissionError, st).

(** ** The mutating operations, as one family *)

Inductive mutation :=
| UpsertStudent (data : record) (now : string)
| UpsertTeacher (data : record) (now : string)
| SetPayment (entity person_id : string) (year month : Z) (status : string)
    (amount : Z) (now : string)
| DeleteStudent (student_id : string)
| DeleteTeacher (teacher_id : string)
| AddEvent (event : AppEvent).

(** Run a mutating operation; the boolean tells whether the operation
    went as far as saving (only a delete that finds no row does not). *)
Definition run_mutation (op : mutation) : M store bool :=
  match op with
  | UpsertStudent data now => upsert_student data now ;;; ret true
  | UpsertTeacher data now => upsert_teacher data now ;;; ret true
  | SetPayment entity person_id year month status amount now =>
      set_payment entity person_id year month status amount now ;;; ret true
  | DeleteStudent student_id => delete_student student_id
  | DeleteTeacher teacher_id => delete_teacher teacher_id
  | AddEvent event => add_event event ;;; ret true
  end.

(** The store with the outcome of the next save fixed. *)
Definition with_save (b : bool) (st : store) : store :=
  Store (path_file st) (_wb st) b.

End Builtins.

(** ** ID generator ([_next_id])

    A Python string is a sequence of code points; the characters here are
    the code points below 256. *)

Open Scope N_scope.

(** [eid.startswith(prefix)] *)
Fixpoint startswith (eid pre : string) : bool :=
  match pre, eid with
  | EmptyString, _ => true
  | String a pre', String b eid' => bool_decide (a = b) && startswith eid' pre'
  | String _ _, EmptyString => false
  end.

(** [s[n:]] *)
Fixpoint str_drop (n : nat) (s : string) : string :=
  match n, s with
  | O, _ => s
  | S n', String _ s' => str_drop n' s'
  | S _, EmptyString => EmptyString
  end.

(** The characters matched by [\d], which [int] converts: 0 to 9. *)
Definition is_decimal (a : ascii) : bool :=
  let n := N_of_ascii a in bool_decide (48 <= n <= 57).

(** [ch.isdigit()]: the decimal digits and the superscripts one, two and
    three. *)
Definition isdigit (a : ascii) : bool :=
  let n := N_of_ascii a in
  is_decimal a || bool_decide (n = 178) || bool_decide (n = 179) || bool_decide (n = 185).

Fixpoint str_forall (p : ascii -> bool) (s : string) : bool :=
  match s with
  | EmptyString => true
  | String a s' => p a && str_forall p s'
  end.

Fixpoint str_filter (p : ascii -> bool) (s : string) : string :=
  match s with
  | EmptyString => EmptyString
  | String a s' => if p a then String a (str_filter p s') else str_filter p s'
  end.

(** The value of a string of decimal digits, most significant first. *)
Fixpoint digits_value (acc : N) (s : string) : N :=
  match s with
  | EmptyString => acc
  | String a s' => digits_value (10 * acc + (N_of_ascii a - 48)) s'
  end.

(** [int(s)] for a non-empty [s] made of [isdigit] characters: it raises
    [ValueError] unless all of them are decimal digits. *)
Definition int_of_digits (s : string) : option N :=
  if str_forall is_decimal s then Some (digits_value 0 s) else None.

(** Remove one final line feed, before which [$] also matches. *)
Fixpoint chomp (s : string) : string :=
  match s with
  | EmptyString => EmptyString
  | String a EmptyString => if bool_decide (N_of_ascii a = 10) then EmptyString else s
  | String a s' => String a (chomp s')
  end.

(** Leading zeros taken by the greedy [0*], which leaves one character
    for [\d+] when the string is all zeros. *)
Fixpoint strip_zeros (s : string) : string :=
  match s with
  | String a (String b s' as rest) =>
      if bool_decide (N_of_ascii a = 48) then strip_zeros rest else s
  | _ => s
  end.

(** [m = re.match(r"0*(\d+)$", tail)]: [m.group(1)] when there is a match. *)
Definition match_number (tail : string) : option string :=
  let body := chomp tail in
  if negb (bool_decide (body = EmptyString)) && str_forall is_decimal body
  then Some (strip_zeros body) else None.

(** [f"{n:04d}"] for [n >= 0] *)
Definition format_04d (n : N) : string :=
  let s := pretty n in
  String.concat "" (replicate (4 - String.length s) "0") +:+ s.

Module App.

(** One round of the loop of [App._next_id] in [app.py]. *)
Definition step (pre : string) (max_n : N) (eid : string) : N :=
  if negb (startswith eid pre) then max_n
  else
    let tail := str_drop (String.length pre) eid in
    match match_number tail with
    | Some g => N.max max_n (digits_value 0 g)
    | None => max_n
    end.

Definition _next_id (pre : string) (existing_ids : list string) : string :=
  let max_n := foldl (step pre) 0 existing_ids in
  pre +:+ format_04d (max_n + 1).

End App.

Module WxApp.

(** One round of the loop of [WxApp._next_id] in [wx_app.py]. *)
Definition step (pre : string) (max_n : N) (eid : string) : N :=
  if negb (startswith eid pre) then max_n
  else
    let tail := str_drop (String.length pre) eid in
    let digits := str_filter isdigit tail in
    if negb (bool_decide (digits = EmptyString)) then
      match int_of_digits digits with
      | Some n => N.max max_n n
      | None => max_n
      end
    else max_n.

Definition _next_id (pre : string) (existing_ids : list string) : string :=
  let max_n := foldl (step pre) 0 existing_ids in
  pre +:+ format_04d (max_n + 1).

End WxApp.

Close Scope N_scope.

(** ** Observations of a worksheet

    What a reader of the sheet sees: the rectangle of values from row 1 to
    [max_row] and column 1 to [max_column]. *)

Definition grid (ws : worksheet) : list (list value) :=
  pad (max_column ws) <$> ensure_rows 1 (ws_rows ws).

(** The sheet after a complete read ([ws[1]] and [iter_rows]): every cell
    of the rectangle exists. *)
Definition normalize (ws : worksheet) : worksheet :=
  Worksheet (grid ws) (Nat.max (max_row ws) (ws_current_row ws)).

Definition header_values (ws : worksheet) : list value := hd [] (grid ws).
Definition data_rows (ws : worksheet) : list (list value) := tail (grid ws).

(** The records a table holds, in sheet order. *)
Definition records_of (ws : worksheet) : list record :=
  decode_row (header_values ws) <$> filter (fun r => ¬ forallb is_none r) (data_rows ws).

(** The workbook an operation works on: the cached one, or else the one on
    disk. *)
Definition current_wb (st : store) : option workbook :=
  match _wb st with Some wb => Some wb | None => path_file st end.

(** ** The ID generator in closed form *)

Open Scope N_scope.






Close Scope N_scope.

(** The columns the last loop of [_ensure_sheet_headers] appends to the
    header [existing]: the required columns not yet in it, each once, in
    the order of the requirement. *)
Fixpoint missing_columns (existing : list value) (headers : list string) : list value :=
  match headers with
  | [] => []
  | h :: headers' =>
      if bool_decide (VStr h ∈ existing) then missing_columns existing headers'
      else VStr h :: missing_columns (existing ++ [VStr h]) headers'
  end.

(** The first [n] values of row [r], as a reader sees them. *)
Definition row_values (r n : nat) (ws : worksheet) : list value :=
  (fun c => cell_value r c ws) <$> seq 1 n.

(** A data row that [_cleanup_sheet] keeps: its first [len(headers)]
    cells exist, do not repeat the header and are not all blank. *)
Definition kept_row (headers : list string) (row : list value) : Prop :=
  length headers <= length row
  /\ take (length headers) row ≠ hvals headers
  /\ forallb is_blank (take (length headers) row) = false.

(** A sheet as the two repairs leave it: row 1 holds every required
    column, every row below is one that the clean-up keeps, and
    [_current_row] is not above the last row. *)
Definition repaired (headers : list string) (ws : worksheet) : Prop :=
  exists row1 rest,
    ws_rows ws = row1 :: rest
    /\ (forall h, h ∈ headers -> VStr h ∈ row1)
    /\ Forall (kept_row headers) rest
    /\ length (ws_rows ws) <= ws_current_row ws.

(** The required columns of the five tables, by sheet title. *)
Definition table_headers (student_custom_fields teacher_custom_fields : list string)
    (name : string) : option (list string) :=
  if decide (name = STUDENTS_SHEET) then Some (student_headers student_custom_fields)
  else if decide (name = TEACHERS_SHEET) then Some (teacher_headers teacher_custom_fields)
  else if decide (name = STUDENT_PAYMENTS_SHEET) then Some (payment_headers "student_id")
  else if decide (name = TEACHER_PAYMENTS_SHEET) then Some (payment_headers "teacher_id")
  else if decide (name = ACTIVITY_SHEET) then Some activity_headers
  else None.


(** A sheet of a document that may not exist. *)
Definition sheet_in (doc : option workbook) (name : string) : option worksheet :=
  doc ≫= fun wb => wb !! name.

(** The record carries the given ID under the given key. *)
Definition has_id (id_header person_id : string) (rec : record) : Prop :=
  rec !! VStr id_header = Some (VStr person_id).

#[global] Instance has_id_dec id_header person_id rec :
  Decision (has_id id_header person_id rec).
Proof. unfold has_id. apply _. Defined.

(** The header names a column at most once. *)
Definition single_column (h : string) (headers : list value) : Prop :=
  forall i j, headers !! i = Some (VStr h) -> headers !! j = Some (VStr h) -> i = j.

(** The records decoded from data rows under a header. *)
Definition records_from (headers : list value) (rows : list (list value)) : list record :=
  decode_row headers <$> filter (fun r => ¬ forallb is_none r) rows.


(** The cell that [update_cell] leaves under header [h] when it held
    [old]: as [partial_update], but a supplied [None] is not written. *)
Definition updated_value (data : record) (now : string) (h old : value) : value :=
  if bool_decide (h = VStr "created_at") then old
  else if bool_decide (h = VStr "updated_at") then VStr now
  else match data !! h with
       | Some v => if is_none v then old else v
       | None => old
       end.

(** One step of [update_row] on the row itself: column [k] (from 0)
    under header [h]. *)
Definition update_cell_in_row (data : record) (now : string) (k : nat) (h : value)
    (row : list value) : list value :=
  if bool_decide (h = VStr "created_at") then row
  else if bool_decide (h = VStr "updated_at") then <[k := VStr now]> (pad (S k) row)
  else match data !! h with
       | Some v => if is_none v then pad (S k) row else <[k := v]> (pad (S k) row)
       | None => row
       end.

Fixpoint update_cells (data : record) (now : string) (k : nat) (headers : list value)
    (row : list value) : list value :=
  match headers with
  | [] => row
  | h :: headers' =>
      update_cells data now (S k) headers' (update_cell_in_row data now k h row)
  end.

(** A record after [update_row]. *)
Definition updated_record (data : record) (now : string) (old : record) : record :=
  map_imap (fun h v => Some (updated_value data now h v)) old.

(** ** Vocabulary of the properties *)

(** The invariant of the clean-up loop when it is about to visit row
    [k + 1]: the rows below are kept rows. *)
Definition cleanup_inv (headers : list string) (k : nat) (rest : list (list value))
    (cur : nat) : Prop :=
  1 <= cur /\ Forall (kept_row headers) (drop k rest)
  /\ (length rest <= k \/ S (length rest) <= cur).

(** The value of a row at a position given from 0. *)
Definition at_col (i : nat) (row : list value) : value := default VNone (row !! i).

(** A computation that works on the cached workbook only: it neither
    looks at the outcome of the next save nor touches the file. *)
Definition cache_only {A} (m : M store A) : Prop :=
  forall st b,
    m (with_save b st) = ((m st).1, with_save b (m st).2)
    /\ path_file (m st).2 = path_file st.

Definition then_save (reached : bool) : M store bool :=
  if reached then _save ;;; ret true else ret false.

(** The list operation of an entity kind, as [payment_stats] picks it. *)
Definition list_people (entity : string) : M store (list record) :=
  if bool_decide (entity = "student") then list_students else list_teachers.

Definition people_sheet (entity : string) : string :=
  if bool_decide (entity = "student") then STUDENTS_SHEET else TEACHERS_SHEET.

(** The ID of a person record as [payment_stats] reads it. *)
Definition person_id_of (entity : string) (p : record) : string :=
  py_str (dict_get p (id_column entity) (VStr "")).








Section Vocabulary.

Variable int_of_str : string -> option Z.

(** The part of a mutating operation that comes before its save; the
    boolean tells whether the save follows. *)
Definition mutate_cache (op : mutation) : M store bool :=
  match op with
  | UpsertStudent data now =>
      _load ;;; on_sheet STUDENTS_SHEET (upsert_in_sheet "student_id" data now) ;;; ret true
  | UpsertTeacher data now =>
      _load ;;; on_sheet TEACHERS_SHEET (upsert_in_sheet "teacher_id" data now) ;;; ret true
  | SetPayment entity person_id year month status amount now =>
      _load ;;;
      on_sheet (payments_sheet entity)
        (set_payment_in_sheet int_of_str (id_column entity) person_id year month
           status amount now) ;;;
      ret true
  | DeleteStudent student_id =>
      _load ;;; on_sheet STUDENTS_SHEET (delete_in_sheet "student_id" student_id)
  | DeleteTeacher teacher_id =>
      _load ;;; on_sheet TEACHERS_SHEET (delete_in_sheet "teacher_id" teacher_id)
  | AddEvent event =>
      _load ;;;
      on_sheet ACTIVITY_SHEET
        (modify (append [VStr (timestamp event); VStr (action event);
                         VStr (entity_type event); VStr (entity_id event);
                         VStr (details event)])) ;;;
      ret true
  end.

(** The year and the month of a payment record convert with [int]. *)
Definition period_converts (r : record) : Prop :=
  (exists y, py_int int_of_str (dict_get r "year" (VNum 0)) = Ok y)
  /\ (exists m, py_int int_of_str (dict_get r "month" (VNum 0)) = Ok m).

(** A store whose cached payments table of [entity] holds records that
    convert. *)
Definition ledger_ready (entity : string) (st : store) : Prop :=
  exists wb ws, _wb st = Some wb /\ wb !! payments_sheet entity = Some ws
                /\ Forall period_converts (records_of ws).

End Vocabulary.

(** ** Further operations and observations *)

(** The value [upsert_student] and [upsert_teacher] put under header [h]
    of a new row: the time of the call for the two time stamps, the
    supplied value, or the empty string when the mapping has none. *)
Definition inserted_value (data : record) (now : string) (h : value) : value :=
  if bool_decide (h = VStr "created_at") then VStr now
  else if bool_decide (h = VStr "updated_at") then VStr now
  else default (VStr "") (data !! h).

(** No data row of the sheet is empty: the records are the data rows,
    one to one. *)
Definition no_empty_row (ws : worksheet) : Prop :=
  Forall (fun r => ¬ forallb is_none r) (data_rows ws).

(** The fields [set_payment] writes into an existing record. *)
Definition payment_data (status : string) (amount : Z) : record :=
  py_dict [(VStr "status", VStr status); (VStr "amount", VNum amount)].

(** A field of a payment record after [set_payment]: status, amount and
    the time stamp are replaced; the other fields, the key among them,
    stay. *)
Definition payment_update (status : string) (amount : Z) (now : string)
    (h old : value) : value :=
  if bool_decide (h = VStr "updated_at") then VStr now
  else if bool_decide (h = VStr "status") then VStr status
  else if bool_decide (h = VStr "amount") then VNum amount
  else old.

(** The row [set_payment] appends for a key without record. *)
Definition payment_row (id_col person_id : string) (year month : Z)
    (status : string) (amount : Z) (now : string) (headers : list value) : list value :=
  let data := py_dict [(VStr id_col, VStr person_id); (VStr "year", VNum year);
                       (VStr "month", VNum month); (VStr "status", VStr status);
                       (VStr "amount", VNum amount); (VStr "updated_at", VStr now)] in
  (fun h => default (VStr "") (data !! h)) <$> headers.

Section PaymentKey.

Variable int_of_str : string -> option Z.

(** The record is one for the key: person, year and month. *)
Definition has_key (id_col person_id : string) (year month : Z) (r : record) : Prop :=
  key_matches int_of_str id_col person_id year month r = Ok true.

#[global] Instance has_key_dec id_col person_id year month r :
  Decision (has_key id_col person_id year month r).
Proof. unfold has_key. apply _. Defined.

End PaymentKey.

Section MoreLedger.

Variable int_of_str : string -> option Z.
Variable float_of_str : string -> option Z.



End MoreLedger.



(** The sheet a mutating operation works on. *)
Definition mutation_sheet (op : mutation) : string :=
  match op with
  | UpsertStudent _ _ | DeleteStudent _ => STUDENTS_SHEET
  | UpsertTeacher _ _ | DeleteTeacher _ => TEACHERS_SHEET
  | SetPayment entity _ _ _ _ _ _ => payments_sheet entity
  | AddEvent _ => ACTIVITY_SHEET
  end.

(** The row [add_event] appends, and the record it reads back as under
    the header of the activity log. *)
Definition event_row (event : AppEvent) : list value :=
  [VStr (timestamp event); VStr (action event); VStr (entity_type event);
   VStr (entity_id event); VStr (details event)].

Definition event_record (event : AppEvent) : record :=
  decode_row (hvals activity_headers) (event_row event).

(** A row that [_cleanup_sheet] does not delete: its first [len(headers)]
    cells, as read, neither repeat the header nor are all blank. *)
Definition survives (headers : list string) (row : list value) : Prop :=
  let vals := take (length headers) (pad (length headers) row) in
  vals ≠ hvals headers /\ forallb is_blank vals = false.

#[global] Instance survives_dec headers row : Decision (survives headers row).
Proof. unfold survives. apply _. Defined.

(** What [cleanup_rows k] leaves of the rows below row 1, up to empty
    cells at the end of a row: of the first [k] rows those that survive,
    and the rows after them. *)
Definition cleaned (headers : list string) (c k : nat) (rest : list (list value))
    : list (list value) :=
  pad c <$> (filter (survives headers) (take k rest) ++ drop k rest).

Section PaymentStatus.

Variable int_of_str : string -> option Z.

(** The status [get_payment_status] reports for a key, given the records
    of the payments table: that of the first record of the key, Pending
    when it has none or an empty one, and Pending when no record has the
    key. *)
Definition recorded_status (id_col person_id : string) (year month : Z)
    (records : list record) : string :=
  match filter (has_key int_of_str id_col person_id year month) records with
  | r :: _ => py_str (py_or (dict_get r "status" (VStr "Pending")) (VStr "Pending"))
  | [] => "Pending"
  end.

(** A person counted by [payment_stats], and one counted as paid. *)
Definition counted (entity : string) (p : record) : Prop := person_id_of entity p ≠ "".

Definition counted_paid (entity : string) (year month : Z) (payments : list record)
    (p : record) : Prop :=
  person_id_of entity p ≠ ""
  /\ lower (recorded_status (id_column entity) (person_id_of entity p) year month payments)
     = "paid".

End PaymentStatus.

(** ** Field names ([_normalize_field_name] of [app.py]) *)

Open Scope N_scope.

(** [ch.isspace()], which is also what [\s] matches in a [str] pattern:
    the white space among the code points below 256. *)
Definition isspace (a : ascii) : bool :=
  let n := N_of_ascii a in
  bool_decide (9 <= n <= 13) || bool_decide (28 <= n <= 32)
  || bool_decide (n = 133) || bool_decide (n = 160).

(** The characters that [[^a-zA-Z0-9_\-]] does not match. *)
Definition is_name_char (a : ascii) : bool :=
  let n := N_of_ascii a in
  bool_decide (97 <= n <= 122) || bool_decide (65 <= n <= 90)
  || bool_decide (48 <= n <= 57) || bool_decide (n = 95) || bool_decide (n = 45).

Close Scope N_scope.

Fixpoint lstrip (s : string) : string :=
  match s with
  | EmptyString => EmptyString
  | String a s' => if isspace a then lstrip s' else s
  end.

Fixpoint rstrip (s : string) : string :=
  match s with
  | EmptyString => EmptyString
  | String a s' =>
      match rstrip s' with
      | EmptyString => if isspace a then EmptyString else String a EmptyString
      | r => String a r
      end
  end.

(** [name.strip()] *)
Definition strip (s : string) : string := rstrip (lstrip s).

(** [re.sub(r"\s+", "_", name)]: every maximal run of white space becomes
    one underscore; [in_run] tells that the character before was white
    space. *)
Fixpoint sub_spaces (in_run : bool) (s : string) : string :=
  match s with
  | EmptyString => EmptyString
  | String a s' =>
      if isspace a then
        if in_run then sub_spaces true s' else String "_" (sub_spaces true s')
      else String a (sub_spaces false s')
  end.

Definition _normalize_field_name (name : string) : string :=
  let name := strip name in
  let name := sub_spaces false name in
  str_filter is_name_char name.

(** ** Example documents *)

Definition t0 := "2026-03-01T09:00:00".
Definition t1 := "2026-03-02T10:30:00".

(** A converter for the examples: plain decimal literals. *)
Definition parse_decimal (s : string) : option Z :=
  if negb (bool_decide (s = EmptyString)) && str_forall is_decimal s
  then Some (Z.of_N (digits_value 0 s)) else None.

Definition blank_store : store := Store None None true.

(** The store right after [ensure_workbook([], [])] on a new path. *)
Definition schema_store : store := (ensure_workbook [] [] blank_store).2.

Definition alice : record :=
  py_dict [(VStr "student_id", VStr "STU-0001"); (VStr "first_name", VStr "Alice")].

Definition schema_wb : workbook := default ∅ (path_file schema_store).

(** A payments table with an empty row 2 above the only record, as left
    by clearing a row in a spreadsheet program. *)
Definition gap_sheet : worksheet :=
  Worksheet [hvals (payment_headers "student_id");
             [];
             [VStr "STU-0001"; VNum 2026; VNum 3; VStr "Paid"; VNum 500; VStr t0]] 3.

Definition gap_store : store :=
  Store (Some (<[STUDENT_PAYMENTS_SHEET := gap_sheet]> schema_wb)) None true.

(** A student table with one student. *)
Definition roster_store : store := (upsert_student alice t0 schema_store).2.

(** The roster with the payment of March 2026 recorded as paid. *)
Definition ledger_store : store :=
  (set_payment parse_decimal "student" "STU-0001" 2026 3 "Paid" 500 t0 roster_store).2.

(** The ledger with one event in the activity log. *)
Definition log_store : store :=
  (add_event {| timestamp := t0; action := "add_student"; entity_type := "student";
                entity_id := "STU-0001"; details := "created" |} ledger_store).2.

Definition log_wb : workbook := default ∅ (_wb log_store).
Definition students_sheet : worksheet := default empty_sheet (log_wb !! STUDENTS_SHEET).
Definition payments_sheet_ex : worksheet :=
  default empty_sheet (log_wb !! STUDENT_PAYMENTS_SHEET).
Definition activity_sheet : worksheet := default empty_sheet (log_wb !! ACTIVITY_SHEET).


(** A mapping without an ID. *)
Definition bob_without_id : record := py_dict [(VStr "first_name", VStr "Bob")].

Definition noid_store : store := (upsert_student bob_without_id t0 schema_store).2.

(** A sheet with a blank row 1 above the header. *)
Definition shifted_sheet : worksheet :=
  Worksheet [[VNone]; [VStr "id"; VStr "name"]; [VStr "7"; VStr "x"]] 3.

(** The students and teachers tables of the fresh document. *)
Definition schema_students : worksheet :=
  default empty_sheet (schema_wb !! STUDENTS_SHEET).
Definition schema_teachers : worksheet :=
  default empty_sheet (schema_wb !! TEACHERS_SHEET).


Definition toggle_event : AppEvent :=
  {| timestamp := t1; action := "toggle_tuition"; entity_type := "student";
     entity_id := "STU-0001"; details := "March 2026: Pending" |}.

(** A document without any sheet. *)
Definition empty_doc_store : store := Store (Some ∅) None true.

(** A table with an empty row and a repeated header row among its data. *)
Definition dirty_sheet : worksheet :=
  Worksheet [[VStr "id"; VStr "name"]; []; [VStr "7"; VStr "x"];
             [VStr "id"; VStr "name"]] 4.

Definition gap_wb : workbook := <[STUDENT_PAYMENTS_SHEET := gap_sheet]> schema_wb.

(** * Properties *)

Section WorksheetFacts.

Implicit Types (ws : worksheet) (row : list value) (rows : list (list value)).

Lemma filter_none {A} (P : A -> Prop) `{forall x, Decision (P x)} (l : list A) :
  (forall x, x ∈ l -> ¬ P x) -> filter P l = [].
Proof.
  intros Hno. destruct (filter P l) as [|x l'] eqn:E; [done|].
  assert (x ∈ filter P l) as Hx by (rewrite E; left).
  apply list_elem_of_filter in Hx as [HP Hin]. by destruct (Hno x Hin).
Qed.

Lemma length_pad c row : length (pad c row) = Nat.max c (length row).
Proof. unfold pad. rewrite length_app, length_replicate. lia. Qed.

Lemma pad_ge c row : c <= length row -> pad c row = row.
Proof.
  intros H. unfold pad. replace (c - length row) with 0 by lia.
  simpl. apply app_nil_r.
Qed.

Lemma pad_pad c d row : pad c (pad d row) = pad (Nat.max c d) row.
Proof.
  unfold pad. rewrite length_app, length_replicate, <- app_assoc.
  f_equal. rewrite <- replicate_add. f_equal. lia.
Qed.

Lemma lookup_pad c row i :
  default VNone (pad c row !! i) = default VNone (row !! i).
Proof.
  unfold pad. destruct (decide (i < length row)) as [Hi|Hi].
  - by rewrite lookup_app_l.
  - rewrite lookup_app_r by lia.
    rewrite (lookup_ge_None_2 row i) by lia. simpl.
    destruct (replicate _ _ !! _) eqn:E; [|done].
    apply lookup_replicate in E. by destruct E as [-> _].
Qed.

Lemma length_ensure_rows r rows : length (ensure_rows r rows) = Nat.max r (length rows).
Proof. unfold ensure_rows. rewrite length_app, length_replicate. lia. Qed.

Lemma max_row_ge ws : 1 <= max_row ws.
Proof. unfold max_row. lia. Qed.

Lemma max_column_ge ws : 1 <= max_column ws.
Proof. unfold max_column. lia. Qed.

Lemma row_le_max_column ws i row :
  ws_rows ws !! i = Some row -> length row <= max_column ws.
Proof.
  intros H. unfold max_column.
  assert (length row ∈ (length <$> ws_rows ws)) as Hin.
  { apply list_elem_of_fmap. exists row. split; [done|]. by eapply list_elem_of_lookup_2. }
  apply max_list_elem_of_le in Hin. lia.
Qed.

Lemma lookup_ensure_rows r rows i :
  i < r -> ensure_rows r rows !! i = Some (default [] (rows !! i)).
Proof.
  intros Hi. unfold ensure_rows.
  destruct (decide (i < length rows)) as [Hl|Hl].
  - rewrite lookup_app_l by done.
    destruct (lookup_lt_is_Some_2 rows i Hl) as [x Hx]. by rewrite Hx.
  - rewrite lookup_app_r by lia. rewrite (lookup_ge_None_2 rows i) by lia.
    simpl. apply lookup_replicate. split; [done|lia].
Qed.

Lemma values_of_row (l : list value) n :
  n <= length l ->
  (fun c => default VNone (l !! (c - 1))) <$> seq 1 n = take n l.
Proof.
  intros Hn. apply list_eq. intros i.
  rewrite list_lookup_fmap.
  destruct (decide (i < n)) as [Hi|Hi].
  - rewrite lookup_seq_lt by done. simpl.
    rewrite lookup_take_lt by done.
    rewrite Nat.sub_0_r.
    assert (i < length l) as Hl by lia.
    destruct (lookup_lt_is_Some_2 l i Hl) as [x Hx]. by rewrite Hx.
  - rewrite lookup_seq_ge by lia. simpl.
    symmetry. apply lookup_ge_None_2. rewrite length_take. lia.
Qed.

Lemma get_cell_row r c ws :
  1 <= r ->
  ws_rows (get_cell r c ws) !! (r - 1)
  = Some (pad c (default [] (ws_rows ws !! (r - 1)))).
Proof.
  intros Hr. simpl. rewrite list_lookup_alter_eq.
  rewrite lookup_ensure_rows by lia. done.
Qed.

Lemma read_cells_eq r n ws :
  1 <= r -> n ≠ 0 ->
  read_cells r n ws
  = (take n (pad n (default [] (ws_rows ws !! (r - 1)))), get_cell r n ws).
Proof.
  intros Hr Hn. unfold read_cells.
  rewrite bool_decide_eq_false_2 by done. f_equal.
  unfold cell_value. rewrite get_cell_row by done. simpl.
  apply values_of_row. rewrite length_pad. lia.
Qed.

Lemma ensure_rows_ge r rows : r <= length rows -> ensure_rows r rows = rows.
Proof.
  intros H. unfold ensure_rows. replace (r - length rows) with 0 by lia.
  simpl. apply app_nil_r.
Qed.

Lemma alter_middle {A} (f : A -> A) (pre post : list A) x :
  alter f (length pre) (pre ++ x :: post) = pre ++ f x :: post.
Proof.
  replace (length pre) with (length pre + 0) by lia.
  by rewrite alter_app_r.
Qed.

(** Touching a cell of the row that follows [pre]. *)
Lemma get_cell_middle pre row post cur c :
  get_cell (S (length pre)) c (Worksheet (pre ++ row :: post) cur)
  = Worksheet (pre ++ pad c row :: post) (Nat.max (S (length pre)) cur).
Proof.
  unfold get_cell. simpl. f_equal.
  rewrite ensure_rows_ge by (rewrite length_app; simpl; lia).
  rewrite Nat.sub_0_r. apply alter_middle.
Qed.

Lemma read_cells_middle pre row post cur n :
  n ≠ 0 ->
  read_cells (S (length pre)) n (Worksheet (pre ++ row :: post) cur)
  = (take n (pad n row),
     Worksheet (pre ++ pad n row :: post) (Nat.max (S (length pre)) cur)).
Proof.
  intros Hn. rewrite read_cells_eq by (done || lia).
  rewrite get_cell_middle. simpl. rewrite Nat.sub_0_r.
  by rewrite list_lookup_middle.
Qed.

(** Reading the rows that follow [pre], one after the other. *)
Lemma iter_rows_zipper c post : forall pre acc cur,
  c ≠ 0 ->
  foldl (fun acc r => let '(vs, w) := read_cells r c acc.2 in (acc.1 ++ [vs], w))
        (acc, Worksheet (pre ++ post) cur) (seq (S (length pre)) (length post))
  = (acc ++ ((fun row => take c (pad c row)) <$> post),
     Worksheet (pre ++ (pad c <$> post))
               (Nat.max (if post is [] then 0 else length pre + length post) cur)).
Proof.
  induction post as [|row post IH]; intros pre acc cur Hc.
  - simpl. by rewrite !app_nil_r.
  - change (length (row :: post)) with (S (length post)).
    rewrite <- cons_seq. cbn [foldl snd fst].
    rewrite read_cells_middle by done.
    replace (pre ++ pad c row :: post) with ((pre ++ [pad c row]) ++ post)
      by (by rewrite <- app_assoc).
    replace (S (S (length pre))) with (S (length (pre ++ [pad c row])))
      by (rewrite length_app; simpl; lia).
    rewrite IH by done. cbn [fmap list_fmap].
    rewrite <- !app_assoc. simpl. f_equal. f_equal.
    rewrite length_app. simpl. destruct post; simpl; lia.
Qed.

Lemma max_column_cons row rows cur cur' c :
  c = max_column (Worksheet (row :: rows) cur) ->
  max_column (Worksheet (pad c row :: rows) cur') = c.
Proof.
  unfold max_column. simpl. rewrite length_pad. lia.
Qed.

Lemma take_pad_full c row : length row <= c -> take c (pad c row) = pad c row.
Proof. intros H. apply take_ge. rewrite length_pad. lia. Qed.

Lemma rows_le_max_column ws :
  Forall (fun row => length row <= max_column ws) (ws_rows ws).
Proof.
  apply Forall_lookup. intros i row H. by eapply row_le_max_column.
Qed.

Lemma row1_values_eq ws :
  row1_values ws = (header_values ws, get_cell 1 (max_column ws) ws).
Proof.
  unfold row1_values. pose proof (max_column_ge ws).
  rewrite read_cells_eq by lia. f_equal.
  unfold header_values, grid. destruct ws as [[|row rows] cur]; simpl.
  - reflexivity.
  - apply take_pad_full. unfold max_column. simpl. lia.
Qed.

Lemma get_cell_row1 ws :
  get_cell 1 (max_column ws) ws
  = Worksheet (match ws_rows ws with
               | [] => [pad (max_column ws) []]
               | row :: rows => pad (max_column ws) row :: rows
               end) (Nat.max 1 (ws_current_row ws)).
Proof.
  destruct ws as [[|row rows] cur]; [reflexivity|].
  apply (get_cell_middle [] row rows cur).
Qed.

Lemma iter_rows_after_row1 ws :
  iter_rows_from2 (get_cell 1 (max_column ws) ws) = (data_rows ws, normalize ws).
Proof.
  rewrite get_cell_row1. unfold iter_rows_from2, data_rows, normalize, grid.
  destruct ws as [[|row rows] cur].
  - reflexivity.
  - set (c := max_column (Worksheet (row :: rows) cur)).
    cbn [ws_rows ws_current_row].
    rewrite (max_column_cons row rows cur _ c) by done.
    unfold max_row. cbn [ws_rows length].
    replace (Nat.max 1 (S (length rows)) - 1) with (length rows) by lia.
    pose proof (iter_rows_zipper c rows [pad c row] [] (Nat.max 1 cur)) as Hz.
    cbn [length app] in Hz. rewrite Hz by (subst c; pose proof (max_column_ge (Worksheet (row :: rows) cur)); lia).
    rewrite ensure_rows_ge by (simpl; lia). cbn [fmap list_fmap tail app].
    f_equal.
    + apply Forall_fmap_ext_1.
      pose proof (rows_le_max_column (Worksheet (row :: rows) cur)) as Hf.
      cbn [ws_rows] in Hf. apply Forall_cons in Hf as [_ Hf].
      eapply Forall_impl; [exact Hf|]. intros r Hr. by apply take_pad_full.
    + f_equal. destruct rows; simpl; lia.
Qed.

Lemma sheet_to_dicts_eq ws :
  _sheet_to_dicts ws = (Ok (records_of ws), normalize ws).
Proof.
  unfold _sheet_to_dicts, bind, lift, ret.
  rewrite row1_values_eq, iter_rows_after_row1. reflexivity.
Qed.

Lemma grid_row_length ws row : row ∈ grid ws -> length row = max_column ws.
Proof.
  unfold grid. intros (r & -> & Hr)%list_elem_of_fmap.
  rewrite length_pad. apply Nat.max_l.
  unfold ensure_rows in Hr. apply elem_of_app in Hr as [Hr|Hr].
  - apply list_elem_of_lookup in Hr as [i Hi]. by eapply row_le_max_column.
  - apply elem_of_replicate in Hr as [-> _]. simpl. lia.
Qed.

Lemma length_grid ws : length (grid ws) = max_row ws.
Proof. unfold grid, max_row. by rewrite length_fmap, length_ensure_rows. Qed.

Lemma max_list_const (l : list nat) c :
  l ≠ [] -> Forall (fun x => x = c) l -> max_list l = c.
Proof.
  induction l as [|x l IH]; [done|]. intros _ [-> Hl]%Forall_cons. simpl.
  destruct l as [|y l]; [simpl; lia|]. rewrite IH by done. lia.
Qed.

Lemma max_column_normalize ws : max_column (normalize ws) = max_column ws.
Proof.
  unfold max_column at 1. simpl.
  rewrite (max_list_const _ (max_column ws)).
  - pose proof (max_column_ge ws). lia.
  - intros H%fmap_nil_inv. pose proof (length_grid ws) as Hl.
    rewrite H in Hl. pose proof (max_row_ge ws). simpl in Hl. lia.
  - apply Forall_fmap, Forall_forall. intros row Hrow. by apply grid_row_length.
Qed.

Lemma max_row_normalize ws : max_row (normalize ws) = max_row ws.
Proof.
  unfold max_row at 1. simpl. rewrite length_grid. pose proof (max_row_ge ws). lia.
Qed.

Lemma grid_normalize ws : grid (normalize ws) = grid ws.
Proof.
  unfold grid at 1. rewrite max_column_normalize. simpl.
  rewrite ensure_rows_ge by (rewrite length_grid; apply max_row_ge).
  rewrite <- (list_fmap_id (grid ws)) at 2.
  apply Forall_fmap_ext_1, Forall_forall. intros row Hrow.
  simpl. apply pad_ge. by rewrite (grid_row_length ws row Hrow).
Qed.

Lemma normalize_idem ws : normalize (normalize ws) = normalize ws.
Proof.
  unfold normalize at 1. rewrite grid_normalize, max_row_normalize.
  unfold normalize. simpl. f_equal. lia.
Qed.

Lemma records_of_normalize ws : records_of (normalize ws) = records_of ws.
Proof. unfold records_of, header_values, data_rows. by rewrite grid_normalize. Qed.

(** *** Trimming *)

Lemma trim_rows_cons row rows :
  row ≠ [] -> trim_rows (row :: rows) = row :: trim_rows rows.
Proof.
  intros H. simpl. destruct (trim_rows rows); [|done].
  by rewrite bool_decide_eq_false_2.
Qed.

Lemma trim_rows_nonempty rows :
  Forall (fun row => row ≠ []) rows -> trim_rows rows = rows.
Proof.
  induction 1 as [|row rows Hrow _ IH]; [done|].
  by rewrite trim_rows_cons, IH.
Qed.

Lemma trim_rows_prefix rows : trim_rows rows `prefix_of` rows.
Proof.
  induction rows as [|row rows IH]; [done|]. simpl.
  destruct (trim_rows rows) as [|r t].
  - case_bool_decide; [apply prefix_nil|]. apply prefix_cons, prefix_nil.
  - by apply prefix_cons.
Qed.

Lemma trim_rows_empty_tail rows m : trim_rows (rows ++ replicate m []) = trim_rows rows.
Proof.
  assert (trim_rows (replicate m ([] : list value)) = []) as Hm.
  { induction m as [|m IH]; [done|]. cbn [replicate trim_rows]. by rewrite IH. }
  induction rows as [|row rows IH]; [done|].
  rewrite <- app_comm_cons. cbn [trim_rows]. by rewrite IH.
Qed.

(** *** Cells of row 1 *)

Lemma cell_row1 c v row1 rest cur :
  cell 1 c v (Worksheet (row1 :: rest) cur)
  = Worksheet ((if is_none v then pad c row1 else <[c - 1 := v]> (pad c row1)) :: rest)
              (Nat.max 1 cur).
Proof.
  unfold cell. pose proof (get_cell_middle [] row1 rest cur c) as H.
  cbn [length app] in H. rewrite H.
  by destruct (is_none v).
Qed.

Lemma overwrite_snoc (vals : list value) v row :
  <[length vals := v]> (pad (S (length vals)) (vals ++ drop (length vals) row))
  = (vals ++ [v]) ++ drop (S (length vals)) row.
Proof.
  unfold pad. rewrite length_app, length_drop.
  destruct (decide (length vals < length row)) as [Hlt|Hge].
  - replace (S (length vals) - (length vals + (length row - length vals))) with 0 by lia.
    simpl. rewrite app_nil_r.
    destruct (drop (length vals) row) as [|x t] eqn:Hd.
    + apply (f_equal length) in Hd. rewrite length_drop in Hd. simpl in Hd. lia.
    + replace (S (length vals)) with (length vals + 1) by lia.
      rewrite <- drop_drop, Hd. simpl. rewrite <- app_assoc. simpl.
      replace (length vals) with (length vals + 0) at 1 by lia.
      by rewrite insert_app_r.
  - rewrite !drop_ge by lia. rewrite !app_nil_r.
    replace (S (length vals) - (length vals + (length row - length vals))) with 1 by lia.
    simpl. replace (length vals) with (length vals + 0) at 1 by lia.
    by rewrite insert_app_r.
Qed.

Lemma write_cells_row1 (vals : list value) row1 rest cur :
  Forall (fun v => v ≠ VNone) vals -> vals ≠ [] ->
  write_cells 1 vals (Worksheet (row1 :: rest) cur)
  = Worksheet ((vals ++ drop (length vals) row1) :: rest) (Nat.max 1 cur).
Proof.
  unfold write_cells.
  induction vals as [|v vals IH] using rev_ind; [done|].
  intros [Hvals Hv]%Forall_app _. rewrite Forall_singleton in Hv.
  rewrite imap_app, foldl_app. cbn [imap foldl fst snd].
  rewrite Nat.add_0_r.
  assert (is_none v = false) as Hnone by (by apply bool_decide_eq_false_2).
  destruct vals as [|v0 vals'].
  - cbn [imap foldl length]. rewrite cell_row1, Hnone. do 2 f_equal.
    apply (overwrite_snoc [] v row1).
  - rewrite IH by done. rewrite cell_row1, Hnone.
    replace (S (length (v0 :: vals')) - 1) with (length (v0 :: vals')) by lia.
    rewrite overwrite_snoc. f_equal; [|lia].
    rewrite length_app. cbn [length]. by rewrite Nat.add_1_r.
Qed.

Lemma append_missing_row1 headers : forall existing rest cur,
  1 <= cur ->
  append_missing headers existing (Worksheet (existing :: rest) cur)
  = (existing ++ missing_columns existing headers,
     Worksheet ((existing ++ missing_columns existing headers) :: rest) cur).
Proof.
  unfold append_missing.
  induction headers as [|h headers IH]; intros existing rest cur Hcur.
  - simpl. by rewrite app_nil_r.
  - cbn [foldl missing_columns fst snd]. case_bool_decide as Hin.
    + by apply IH.
    + rewrite cell_row1. change (is_none (VStr h)) with false. cbv iota.
      replace (length existing + 1 - 1) with (length existing) by lia.
      replace (length existing + 1) with (S (length existing)) by lia.
      pose proof (overwrite_snoc existing (VStr h) existing) as Ho.
      rewrite !drop_ge, !app_nil_r in Ho by lia. rewrite Ho.
      replace (Nat.max 1 cur) with cur by lia.
      rewrite IH by done. by rewrite <- !app_assoc.
Qed.

Lemma missing_columns_complete headers : forall existing h,
  h ∈ headers -> VStr h ∈ existing ++ missing_columns existing headers.
Proof.
  induction headers as [|h0 headers IH]; intros existing h Hh; [by inversion Hh|].
  cbn [missing_columns]. apply elem_of_cons in Hh as [->|Hh].
  - case_bool_decide as Hin.
    + apply elem_of_app. by left.
    + apply elem_of_app. right. by left.
  - case_bool_decide as Hin; [by apply IH|].
    specialize (IH (existing ++ [VStr h0]) h Hh).
    by rewrite <- app_assoc in IH.
Qed.

Lemma forallb_is_none_head (row : list value) :
  is_none (default VNone (row !! 0)) && forallb is_none row = forallb is_none row.
Proof. destruct row as [|v row]; simpl; [done|]. by destruct (is_none v). Qed.

Lemma get_cell_full_row1 c row1 rest cur :
  1 <= c <= length row1 -> 1 <= cur ->
  get_cell 1 c (Worksheet (row1 :: rest) cur) = Worksheet (row1 :: rest) cur.
Proof.
  intros Hc Hcur. pose proof (get_cell_middle [] row1 rest cur c) as H.
  cbn [length app] in H. rewrite H, pad_ge by lia. f_equal. lia.
Qed.

(** [_ensure_sheet_headers], case by case. *)
Lemma ensure_sheet_headers_eq ws headers :
  headers ≠ [] ->
  let n := length headers in
  let row1 := pad (max_column ws) (hd [] (ws_rows ws)) in
  let cur1 := Nat.max 1 (ws_current_row ws) in
  _ensure_sheet_headers ws headers
  = if forallb is_none row1 then
      match tail (ws_rows ws) with
      | row2 :: rest' =>
          if bool_decide (take n (pad n row2) = hvals headers)
          then delete_rows 1 (Worksheet (row1 :: pad n row2 :: rest') (Nat.max 2 cur1))
          else Worksheet ((hvals headers ++ drop n row1) :: pad n row2 :: rest')
                         (Nat.max 1 (Nat.max 2 cur1))
      | [] => Worksheet [hvals headers ++ drop n row1] (Nat.max 1 cur1)
      end
    else if bool_decide (row1 ≠ hvals headers)
         then Worksheet ((row1 ++ missing_columns row1 headers) :: tail (ws_rows ws)) cur1
         else Worksheet (row1 :: tail (ws_rows ws)) cur1.
Proof.
  intros Hh n row1 cur1. unfold _ensure_sheet_headers.
  pose proof (max_row_ge ws). pose proof (max_column_ge ws).
  rewrite bool_decide_eq_false_2 by lia.
  rewrite row1_values_eq, get_cell_row1.
  assert (header_values ws = row1) as ->.
  { unfold header_values, grid, row1. by destruct (ws_rows ws). }
  assert (length row1 = max_column ws) as Hlen1.
  { unfold row1. rewrite length_pad. apply Nat.max_l.
    destruct ws as [[|r rows] cur]; simpl; [lia|].
    unfold max_column. simpl. lia. }
  assert (hvals headers ≠ []) as Hhv by (by destruct headers).
  assert (Forall (fun v => v ≠ VNone) (hvals headers)) as Hvs.
  { apply Forall_fmap, Forall_forall. by intros. }
  assert (length (hvals headers) = n) as Hn by apply length_fmap.
  set (ws1 := Worksheet _ _).
  assert (ws1 = Worksheet (row1 :: tail (ws_rows ws)) cur1) as ->.
  { unfold ws1, row1. by destruct (ws_rows ws). }
  rewrite get_cell_full_row1 by (unfold cur1; lia).
  unfold cell_value. cbn [ws_rows lookup]. simpl (_ ≫= _).
  rewrite forallb_is_none_head.
  destruct (forallb is_none row1) eqn:Hblank.
  - unfold max_row. cbn [ws_rows length].
    destruct (tail (ws_rows ws)) as [|row2 rest'] eqn:Hrest.
    + cbn [length]. rewrite bool_decide_eq_false_2 by lia.
      rewrite write_cells_row1 by done. by rewrite Hn.
    + cbn [length]. rewrite bool_decide_eq_true_2 by lia.
      pose proof (read_cells_middle [row1] row2 rest' cur1 n) as Hr.
      simpl in Hr. fold n. rewrite Hr by (subst n; by destruct headers).
      case_bool_decide; [done|].
      rewrite write_cells_row1 by done. by rewrite Hn.
  - assert (max_column (Worksheet (row1 :: tail (ws_rows ws)) cur1) = max_column ws) as Hmc.
    { unfold row1. destruct ws as [[|r rows] cur]; [done|].
      by apply (max_column_cons r rows cur). }
    rewrite row1_values_eq, Hmc.
    rewrite get_cell_full_row1 by (unfold cur1; lia).
    assert (header_values (Worksheet (row1 :: tail (ws_rows ws)) cur1) = row1) as ->.
    { unfold header_values, grid. rewrite Hmc. simpl. apply pad_ge. lia. }
    case_bool_decide; [|done].
    by rewrite append_missing_row1 by (unfold cur1; lia).
Qed.

(** *** The policy of [_ensure_sheet_headers] *)

Lemma row_values_eq r n ws :
  row_values r n ws = take n (pad n (default [] (ws_rows ws !! (r - 1)))).
Proof.
  unfold row_values, cell_value.
  rewrite <- (values_of_row (pad n _) n) by (rewrite length_pad; lia).
  apply list_fmap_ext. intros _ c _. rewrite lookup_pad.
  by destruct (ws_rows ws !! (r - 1)).
Qed.

Lemma cell_value_pad_rows k rows cur cur' r c :
  cell_value r c (Worksheet (pad k <$> rows) cur) = cell_value r c (Worksheet rows cur').
Proof.
  unfold cell_value. simpl. rewrite list_lookup_fmap.
  destruct (rows !! (r - 1)) as [row|]; simpl; [|done]. apply lookup_pad.
Qed.

Lemma all_none_lookup (row : list value) i :
  forallb is_none row = true -> default VNone (row !! i) = VNone.
Proof.
  intros H. destruct (row !! i) as [v|] eqn:Hv; [|done]. simpl.
  apply list_elem_of_lookup_2 in Hv.
  rewrite forallb_forall in H. apply list_elem_of_In, H in Hv.
  by apply bool_decide_eq_true_1 in Hv.
Qed.

Lemma missing_columns_elem headers : forall existing v,
  v ∈ missing_columns existing headers <-> v ∈ hvals headers /\ v ∉ existing.
Proof.
  induction headers as [|h headers IH]; intros existing v; cbn [missing_columns hvals fmap list_fmap].
  - split; [by intros ?%elem_of_nil|by intros [?%elem_of_nil _]].
  - change (list_fmap _ _ VStr headers) with (hvals headers).
    case_bool_decide as Hin.
    + rewrite IH, elem_of_cons. split; [tauto|]. intros [[->|Hv] Hno]; tauto.
    + rewrite !elem_of_cons, IH, elem_of_app, list_elem_of_singleton.
      split.
      * intros [->|[Hv Hno]]; [tauto|]. split; [tauto|]. intros ?. apply Hno. tauto.
      * intros [[->|Hv] Hno]; [tauto|].
        destruct (decide (v = VStr h)) as [->|Hne]; [tauto|]. right. split; [done|].
        intros [?|?]; tauto.
Qed.

Lemma max_list_cons x (l : list nat) : max_list (x :: l) = Nat.max x (max_list l).
Proof. reflexivity. Qed.

Lemma max_column_first row rest cur :
  1 <= length row -> Forall (fun r => length r <= length row) rest ->
  max_column (Worksheet (row :: rest) cur) = length row.
Proof.
  intros H1 Hrest. unfold max_column.
  assert (max_list (length <$> rest) <= length row) as Hm.
  { induction Hrest as [|r rest Hr _ IH]; [simpl; lia|].
    rewrite fmap_cons, max_list_cons. lia. }
  cbn [ws_rows]. rewrite fmap_cons, max_list_cons. lia.
Qed.

Lemma tail_le_max_column ws :
  Forall (fun r => length r <= max_column ws) (tail (ws_rows ws)).
Proof.
  pose proof (rows_le_max_column ws) as H. destruct (ws_rows ws); [done|].
  by apply Forall_cons in H as [_ H].
Qed.

Lemma cell_value_S r c row rows cur cur' :
  1 <= r ->
  cell_value (S r) c (Worksheet (row :: rows) cur) = cell_value r c (Worksheet rows cur').
Proof.
  intros Hr. destruct r as [|r]; [lia|]. unfold cell_value. simpl.
  by rewrite Nat.sub_0_r.
Qed.

Lemma cell_value_tail r c ws cur' :
  2 <= r ->
  cell_value r c ws = cell_value (r - 1) c (Worksheet (tail (ws_rows ws)) cur').
Proof.
  intros Hr. unfold cell_value. simpl. rewrite lookup_tail.
  by replace (S (r - 1 - 1)) with (r - 1) by lia.
Qed.

Lemma max_row_tail ws : max_row ws = Nat.max 1 (S (length (tail (ws_rows ws)))) \/ ws_rows ws = [].
Proof. unfold max_row. destruct (ws_rows ws); [by right|by left]. Qed.

(** C7.  Header repair.  When row 1 is entirely blank: if row 2 already
    holds the required columns, row 1 is deleted and every row moves up
    by one, so that row 2 becomes the header; otherwise the required
    columns are written over row 1 and nothing else changes.  When row 1
    is not blank, no cell of the sheet is overwritten: the header becomes
    the existing header followed by the required columns it lacks, in
    the order of the requirement, and the rows below stay as they are. *)
Theorem header_repair_policy ws headers :
  headers ≠ [] ->
  let n := length headers in
  let ws' := _ensure_sheet_headers ws headers in
  (forallb is_none (header_values ws) = true ->
     (2 <= max_row ws /\ row_values 2 n ws = hvals headers ->
        max_row ws' = max_row ws - 1
        /\ forall r c, 1 <= r -> cell_value r c ws' = cell_value (S r) c ws)
     /\ (¬ (2 <= max_row ws /\ row_values 2 n ws = hvals headers) ->
        max_row ws' = max_row ws
        /\ forall r c, 1 <= r -> 1 <= c ->
             cell_value r c ws'
             = if bool_decide (r = 1 /\ c <= n)
               then default VNone (hvals headers !! (c - 1))
               else cell_value r c ws))
  /\ (forallb is_none (header_values ws) = false ->
      let existing := header_values ws in
      header_values ws' = existing ++ missing_columns existing headers
      /\ (forall v, v ∈ missing_columns existing headers
                    <-> v ∈ hvals headers /\ v ∉ existing)
      /\ max_row ws' = max_row ws
      /\ forall r c, 2 <= r -> cell_value r c ws' = cell_value r c ws).
Proof.
  intros Hh n ws'. unfold ws'. rewrite ensure_sheet_headers_eq by done.
  fold n.
  assert (header_values ws = pad (max_column ws) (hd [] (ws_rows ws))) as Hhv.
  { unfold header_values, grid. by destruct (ws_rows ws). }
  rewrite <- Hhv.
  assert (length (header_values ws) = max_column ws) as Hlen1.
  { apply grid_row_length. unfold header_values.
    pose proof (length_grid ws) as Hl. pose proof (max_row_ge ws).
    destruct (grid ws); [simpl in Hl; lia|left]. }
  assert (length (hvals headers) = n) as Hn by apply length_fmap.
  assert (forall c, default VNone (header_values ws !! (c - 1)) = cell_value 1 c ws) as Hrow1.
  { intros c. rewrite Hhv, lookup_pad. unfold cell_value. by destruct (ws_rows ws). }
  split.
  - intros Hblank. rewrite Hblank.
    rewrite row_values_eq. change (2 - 1) with 1. rewrite <- lookup_tail.
    split.
    + intros [Hmax Hrow2].
      destruct (tail (ws_rows ws)) as [|row2 rest'] eqn:Htail.
      { destruct (max_row_tail ws) as [Hm|Hm]; [rewrite Htail in Hm; simpl in Hm; lia|].
        unfold max_row in Hmax. rewrite Hm in Hmax. simpl in Hmax. lia. }
      cbn [lookup list_lookup default] in Hrow2.
      rewrite bool_decide_eq_true_2 by done.
      unfold delete_rows. cbn [ws_rows length].
      rewrite bool_decide_eq_true_2 by lia.
      change (1 - 1) with 0. cbn [take drop app].
      set (c2 := max_column _).
      assert (1 <= c2) as Hc2 by apply max_column_ge.
      rewrite trim_rows_nonempty.
      2:{ apply Forall_fmap, Forall_forall. intros row _ Hrow. simpl in Hrow.
          apply (f_equal length) in Hrow. rewrite length_pad in Hrow. simpl in Hrow. lia. }
      split.
      * destruct (max_row_tail ws) as [Hm|Hm]; [|by rewrite Hm in Htail].
        rewrite Hm, Htail. unfold max_row. simpl. rewrite length_fmap. simpl. lia.
      * intros r c Hr. rewrite (cell_value_pad_rows _ _ _ 0).
        rewrite (cell_value_tail (S r) c ws 0) by lia. rewrite Htail.
        replace (S r - 1) with r by lia.
        unfold cell_value. simpl.
        destruct (r - 1) as [|i]; simpl; [apply lookup_pad|done].
    + intros Hnot.
      assert (forall tl cur',
        (tl = tail (ws_rows ws)
         \/ exists row2 rest', tail (ws_rows ws) = row2 :: rest' /\ tl = pad n row2 :: rest') ->
        max_row (Worksheet ((hvals headers ++ drop n (header_values ws)) :: tl) cur')
        = max_row ws
        /\ forall r c, 1 <= r -> 1 <= c ->
             cell_value r c (Worksheet ((hvals headers ++ drop n (header_values ws)) :: tl) cur')
             = if bool_decide (r = 1 /\ c <= n)
               then default VNone (hvals headers !! (c - 1))
               else cell_value r c ws) as Hwrite.
      { intros tl cur' Htl. split.
        - assert (length tl = length (tail (ws_rows ws))) as Hlt.
          { destruct Htl as [->|(row2 & rest' & -> & ->)]; done. }
          unfold max_row. simpl. rewrite Hlt. destruct (ws_rows ws); simpl; lia.
        - intros r c Hr Hc. destruct (decide (r = 1)) as [->|Hr1].
          + unfold cell_value at 1. simpl.
            destruct (decide (c <= n)) as [Hcn|Hcn].
            * rewrite bool_decide_eq_true_2 by done.
              by rewrite lookup_app_l by lia.
            * rewrite bool_decide_eq_false_2 by tauto.
              rewrite lookup_app_r by lia. rewrite lookup_drop, Hn.
              rewrite <- Hrow1. by rewrite !all_none_lookup.
          + rewrite bool_decide_eq_false_2 by tauto.
            rewrite (cell_value_tail r c ws 0) by lia.
            destruct r as [|r]; [lia|]. rewrite (cell_value_S r c _ _ _ 0) by lia.
            replace (S r - 1) with r by lia.
            destruct Htl as [->|(row2 & rest' & -> & ->)]; [done|].
            unfold cell_value. simpl.
            destruct (r - 1) as [|i]; simpl; [apply lookup_pad|done]. }
      destruct (tail (ws_rows ws)) as [|row2 rest'] eqn:Htail.
      * apply Hwrite. by left.
      * rewrite bool_decide_eq_false_2.
        -- apply Hwrite. right. by exists row2, rest'.
        -- intros Heq. apply Hnot. split; [|done].
           destruct (max_row_tail ws) as [Hm|Hm]; [|by rewrite Hm in Htail].
           rewrite Hm, Htail. simpl. lia.
  - intros Hblank. rewrite Hblank. set (existing := header_values ws).
    assert (forall row,
      (row = existing \/ row = existing ++ missing_columns existing headers) ->
      header_values (Worksheet (row :: tail (ws_rows ws)) (Nat.max 1 (ws_current_row ws)))
      = row
      /\ max_row (Worksheet (row :: tail (ws_rows ws)) (Nat.max 1 (ws_current_row ws)))
         = max_row ws
      /\ forall r c, 2 <= r ->
           cell_value r c (Worksheet (row :: tail (ws_rows ws)) (Nat.max 1 (ws_current_row ws)))
           = cell_value r c ws) as Hres.
    { intros row Hrow.
      assert (max_column ws <= length row) as Hlr.
      { destruct Hrow as [->| ->]; [unfold existing; lia|].
        rewrite length_app. unfold existing. lia. }
      pose proof (max_column_ge ws).
      split; [|split].
      - unfold header_values, grid.
        rewrite max_column_first; [simpl; apply pad_ge; lia|lia|].
        eapply Forall_impl; [apply tail_le_max_column|]. simpl. lia.
      - unfold max_row. simpl. destruct (ws_rows ws); simpl; lia.
      - intros r c Hr. rewrite (cell_value_tail r c ws 0) by lia.
        destruct r as [|r]; [lia|]. rewrite (cell_value_S r c _ _ _ 0) by lia.
        by replace (S r - 1) with r by lia. }
    case_bool_decide as Hne.
    + destruct (Hres (existing ++ missing_columns existing headers)) as (H1 & H2 & H3);
        [by right|].
      split; [exact H1|]. split; [apply missing_columns_elem|]. by split.
    + destruct (Hres existing) as (H1 & H2 & H3); [by left|].
      assert (missing_columns existing headers = []) as Hnil.
      { assert (existing = hvals headers) as Heq
          by (destruct (decide (existing = hvals headers)); [done|by destruct Hne]).
        clear Hne. rename Heq into Hne.
        destruct (missing_columns existing headers) as [|v l] eqn:E; [done|].
        assert (v ∈ missing_columns existing headers) as Hv by (rewrite E; left).
        apply missing_columns_elem in Hv as [Hv1 Hv2]. by rewrite Hne in Hv2. }
      rewrite Hnil, app_nil_r. split; [exact H1|]. split; [|by split].
      intros v. rewrite <- Hnil. apply missing_columns_elem.
Qed.

(** *** Idempotence of the repairs *)

Lemma kept_row_pad headers c row : kept_row headers row -> kept_row headers (pad c row).
Proof.
  intros (Hlen & Hne & Hnb). unfold kept_row, pad.
  rewrite length_app, take_app_le by done. split; [lia|done].
Qed.

Lemma drop_prefix {A} k (l1 l2 : list A) :
  l1 `prefix_of` l2 -> drop k l1 `prefix_of` drop k l2.
Proof. intros [t ->]. rewrite drop_app. by eexists. Qed.

Lemma Forall_prefix {A} (P : A -> Prop) (l1 l2 : list A) :
  l1 `prefix_of` l2 -> Forall P l2 -> Forall P l1.
Proof. intros [t ->] H. by apply Forall_app in H as [H _]. Qed.

Lemma all_blank_replicate n : forallb is_blank (replicate n VNone) = true.
Proof. induction n as [|n IH]; [done|]. simpl. by rewrite IH. Qed.

Lemma cleanup_rows_inv headers row1 : forall k rest cur,
  headers ≠ [] -> row1 ≠ [] ->
  cleanup_inv headers k rest cur ->
  exists rest' cur',
    cleanup_rows k headers (Worksheet (row1 :: rest) cur) = Worksheet (row1 :: rest') cur'
    /\ cleanup_inv headers 0 rest' cur'.
Proof.
  intros k rest cur Hh Hrow1. revert rest cur.
  assert (length headers ≠ 0) as Hn by (by destruct headers).
  induction k as [|k IH]; intros rest cur Hinv.
  { by exists rest, cur. }
  destruct Hinv as (Hcur & Hgood & Hlen).
  cbn [cleanup_rows].
  destruct (decide (k < length rest)) as [Hk|Hk].
  - (* the row exists *)
    destruct (lookup_lt_is_Some_2 rest k Hk) as [row Hrow].
    assert (rest = take k rest ++ row :: drop (S k) rest) as Hsplit
      by (by rewrite <- (take_drop_middle rest k row) at 1).
    set (pre := take k rest) in *. set (post := drop (S k) rest) in *.
    assert (length pre = k) as Hpre by (unfold pre; rewrite length_take; lia).
    pose proof (read_cells_middle (row1 :: pre) row post cur (length headers) Hn) as Hr.
    cbn [length] in Hr. rewrite Hpre in Hr. rewrite <- app_comm_cons, <- Hsplit in Hr.
    rewrite Hr. clear Hr.
    set (vals := take (length headers) (pad (length headers) row)).
    set (ws1 := Worksheet _ _).
    assert (exists rest2 cur2,
      delete_rows (S (S k)) ws1 = Worksheet (row1 :: rest2) cur2
      /\ cleanup_inv headers k rest2 cur2) as (rest2 & cur2 & Hdel & Hinv2).
    { unfold delete_rows, ws1. cbn [ws_rows].
      rewrite bool_decide_eq_true_2
        by (rewrite <- app_comm_cons; cbn [length]; rewrite length_app; simpl; lia).
      replace (S (S k) - 1) with (S k) by lia.
      set (c1 := max_column _).
      rewrite <- app_comm_cons. cbn [take drop].
      rewrite take_app_length' by done.
      replace (drop (S k) (pre ++ pad (length headers) row :: post)) with post.
      2:{ replace (S k) with (length (pre ++ [pad (length headers) row]))
            by (rewrite length_app; simpl; lia).
          replace (pre ++ pad (length headers) row :: post)
            with ((pre ++ [pad (length headers) row]) ++ post)
            by (by rewrite <- app_assoc).
          by rewrite drop_app_length. }
      rewrite <- app_comm_cons, trim_rows_cons by done.
      eexists _, _. split; [reflexivity|].
      split; [cbn [length]; lia|]. split; [|right; cbn [length]; lia].
      eapply Forall_prefix.
      - apply drop_prefix, trim_rows_prefix.
      - rewrite <- Hpre at 1. rewrite drop_app_length.
        apply Forall_fmap. eapply Forall_impl; [exact Hgood|].
        intros r Hr. by apply kept_row_pad. }
    destruct (decide (vals = hvals headers)) as [Hv|Hv].
    { rewrite bool_decide_eq_true_2 by done. rewrite Hdel. by apply IH. }
    rewrite bool_decide_eq_false_2 by done.
    destruct (forallb is_blank vals) eqn:Hb.
    { rewrite Hdel. by apply IH. }
    unfold ws1. rewrite <- app_comm_cons. apply IH.
    split; [lia|]. split.
    + rewrite <- Hpre at 1. rewrite drop_app_length. apply Forall_cons. split; [|done].
      unfold kept_row. rewrite length_pad. split; [lia|]. done.
    + right. rewrite length_app. cbn [length].
      assert (length rest = length pre + S (length post)) as Hl
        by (rewrite Hsplit at 1; rewrite length_app; done).
      lia.
  - (* the row is below the last row *)
    rewrite read_cells_eq by (lia || done).
    replace (S (S k) - 1) with (S k) by lia.
    cbn [ws_rows]. rewrite (lookup_ge_None_2 (row1 :: rest) (S k)) by (simpl; lia).
    change (pad (length headers) (default [] None))
      with (replicate (length headers - 0) VNone).
    rewrite Nat.sub_0_r.
    rewrite take_ge by (rewrite length_replicate; lia).
    assert (replicate (length headers) VNone ≠ hvals headers) as Hne.
    { destruct headers; [done|]. simpl. congruence. }
    rewrite (bool_decide_eq_false_2 _ Hne), all_blank_replicate.
    assert (exists rest2 cur2,
      delete_rows (S (S k)) (get_cell (S (S k)) (length headers) (Worksheet (row1 :: rest) cur))
      = Worksheet (row1 :: rest2) cur2
      /\ cleanup_inv headers k rest2 cur2) as (rest2 & cur2 & -> & Hinv2);
      [|by apply IH].
    unfold delete_rows, get_cell. cbn [ws_rows].
    replace (S (S k) - 1) with (S k) by lia.
    rewrite length_alter, length_ensure_rows. cbn [length].
    rewrite bool_decide_eq_true_2 by lia.
    rewrite take_alter_ge by lia. rewrite drop_alter_lt by lia.
    unfold ensure_rows. cbn [length].
    rewrite drop_ge by (rewrite length_app, length_replicate; cbn [length]; lia).
    cbn [fmap list_fmap]. rewrite app_nil_r.
    replace (S (S k) - S (length rest)) with (S (k - length rest)) by lia.
    rewrite replicate_S_end, app_assoc.
    replace (S k) with (length ((row1 :: rest) ++ replicate (k - length rest) []))
      by (rewrite length_app, length_replicate; cbn [length]; lia).
    rewrite take_app_length, trim_rows_empty_tail, trim_rows_cons by done.
    eexists _, _. split; [reflexivity|].
    split; [cbn [length]; lia|]. split; [|right; cbn [length]; lia].
    rewrite drop_ge; [done|].
    pose proof (prefix_length _ _ (trim_rows_prefix rest)). lia.
Qed.


Lemma elem_of_take_pad (v : value) n m row :
  v ∈ take n (pad n row) -> v ≠ VNone -> v ∈ pad m row.
Proof.
  intros Hin Hv. apply list_elem_of_lookup in Hin as [i Hi].
  apply lookup_take_Some in Hi as [Hi _].
  unfold pad in *. apply lookup_app_Some in Hi as [Hi|[_ Hi]].
  - apply elem_of_app. left. by eapply list_elem_of_lookup_2.
  - apply lookup_replicate in Hi as [-> _]. done.
Qed.

(** After [_ensure_sheet_headers], row 1 holds every required column. *)
Lemma ensure_sheet_headers_row1 ws headers :
  headers ≠ [] ->
  exists row1 rest cur,
    _ensure_sheet_headers ws headers = Worksheet (row1 :: rest) cur
    /\ (forall h, h ∈ headers -> VStr h ∈ row1) /\ 1 <= cur.
Proof.
  intros Hh. rewrite ensure_sheet_headers_eq by done.
  set (n := length headers). set (row1 := pad _ _).
  assert (forall h t, h ∈ headers -> VStr h ∈ hvals headers ++ t) as Hin.
  { intros h t Hin. apply elem_of_app. left. by apply list_elem_of_fmap_2. }
  destruct (forallb is_none row1).
  - destruct (tail (ws_rows ws)) as [|row2 rest'].
    + eexists _, _, _. split; [reflexivity|]. split; [by intros; apply Hin|lia].
    + case_bool_decide as Hrow2.
      * unfold delete_rows. cbn [ws_rows length].
        rewrite bool_decide_eq_true_2 by lia. change (1 - 1) with 0.
        cbn [take drop app fmap list_fmap].
        set (c2 := max_column _).
        rewrite trim_rows_cons.
        2:{ intros Hrow. apply (f_equal length) in Hrow.
            rewrite !length_pad in Hrow. simpl in Hrow.
            assert (n ≠ 0) by (by destruct headers). lia. }
        eexists _, _, _. split; [reflexivity|]. split; [|cbn [length]; lia].
        intros h Hhin. rewrite pad_pad.
        apply (elem_of_take_pad _ n); [|done].
        rewrite Hrow2. by apply list_elem_of_fmap_2.
      * eexists _, _, _. split; [reflexivity|]. split; [by intros; apply Hin|lia].
  - case_bool_decide as Hne.
    + eexists _, _, _. split; [reflexivity|].
      split; [intros; by apply missing_columns_complete|lia].
    + eexists _, _, _. split; [reflexivity|]. split; [|lia].
      assert (row1 = hvals headers) as ->
        by (destruct (decide (row1 = hvals headers)); [done|by destruct Hne]).
      intros h Hhin. by apply list_elem_of_fmap_2.
Qed.

Lemma first_row_not_blank headers (row1 : list value) :
  headers ≠ [] -> (forall h, h ∈ headers -> VStr h ∈ row1) ->
  row1 ≠ [] /\ forall c, forallb is_none (pad c row1) = false.
Proof.
  intros Hh Hin. destruct headers as [|h headers]; [done|].
  assert (VStr h ∈ row1) as Hh1 by (apply Hin; left).
  split; [by intros ->; apply elem_of_nil in Hh1|].
  intros c. apply not_true_is_false. intros Hall.
  rewrite forallb_forall in Hall.
  assert (VStr h ∈ pad c row1) as Hp by (apply elem_of_app; by left).
  by apply list_elem_of_In, Hall in Hp.
Qed.

(** The two repairs leave a repaired sheet. *)
Lemma repair_repaired headers ws :
  headers ≠ [] -> repaired headers (repair headers ws).
Proof.
  intros Hh. unfold repair.
  destruct (ensure_sheet_headers_row1 ws headers Hh) as (row1 & rest & cur & -> & Hin & Hcur).
  destruct (first_row_not_blank headers row1 Hh Hin) as [Hrow1 _].
  unfold _cleanup_sheet, max_row. cbn [ws_rows length].
  case_bool_decide as Hmax.
  - destruct rest; [|simpl in Hmax; lia].
    exists row1, []. cbn [ws_rows ws_current_row length]. repeat split; (done || lia).
  - destruct (cleanup_rows_inv headers row1 (length rest) rest cur Hh Hrow1)
      as (rest' & cur' & Heq & (Hcur' & Hgood & Hlen)).
    { split; [done|]. split; [by rewrite drop_all|by left]. }
    replace (Nat.max 1 (S (length rest)) - 1) with (length rest) by lia.
    rewrite Heq. exists row1, rest'. cbn [ws_rows ws_current_row length].
    rewrite drop_0 in Hgood. repeat split; [done|done|lia].
Qed.


Lemma grid_get_cell_row1 ws : grid (get_cell 1 (max_column ws) ws) = grid ws.
Proof.
  rewrite get_cell_row1. destruct ws as [[|row rows] cur]; [done|].
  unfold grid. cbn [ws_rows].
  rewrite (max_column_cons row rows cur _ _ eq_refl).
  rewrite !ensure_rows_ge by (simpl; lia).
  cbn [fmap list_fmap]. by rewrite pad_pad, Nat.max_id.
Qed.


(** *** Finding a row by its ID *)

Lemma first_match {A} (P : A -> Prop) `{forall x, Decision (P x)} (l : list A) :
  Forall (fun x => ¬ P x) l
  \/ exists p1 x p2, l = p1 ++ x :: p2 /\ Forall (fun x => ¬ P x) p1 /\ P x.
Proof.
  induction l as [|x l IH]; [by left|].
  destruct (decide (P x)) as [Hx|Hx].
  - right. by exists [], x, l.
  - destruct IH as [IH|(p1 & y & p2 & -> & Hp1 & Hy)].
    + left. by constructor.
    + right. exists (x :: p1), y, p2. repeat split; [|done]. by constructor.
Qed.

Lemma cell_value_middle pre row post cur c :
  cell_value (S (length pre)) c (Worksheet (pre ++ row :: post) cur)
  = default VNone (row !! (c - 1)).
Proof.
  unfold cell_value. simpl. rewrite Nat.sub_0_r. by rewrite list_lookup_middle.
Qed.

Lemma at_col_pad i c row : at_col i (pad c row) = at_col i row.
Proof. apply lookup_pad. Qed.

Lemma scan_rows_none c v post : forall pre cur,
  Forall (fun row => at_col (c - 1) row ≠ v) post ->
  scan_rows c v (seq (S (length pre)) (length post)) (Worksheet (pre ++ post) cur)
  = (None, Worksheet (pre ++ (pad c <$> post))
             (Nat.max (if post is [] then 0 else length pre + length post) cur)).
Proof.
  induction post as [|row post IH]; intros pre cur Hno.
  - simpl. by rewrite !app_nil_r.
  - apply Forall_cons in Hno as [Hrow Hno].
    change (length (row :: post)) with (S (length post)).
    rewrite <- cons_seq. cbn [scan_rows].
    rewrite get_cell_middle, cell_value_middle.
    fold (at_col (c - 1) (pad c row)). rewrite at_col_pad.
    rewrite bool_decide_eq_false_2 by done.
    replace (pre ++ pad c row :: post) with ((pre ++ [pad c row]) ++ post)
      by (by rewrite <- app_assoc).
    replace (S (S (length pre))) with (S (length (pre ++ [pad c row])))
      by (rewrite length_app; simpl; lia).
    rewrite IH by done. rewrite <- !app_assoc. cbn [fmap list_fmap app].
    do 2 f_equal. rewrite length_app. cbn [length]. destruct post; simpl; lia.
Qed.

Lemma scan_rows_some c v p1 row p2 pre cur :
  Forall (fun row => at_col (c - 1) row ≠ v) p1 -> at_col (c - 1) row = v ->
  scan_rows c v (seq (S (length pre)) (length (p1 ++ row :: p2)))
    (Worksheet (pre ++ p1 ++ row :: p2) cur)
  = (Some (S (length pre + length p1)),
     Worksheet (pre ++ (pad c <$> p1) ++ pad c row :: p2)
               (Nat.max (S (length pre + length p1)) cur)).
Proof.
  revert pre cur. induction p1 as [|r p1 IH]; intros pre cur Hno Hrow.
  - cbn [app length]. rewrite <- cons_seq. cbn [scan_rows].
    rewrite get_cell_middle, cell_value_middle.
    fold (at_col (c - 1) (pad c row)). rewrite at_col_pad.
    rewrite bool_decide_eq_true_2 by done. by rewrite Nat.add_0_r.
  - apply Forall_cons in Hno as [Hr Hno].
    change (length ((r :: p1) ++ row :: p2)) with (S (length (p1 ++ row :: p2))).
    rewrite <- cons_seq. cbn [scan_rows]. rewrite <- app_comm_cons.
    rewrite get_cell_middle, cell_value_middle.
    fold (at_col (c - 1) (pad c r)). rewrite at_col_pad.
    rewrite bool_decide_eq_false_2 by done.
    replace (pre ++ pad c r :: p1 ++ row :: p2)
      with ((pre ++ [pad c r]) ++ p1 ++ row :: p2) by (by rewrite <- app_assoc).
    replace (S (S (length pre))) with (S (length (pre ++ [pad c r])))
      by (rewrite length_app; simpl; lia).
    rewrite IH by done. rewrite <- !app_assoc. cbn [fmap list_fmap app length].
    rewrite length_app. cbn [length].
    replace (S (length pre + 1 + length p1)) with (S (length pre + S (length p1))) by lia.
    do 2 f_equal. lia.
Qed.

Lemma grid_hd_tail ws :
  grid ws = header_values ws :: (pad (max_column ws) <$> tail (ws_rows ws)).
Proof.
  destruct ws as [[|r rs] cur]; [done|]. unfold header_values, grid.
  by rewrite ensure_rows_ge by (simpl; lia).
Qed.

Lemma grid_full_first row1 rest cur c :
  length row1 = c -> 1 <= c -> Forall (fun r => length r <= c) rest ->
  grid (Worksheet (row1 :: rest) cur) = row1 :: (pad c <$> rest).
Proof.
  intros Hlen Hc Hrest. unfold grid.
  rewrite max_column_first by (by rewrite Hlen).
  rewrite ensure_rows_ge by (simpl; lia). cbn [ws_rows fmap list_fmap].
  rewrite Hlen. f_equal. apply pad_ge. lia.
Qed.

Lemma length_header_values ws : length (header_values ws) = max_column ws.
Proof.
  apply grid_row_length. rewrite grid_hd_tail. left.
Qed.

Lemma list_index_lt (h : value) headers i :
  list_index h headers = Some i -> i < length headers /\ headers !! i = Some h.
Proof.
  revert i. induction headers as [|x headers IH]; intros i; [done|].
  cbn [list_index]. case_bool_decide as Hx.
  - intros [= <-]. subst. simpl. split; [lia|done].
  - destruct (list_index h headers) as [j|]; [|done]. intros [= <-].
    destruct (IH j eq_refl). simpl. split; [lia|done].
Qed.

Lemma Forall_pad_le c d (rows : list (list value)) :
  c <= d -> Forall (fun r => length r <= d) rows ->
  Forall (fun r => length r <= d) (pad c <$> rows).
Proof.
  intros Hc H. apply Forall_fmap. eapply Forall_impl; [exact H|].
  intros r Hr. simpl in *. rewrite length_pad. lia.
Qed.

Lemma fmap_pad_pad c d (rows : list (list value)) :
  c <= d -> pad d <$> (pad c <$> rows) = pad d <$> rows.
Proof.
  intros Hc. rewrite <- list_fmap_compose. apply list_fmap_ext.
  intros _ r _. simpl. rewrite pad_pad. f_equal. lia.
Qed.

(** [_find_row_by_id], case by case: no ID column; no row with the ID;
    a first row with the ID. *)
Lemma find_row_by_id_cases id_header person_id ws :
  let hdr := header_values ws in
  let rest := tail (ws_rows ws) in
  let cur1 := Nat.max 1 (ws_current_row ws) in
  (list_index (VStr id_header) hdr = None
   /\ _find_row_by_id id_header person_id ws = (Ok None, Worksheet (hdr :: rest) cur1))
  \/ (exists i, list_index (VStr id_header) hdr = Some i
      /\ Forall (fun row => at_col i row ≠ VStr person_id) rest
      /\ _find_row_by_id id_header person_id ws
         = (Ok None, Worksheet (hdr :: (pad (i + 1) <$> rest))
                       (Nat.max (if rest is [] then 0 else 1 + length rest) cur1)))
  \/ (exists i p1 row p2, list_index (VStr id_header) hdr = Some i
      /\ rest = p1 ++ row :: p2
      /\ Forall (fun row => at_col i row ≠ VStr person_id) p1
      /\ at_col i row = VStr person_id
      /\ _find_row_by_id id_header person_id ws
         = (Ok (Some (2 + length p1)),
            Worksheet (hdr :: (pad (i + 1) <$> p1) ++ pad (i + 1) row :: p2)
                      (Nat.max (2 + length p1) cur1))).
Proof.
  intros hdr rest cur1. unfold _find_row_by_id, bind, lift, get, ret.
  rewrite row1_values_eq, get_cell_row1. fold hdr.
  assert (match ws_rows ws with
          | [] => [pad (max_column ws) []]
          | row :: rows => pad (max_column ws) row :: rows
          end = hdr :: rest) as ->.
  { unfold hdr, rest, header_values, grid. by destruct (ws_rows ws). }
  fold cur1.
  destruct (list_index (VStr id_header) hdr) as [i|] eqn:Hi; [|by left].
  right. unfold max_row. cbn [ws_rows length].
  replace (Nat.max 1 (S (length rest)) - 1) with (length rest) by lia.
  replace (i + 1 - 1) with i by lia.
  destruct (first_match (fun row => at_col i row = VStr person_id) rest)
    as [Hno|(p1 & row & p2 & Hrest & Hno & Hrow)].
  - left. exists i. split; [done|]. split; [done|].
    pose proof (scan_rows_none (i + 1) (VStr person_id) rest [hdr] cur1) as Hs.
    replace (i + 1 - 1) with i in Hs by lia. cbn [length app] in Hs.
    by rewrite Hs.
  - right. exists i, p1, row, p2. repeat (split; [done|]).
    pose proof (scan_rows_some (i + 1) (VStr person_id) p1 row p2 [hdr] cur1) as Hs.
    replace (i + 1 - 1) with i in Hs by lia. cbn [length app] in Hs.
    rewrite Hrest. by rewrite Hs.
Qed.

(** *** Decoded rows *)

Lemma decode_row_snoc headers row h v :
  length headers = length row ->
  decode_row (headers ++ [h]) (row ++ [v]) = <[h := v]> (decode_row headers row).
Proof.
  intros Hlen. unfold decode_row, py_dict.
  rewrite zip_with_app by done. by rewrite foldl_app.
Qed.

Lemma decode_row_lookup headers : forall row i k,
  length headers = length row ->
  headers !! i = Some k -> (forall j, headers !! j = Some k -> j = i) ->
  decode_row headers row !! k = row !! i.
Proof.
  induction headers as [|h headers IH] using rev_ind; intros row i k Hlen Hi Huniq;
    [done|].
  destruct row as [|v row _] using rev_ind.
  { rewrite length_app in Hlen. simpl in Hlen. lia. }
  rewrite !length_app in Hlen. simpl in Hlen.
  rewrite decode_row_snoc by lia.
  destruct (decide (i = length headers)) as [->|Hne].
  - rewrite list_lookup_middle in Hi by done. injection Hi as ->.
    rewrite lookup_insert_eq. symmetry. apply list_lookup_middle. lia.
  - assert (i < length headers) as Hlt.
    { apply lookup_lt_Some in Hi. rewrite length_app in Hi. simpl in Hi. lia. }
    rewrite lookup_app_l in Hi by done.
    rewrite lookup_insert_ne.
    + rewrite lookup_app_l by lia. apply IH; [lia|done|].
      intros j Hj. apply Huniq. rewrite lookup_app_l; [done|].
      by apply lookup_lt_Some in Hj.
    + intros ->. apply Hne. symmetry. apply Huniq. by apply list_lookup_middle.
Qed.

Lemma decode_row_lookup_none headers : forall row k,
  k ∉ headers -> decode_row headers row !! k = None.
Proof.
  intros row k Hk. unfold decode_row, py_dict.
  assert (forall (items : list (value * value)) (acc : record),
            acc !! k = None -> k ∉ items.*1 ->
            foldl (fun d kv => <[kv.1 := kv.2]> d) acc items !! k = None) as H.
  { induction items as [|[a b] items IH]; intros acc Hacc Hno; [done|].
    cbn [foldl]. apply IH.
    - rewrite lookup_insert_ne; [done|]. intros <-. apply Hno. left.
    - intros Hin. apply Hno. by right. }
  apply H; [done|]. intros Hin. apply Hk.
  apply list_elem_of_fmap in Hin as ([a b] & -> & Hin).
  apply elem_of_zip_l in Hin. done.
Qed.

Lemma list_index_none (h : value) headers : list_index h headers = None -> h ∉ headers.
Proof.
  induction headers as [|x headers IH]; [intros _ []%elem_of_nil|].
  cbn [list_index]. case_bool_decide as Hx; [done|].
  destruct (list_index h headers); [done|]. intros _ [->|Hin]%elem_of_cons; [done|].
  by apply IH.
Qed.

Lemma row_with_value_not_blank i c (row : list value) s :
  at_col i row = VStr s -> ¬ forallb is_none (pad c row).
Proof.
  intros Hat Hall. apply Is_true_eq_true in Hall.
  pose proof (all_none_lookup (pad c row) i Hall) as Hn.
  fold (at_col i (pad c row)) in Hn. rewrite at_col_pad in Hn. congruence.
Qed.

Lemma normalize_eq ws ws' :
  grid ws' = grid ws ->
  Nat.max (max_row ws) (ws_current_row ws') = Nat.max (max_row ws) (ws_current_row ws) ->
  normalize ws' = normalize ws.
Proof.
  intros Hg Hc. unfold normalize. rewrite Hg. f_equal.
  by rewrite <- (length_grid ws'), Hg, length_grid.
Qed.

Lemma records_of_from ws : records_of ws = records_from (header_values ws) (data_rows ws).
Proof. reflexivity. Qed.

Lemma data_rows_eq ws : data_rows ws = pad (max_column ws) <$> tail (ws_rows ws).
Proof. unfold data_rows. by rewrite grid_hd_tail. Qed.

Lemma records_from_app hdr l1 l2 :
  records_from hdr (l1 ++ l2) = records_from hdr l1 ++ records_from hdr l2.
Proof. unfold records_from. by rewrite filter_app, fmap_app. Qed.

Lemma records_from_cons hdr r l :
  ¬ forallb is_none r -> records_from hdr (r :: l) = decode_row hdr r :: records_from hdr l.
Proof. intros H. unfold records_from. by rewrite filter_cons_True. Qed.

Lemma records_from_no_id hdr id_header person_id i c rows :
  length hdr = c -> hdr !! i = Some (VStr id_header) ->
  single_column id_header hdr ->
  Forall (fun r => length r <= c) rows ->
  Forall (fun r => at_col i r ≠ VStr person_id) rows ->
  Forall (fun rec => ¬ has_id id_header person_id rec) (records_from hdr (pad c <$> rows)).
Proof.
  intros Hlen Hi Huniq Hle Hno. unfold records_from.
  apply Forall_fmap, Forall_forall. intros r [_ Hr]%list_elem_of_filter.
  apply list_elem_of_fmap in Hr as (r0 & -> & Hr0).
  rewrite Forall_forall in Hno, Hle. specialize (Hno r0 Hr0). specialize (Hle r0 Hr0).
  simpl in *. unfold has_id. intros Hid.
  rewrite (decode_row_lookup hdr (pad c r0) i) in Hid.
  - apply Hno. unfold at_col. rewrite <- (lookup_pad c). by rewrite Hid.
  - rewrite length_pad. lia.
  - done.
  - intros j Hj. by apply (Huniq j i).
Qed.

Lemma records_from_no_column hdr id_header person_id rows :
  VStr id_header ∉ hdr ->
  Forall (fun rec => ¬ has_id id_header person_id rec) (records_from hdr rows).
Proof.
  intros Hno. unfold records_from. apply Forall_fmap, Forall_forall.
  intros r _. simpl. unfold has_id. by rewrite decode_row_lookup_none.
Qed.

Lemma delete_rows_middle pre row post cur :
  delete_rows (S (length pre)) (Worksheet (pre ++ row :: post) cur)
  = let rows := trim_rows
                  (pre ++ (pad (max_column (Worksheet (pre ++ row :: post) cur)) <$> post)) in
    Worksheet rows (length rows).
Proof.
  unfold delete_rows. cbn [ws_rows].
  rewrite bool_decide_eq_true_2 by (rewrite length_app; simpl; lia).
  replace (S (length pre) - 1) with (length pre) by lia.
  rewrite take_app_length.
  replace (drop (S (length pre)) (pre ++ row :: post)) with post; [done|].
  replace (pre ++ row :: post) with ((pre ++ [row]) ++ post) by (by rewrite <- app_assoc).
  replace (S (length pre)) with (length (pre ++ [row])) by (rewrite length_app; simpl; lia).
  by rewrite drop_app_length.
Qed.

(** [delete_in_sheet]: either no record has the ID, nothing is deleted
    and the table reads as before; or the first record with the ID is
    removed from the table. *)
Lemma delete_in_sheet_cases id_header person_id ws :
  single_column id_header (header_values ws) ->
  (Forall (fun rec => ¬ has_id id_header person_id rec) (records_of ws)
   /\ exists ws', delete_in_sheet id_header person_id ws = (Ok false, ws')
                  /\ normalize ws' = normalize ws)
  \/ (exists before rec after ws',
        records_of ws = before ++ rec :: after
        /\ has_id id_header person_id rec
        /\ Forall (fun rec => ¬ has_id id_header person_id rec) before
        /\ delete_in_sheet id_header person_id ws = (Ok true, ws')
        /\ records_of ws' = before ++ after).
Proof.
  intros Huniq. unfold delete_in_sheet, bind.
  pose proof (length_header_values ws) as Hlen.
  pose proof (max_column_ge ws) as Hc1.
  pose proof (tail_le_max_column ws) as Hle.
  pose proof (grid_hd_tail ws) as Hgrid.
  rewrite records_of_from, data_rows_eq.
  set (hdr := header_values ws) in *. set (c := max_column ws) in *.
  set (rest := tail (ws_rows ws)) in *.
  destruct (find_row_by_id_cases id_header person_id ws)
    as [[Hi ->]|[(i & Hi & Hno & ->)|(i & p1 & row & p2 & Hi & Hrest & Hno & Hrow & ->)]];
    fold hdr rest in Hi |- *; fold c.
  - left. split; [by apply records_from_no_column, list_index_none|].
    eexists. split; [reflexivity|]. apply normalize_eq.
    + rewrite grid_full_first with (c := c) by done. by rewrite Hgrid.
    + cbn [ws_current_row]. pose proof (max_row_ge ws). lia.
  - left. apply list_index_lt in Hi as [Hilt Hi]. split.
    + by apply (records_from_no_id hdr id_header person_id i c).
    + eexists. split; [reflexivity|]. apply normalize_eq.
      * rewrite grid_full_first with (c := c); [|done|done|apply Forall_pad_le; [lia|done]].
        rewrite fmap_pad_pad by lia. by rewrite Hgrid.
      * cbn [ws_current_row]. unfold max_row, rest.
        destruct (ws_rows ws) as [|r0 [|r1 rs]]; simpl; lia.
  - right. apply list_index_lt in Hi as [Hilt Hi].
    fold rest in Hrest. rewrite Hrest in Hle |- *.
    apply Forall_app in Hle as [Hle1 Hle2]. apply Forall_cons in Hle2 as [Hler Hle2].
    rewrite fmap_app, fmap_cons, records_from_app, records_from_cons
      by (by eapply row_with_value_not_blank).
    eexists _, _, _, _. split; [reflexivity|]. split; [|split; [|split; [reflexivity|]]].
    + unfold has_id. rewrite (decode_row_lookup hdr (pad c row) i).
      * unfold at_col in Hrow. rewrite <- (lookup_pad c) in Hrow.
        destruct (pad c row !! i) eqn:E; [simpl in Hrow; by subst|].
        apply lookup_ge_None in E. rewrite length_pad in E. lia.
      * rewrite length_pad. lia.
      * done.
      * intros j Hj. by apply (Huniq j i).
    + by apply (records_from_no_id hdr id_header person_id i c).
    + unfold modify, ret. cbn [fst snd].
      (* the sheet after the deletion *)
      replace (2 + length p1) with (S (length (hdr :: (pad (i + 1) <$> p1))))
        by (cbn [length]; rewrite length_fmap; lia).
      rewrite app_comm_cons, delete_rows_middle. cbv zeta.
      rewrite <- !app_comm_cons.
      replace (Nat.max (S (length (hdr :: (pad (i + 1) <$> p1)))) (Nat.max 1 (ws_current_row ws)))
        with (Nat.max (S (S (length p1))) (Nat.max 1 (ws_current_row ws)))
        by (cbn [length]; rewrite length_fmap; lia).
      assert (max_column (Worksheet (hdr :: (pad (i + 1) <$> p1) ++ pad (i + 1) row :: p2)
                            (Nat.max (S (S (length p1))) (Nat.max 1 (ws_current_row ws))))
              = c) as ->.
      { rewrite max_column_first; [done|lia|]. rewrite Hlen.
        apply Forall_app. split; [apply Forall_pad_le; [lia|done]|].
        apply Forall_cons. split; [rewrite length_pad; lia|done]. }
      rewrite trim_rows_nonempty.
      2:{ apply Forall_cons. split; [intros E; by rewrite E in Hlen; simpl in Hlen; lia|].
          apply Forall_app. split; apply Forall_fmap, Forall_forall; intros r _ E;
            simpl in E; apply (f_equal length) in E; rewrite length_pad in E;
            simpl in E; lia. }
      rewrite records_of_from, data_rows_eq. cbn [ws_rows tail].
      assert (header_values (Worksheet (hdr :: (pad (i + 1) <$> p1) ++ (pad c <$> p2))
                (length (hdr :: (pad (i + 1) <$> p1) ++ (pad c <$> p2)))) = hdr
              /\ max_column (Worksheet (hdr :: (pad (i + 1) <$> p1) ++ (pad c <$> p2))
                (length (hdr :: (pad (i + 1) <$> p1) ++ (pad c <$> p2)))) = c) as [-> ->].
      { assert (Forall (fun r => length r <= c) ((pad (i + 1) <$> p1) ++ (pad c <$> p2))) as Hf.
        { apply Forall_app. split; apply Forall_pad_le; (lia || done). }
        split.
        - unfold header_values. by rewrite grid_full_first with (c := c).
        - rewrite max_column_first; [done|lia|by rewrite Hlen]. }
      rewrite fmap_app, !fmap_pad_pad by lia.
      by rewrite records_from_app.
Qed.

(** *** Updating a row in place *)

Lemma cell_middle pre row post cur c v :
  S (length pre) <= cur ->
  cell (S (length pre)) c v (Worksheet (pre ++ row :: post) cur)
  = Worksheet (pre ++ (if is_none v then pad c row else <[c - 1 := v]> (pad c row)) :: post)
              cur.
Proof.
  intros Hcur. unfold cell. rewrite get_cell_middle.
  replace (Nat.max (S (length pre)) cur) with cur by lia.
  destruct (is_none v); [done|]. cbn [ws_rows ws_current_row].
  replace (S (length pre) - 1) with (length pre) by lia.
  by rewrite alter_middle.
Qed.

Lemma update_row_middle data now pre post cur headers : forall k row,
  S (length pre) <= cur ->
  foldl (update_cell (S (length pre)) data now) (Worksheet (pre ++ row :: post) cur)
        (imap (fun j h => (k + j, h)) headers)
  = Worksheet (pre ++ update_cells data now k headers row :: post) cur.
Proof.
  induction headers as [|h headers IH]; intros k row Hcur; [done|].
  rewrite imap_cons. cbn [foldl update_cells].
  assert (update_cell (S (length pre)) data now (Worksheet (pre ++ row :: post) cur)
            (k + 0, h)
          = Worksheet (pre ++ update_cell_in_row data now k h row :: post) cur) as ->.
  { unfold update_cell, update_cell_in_row. cbn [fst snd]. rewrite Nat.add_0_r.
    case_bool_decide; [done|]. case_bool_decide.
    - rewrite cell_middle by done. change (is_none (VStr now)) with false.
      by replace (S k - 1) with k by lia.
    - destruct (data !! h) as [v|]; [|done]. rewrite cell_middle by done.
      by replace (S k - 1) with k by lia. }
  rewrite <- (IH (S k)) by done. f_equal.
  apply imap_ext. intros j x _. simpl. f_equal. lia.
Qed.

Lemma at_col_insert k j v (row : list value) :
  k < length row ->
  at_col j (<[k := v]> row) = if decide (j = k) then v else at_col j row.
Proof.
  intros Hk. unfold at_col. case_decide as Hj.
  - subst. by rewrite list_lookup_insert_eq.
  - by rewrite list_lookup_insert_ne.
Qed.

Lemma at_col_update_cell data now k h row j :
  at_col j (update_cell_in_row data now k h row)
  = if decide (j = k) then updated_value data now h (at_col k row) else at_col j row.
Proof.
  unfold update_cell_in_row, updated_value.
  assert (k < length (pad (S k) row)) as Hk by (rewrite length_pad; lia).
  case_bool_decide; [by case_decide; subst|].
  case_bool_decide.
  { rewrite at_col_insert by done. case_decide; [done|apply at_col_pad]. }
  destruct (data !! h) as [v|]; [|by case_decide; subst].
  destruct (is_none v).
  - rewrite at_col_pad. by case_decide; subst.
  - rewrite at_col_insert by done. case_decide; [done|apply at_col_pad].
Qed.

Lemma length_update_cell data now k h row :
  length (update_cell_in_row data now k h row) <= Nat.max (length row) (S k).
Proof.
  unfold update_cell_in_row. repeat case_bool_decide; try lia.
  - rewrite length_insert, length_pad. lia.
  - destruct (data !! h) as [v|]; [|lia].
    destruct (is_none v); rewrite ?length_insert, length_pad; lia.
Qed.

Lemma length_update_cell_ge data now k h row :
  length row <= length (update_cell_in_row data now k h row).
Proof.
  unfold update_cell_in_row. repeat case_bool_decide; try lia.
  - rewrite length_insert, length_pad. lia.
  - destruct (data !! h) as [v|]; [|lia].
    destruct (is_none v); rewrite ?length_insert, length_pad; lia.
Qed.

Lemma update_cells_spec data now headers : forall k row,
  length row <= length (update_cells data now k headers row)
  /\ length (update_cells data now k headers row)
     <= Nat.max (length row) (k + length headers)
  /\ forall j,
       at_col j (update_cells data now k headers row)
       = match headers !! (j - k) with
         | Some h => if decide (k <= j) then updated_value data now h (at_col j row)
                     else at_col j row
         | None => at_col j row
         end.
Proof.
  induction headers as [|h headers IH]; intros k row.
  - cbn [update_cells length]. split; [lia|]. split; [lia|]. intros j. by rewrite lookup_nil.
  - cbn [update_cells length].
    destruct (IH (S k) (update_cell_in_row data now k h row)) as (Hge & Hle & Hat).
    pose proof (length_update_cell data now k h row).
    pose proof (length_update_cell_ge data now k h row).
    split; [lia|]. split; [lia|].
    intros j. rewrite Hat, at_col_update_cell.
    destruct (decide (j = k)) as [->|Hjk].
    + rewrite Nat.sub_diag. replace (k - S k) with 0 by lia. cbn [lookup list_lookup].
      rewrite decide_True by lia.
      destruct (headers !! 0); [by rewrite decide_False by lia|done].
    + destruct (decide (k <= j)) as [Hkj|Hkj].
      * replace (j - k) with (S (j - S k)) by lia. cbn [lookup list_lookup].
        destruct (headers !! (j - S k)); [by rewrite decide_True by lia|done].
      * replace (j - S k) with 0 by lia. replace (j - k) with 0 by lia.
        cbn [lookup list_lookup].
        destruct (headers !! 0); [by rewrite decide_False by lia|done].
Qed.

Lemma list_eq_at_col (l1 l2 : list value) :
  length l1 = length l2 -> (forall j, j < length l1 -> at_col j l1 = at_col j l2) -> l1 = l2.
Proof.
  intros Hlen Hat. apply list_eq. intros j.
  destruct (decide (j < length l1)) as [Hj|Hj].
  - specialize (Hat j Hj). unfold at_col in Hat.
    destruct (lookup_lt_is_Some_2 l1 j Hj) as [x Hx].
    destruct (lookup_lt_is_Some_2 l2 j ltac:(lia)) as [y Hy].
    rewrite Hx, Hy in *. simpl in Hat. by subst.
  - by rewrite !lookup_ge_None_2 by lia.
Qed.

Lemma pad_update_cells data now headers row c :
  length headers = c -> length row <= c ->
  pad c (update_cells data now 0 headers row)
  = zip_with (updated_value data now) headers (pad c row).
Proof.
  intros Hh Hrow.
  destruct (update_cells_spec data now headers 0 row) as (Hge & Hle & Hat).
  apply list_eq_at_col.
  - rewrite length_pad, length_zip_with, length_pad. lia.
  - intros j Hj. rewrite length_pad in Hj. rewrite at_col_pad, Hat, Nat.sub_0_r.
    assert (j < length headers) as Hjh by lia.
    assert (j < length (pad c row)) as Hjr by (rewrite length_pad; lia).
    destruct (lookup_lt_is_Some_2 headers j Hjh) as [h Hhj].
    destruct (lookup_lt_is_Some_2 (pad c row) j Hjr) as [x Hx].
    assert (at_col j row = x) as Hrx.
    { unfold at_col. rewrite <- (lookup_pad c). by rewrite Hx. }
    rewrite Hhj, Hrx, decide_True by lia.
    unfold at_col. by rewrite lookup_zip_with, Hhj, Hx.
Qed.

Lemma decode_row_updated data now headers row :
  decode_row headers (zip_with (updated_value data now) headers row)
  = updated_record data now (decode_row headers row).
Proof.
  unfold decode_row, py_dict, updated_record.
  set (F := fun h v => Some (updated_value data now h v)).
  rewrite <- (map_imap_empty F) at 1. generalize (∅ : record) as acc.
  revert row. induction headers as [|h headers IH]; intros row acc; [done|].
  destruct row as [|v row]; [done|]. cbn [zip_with foldl fst snd].
  rewrite <- IH. f_equal. symmetry. by apply map_imap_insert_Some.
Qed.


Lemma not_blank_at_col i (row : list value) : at_col i row ≠ VNone -> ¬ forallb is_none row.
Proof.
  intros Hat Hall. apply Is_true_eq_true in Hall. apply Hat.
  by apply all_none_lookup.
Qed.

Lemma header_values_full_first hdr rest cur :
  1 <= length hdr -> Forall (fun r => length r <= length hdr) rest ->
  header_values (Worksheet (hdr :: rest) cur) = hdr.
Proof.
  intros H1 Hle. unfold header_values.
  by rewrite grid_full_first with (c := length hdr).
Qed.


End WorksheetFacts.

Section StoreFacts.

Lemma table_headers_nonempty s t name hs : table_headers s t name = Some hs -> hs ≠ [].
Proof.
  unfold table_headers. repeat case_decide; intros [= <-]; done.
Qed.

Lemma ensure_tables_lookup s t wb name :
  ensure_tables s t wb !! name
  = match table_headers s t name with
    | Some hs => Some (repair hs (default empty_sheet (wb !! name)))
    | None => wb !! name
    end.
Proof.
  unfold ensure_tables, ensure_sheet, table_headers, repair.
  repeat case_decide; subst;
    repeat first [ rewrite lookup_insert_eq | rewrite lookup_insert_ne by done ];
    reflexivity.
Qed.


Lemma load_eq st wb :
  current_wb st = Some wb ->
  _load st = (Ok tt, Store (path_file st) (Some wb) (save_ok st)).
Proof.
  unfold current_wb, _load. destruct st as [d [c|] w]; simpl.
  - by intros [= ->].
  - by intros ->.
Qed.

Lemma on_sheet_eq {A} (m : M worksheet A) name d wb w ws :
  wb !! name = Some ws ->
  on_sheet name m (Store d (Some wb) w)
  = ((m ws).1, Store d (Some (<[name := (m ws).2]> wb)) w).
Proof.
  intros H. unfold on_sheet. simpl. rewrite H. by destruct (m ws).
Qed.

(** Reading a table returns its records and leaves the cached sheet read
    through. *)
Lemma read_table_eq st wb name ws :
  current_wb st = Some wb -> wb !! name = Some ws ->
  (_load ;;; on_sheet name _sheet_to_dicts) st
  = (Ok (records_of ws),
     Store (path_file st) (Some (<[name := normalize ws]> wb)) (save_ok st)).
Proof.
  intros Hwb Hws. unfold bind. rewrite (load_eq _ _ Hwb).
  rewrite (on_sheet_eq _ _ _ _ _ _ Hws), sheet_to_dicts_eq. reflexivity.
Qed.

Lemma bind_assoc {S A B C} (m : M S A) (f : A -> M S B) (g : B -> M S C) st :
  bind (bind m f) g st = bind m (fun a => bind (f a) g) st.
Proof. unfold bind. by destruct (m st) as [[a|e] st']. Qed.

Lemma slice_from_0 {A} (rows : list A) : slice_from (- 0) rows = rows.
Proof.
  unfold slice_from. change (- 0)%Z with 0%Z.
  rewrite bool_decide_eq_false_2 by lia.
  replace (Z.to_nat _) with 0 by lia. reflexivity.
Qed.

Lemma slice_from_neg {A} (limit : Z) (rows : list A) :
  (1 <= limit)%Z ->
  slice_from (- limit) rows
  = drop (length rows - Nat.min (Z.to_nat limit) (length rows)) rows.
Proof.
  intros H. unfold slice_from. rewrite bool_decide_eq_true_2 by lia.
  f_equal. lia.
Qed.

(** C10.  [list_events(0)] returns the whole activity log, oldest first
    (the slice [rows[-0:]] is [rows[0:]]); for a limit of at least 1 it
    returns the last [min(limit, len)] events in append order. *)
Theorem list_events_tail st wb ws :
  current_wb st = Some wb ->
  wb !! ACTIVITY_SHEET = Some ws ->
  let log := records_of ws in
  (list_events 0 st).1 = Ok log
  /\ forall limit, (1 <= limit)%Z ->
       (list_events limit st).1
       = Ok (drop (length log - Nat.min (Z.to_nat limit) (length log)) log).
Proof.
  intros Hwb Hws log.
  assert (forall limit, (list_events limit st).1 = Ok (slice_from (- limit) log)) as H.
  { intros limit. unfold list_events.
    pose proof (read_table_eq st wb ACTIVITY_SHEET ws Hwb Hws) as Hr.
    unfold bind in *. rewrite (load_eq _ _ Hwb) in *.
    destruct (on_sheet _ _ _) as [[rows|e] st']; by inversion Hr. }
  split.
  - by rewrite H, slice_from_0.
  - intros limit Hl. by rewrite H, slice_from_neg.
Qed.

Lemma list_students_cached d wb w ws :
  wb !! STUDENTS_SHEET = Some ws ->
  (list_students (Store d (Some wb) w)).1 = Ok (records_of ws).
Proof.
  intros Hws. unfold list_students.
  by rewrite (read_table_eq _ wb STUDENTS_SHEET ws) by done.
Qed.

(** C8.  [delete_student] finds out whether a record carries the ID.  If
    none does, it returns false and leaves the file and the table as
    they are (the cached students sheet reads cell for cell as before,
    the other sheets are untouched).  If one does, it returns true, the
    first such record is removed from the table, the document is saved,
    and, IDs being unique, the ID is no longer listed. *)
Theorem delete_student_semantics student_id st wb ws :
  current_wb st = Some wb ->
  wb !! STUDENTS_SHEET = Some ws ->
  single_column "student_id" (header_values ws) ->
  let students := records_of ws in
  let with_id := has_id "student_id" student_id in
  (Forall (fun rec => ¬ with_id rec) students
   /\ exists st' ws',
        delete_student student_id st = (Ok false, st')
        /\ path_file st' = path_file st
        /\ _wb st' = Some (<[STUDENTS_SHEET := ws']> wb)
        /\ normalize ws' = normalize ws
        /\ (list_students st').1 = Ok students)
  \/ (exists before rec after,
        students = before ++ rec :: after
        /\ with_id rec
        /\ Forall (fun rec => ¬ with_id rec) before
        /\ (save_ok st = true ->
            exists st',
              delete_student student_id st = (Ok true, st')
              /\ path_file st' = _wb st'
              /\ (list_students st').1 = Ok (before ++ after)
              /\ (Forall (fun rec => ¬ with_id rec) after ->
                  forall listed, (list_students st').1 = Ok listed ->
                                 Forall (fun rec => ¬ with_id rec) listed))).
Proof.
  intros Hwb Hws Huniq students with_id.
  unfold delete_student, delete_person, bind.
  rewrite (load_eq st wb Hwb), (on_sheet_eq _ _ _ _ _ _ Hws).
  destruct (delete_in_sheet_cases "student_id" student_id ws Huniq)
    as [[Hno (ws' & Hdel & Hnorm)]|(before & rec & after & ws' & Hrec & Hid & Hbefore & Hdel & Hafter)];
    rewrite Hdel; cbn [fst snd].
  - left. split; [done|]. exists (Store (path_file st) (Some (<[STUDENTS_SHEET := ws']> wb)) (save_ok st)), ws'.
    repeat split; [done|].
    rewrite (list_students_cached _ _ _ ws') by (by rewrite lookup_insert_eq).
    by rewrite <- (records_of_normalize ws'), Hnorm, records_of_normalize.
  - right. exists before, rec, after. repeat split; [done..|].
    intros Hsave. unfold _save, ret. cbn [save_ok _wb]. rewrite Hsave.
    eexists. split; [reflexivity|]. split; [done|].
    assert ((list_students
               (Store (Some (<[STUDENTS_SHEET := ws']> wb))
                      (Some (<[STUDENTS_SHEET := ws']> wb)) true)).1
            = Ok (before ++ after)) as Hlist.
    { rewrite (list_students_cached _ _ _ ws') by (by rewrite lookup_insert_eq).
      by rewrite Hafter. }
    split; [exact Hlist|].
    intros Hafter_no listed. rewrite Hlist. intros [= <-].
    apply Forall_app. by split.
Qed.


End StoreFacts.

Section NextId.

Open Scope N_scope.







Close Scope N_scope.

End NextId.

Section SaveFailure.

Variable int_of_str : string -> option Z.

Lemma cache_only_ret {A} (a : A) : cache_only (ret a).
Proof. by intros st b. Qed.

Lemma cache_only_load : cache_only _load.
Proof.
  intros [d [c|] w] b; unfold _load, with_save; simpl; [done|].
  by destruct d.
Qed.

Lemma cache_only_on_sheet {A} name (m : M worksheet A) : cache_only (on_sheet name m).
Proof.
  intros [d [c|] w] b; unfold on_sheet, with_save; simpl; [|done].
  destruct (c !! name) as [ws|]; [|done]. by destruct (m ws).
Qed.

Lemma cache_only_bind {A B} (m : M store A) (k : A -> M store B) :
  cache_only m -> (forall a, cache_only (k a)) -> cache_only (bind m k).
Proof.
  intros Hm Hk st b. unfold bind.
  destruct (Hm st b) as [-> Hd]. destruct (m st) as [[a|e] st']; simpl in *.
  - destruct (Hk a st' b) as [-> Hd']. split; [done|]. congruence.
  - done.
Qed.

Lemma run_mutation_split op st :
  run_mutation int_of_str op st = bind (mutate_cache int_of_str op) then_save st.
Proof.
  destruct op; cbn [run_mutation mutate_cache];
    unfold upsert_student, upsert_teacher, set_payment, delete_student,
      delete_teacher, delete_person, add_event, then_save, bind, ret;
    destruct (_load st) as [[[]|e] st1]; try reflexivity;
    match goal with
    | |- context [on_sheet ?n ?m st1] =>
        destruct (on_sheet n m st1) as [[a|e] st2]; try reflexivity
    end;
    try destruct a; try reflexivity;
    destruct (_save st2) as [[[]|e] st3]; reflexivity.
Qed.

Lemma mutate_cache_only op : cache_only (mutate_cache int_of_str op).
Proof.
  destruct op; cbn [mutate_cache];
    repeat first
      [ apply cache_only_load | apply cache_only_on_sheet | apply cache_only_ret
      | apply cache_only_bind | intros ? ].
Qed.

(** C5 (amended).  For every mutating operation that gets as far as the
    save: when the save fails, the operation raises the save error, the
    file is left as it was, and the cached workbook is the mutated one,
    the very workbook a successful save would have written.  The
    mutation is made in place on the cached workbook; there is no working
    copy to discard. *)
Theorem failed_save_keeps_mutation (op : mutation) st st_ok :
  run_mutation int_of_str op (with_save true st) = (Ok true, st_ok) ->
  run_mutation int_of_str op (with_save false st)
  = (Raise PermissionError, Store (path_file st) (_wb st_ok) false)
  /\ path_file st_ok = _wb st_ok.
Proof.
  rewrite !run_mutation_split. unfold bind.
  destruct (mutate_cache_only op st true) as [-> _].
  destruct (mutate_cache_only op st false) as [-> Hd].
  destruct (mutate_cache int_of_str op st) as [[[|]|e] st']; simpl in *; try done.
  unfold bind, _save, ret. simpl.
  intros [= <-]. simpl. unfold with_save. by rewrite Hd.
Qed.

End SaveFailure.

Section Ledger.

Variable int_of_str : string -> option Z.
Variable float_of_str : string -> option Z.

Lemma key_matches_ok id_col person_id year month r :
  (period_converts int_of_str) r ->
  exists b, key_matches int_of_str id_col person_id year month r = Ok b.
Proof.
  intros [[y Hy] [m Hm]]. unfold key_matches. rewrite Hy, Hm.
  repeat case_bool_decide; eauto.
Qed.

Lemma find_record_ok id_col person_id year month rows : forall idx,
  Forall (period_converts int_of_str) rows ->
  exists found, find_record int_of_str id_col person_id year month rows idx = Ok found.
Proof.
  induction rows as [|r rows IH]; intros idx Hrows; simpl; [eauto|].
  apply Forall_cons in Hrows as [Hr Hrows].
  destruct (key_matches_ok id_col person_id year month r Hr) as [[|] ->]; eauto.
Qed.

Lemma get_payment_status_ok entity person_id year month st :
  ledger_ready int_of_str entity st ->
  exists status st',
    get_payment_status int_of_str entity person_id year month st = (Ok status, st')
    /\ ledger_ready int_of_str entity st'.
Proof.
  intros (wb & ws & Hwb & Hws & Hrec).
  unfold get_payment_status, get_payment_record.
  assert (current_wb st = Some wb) as Hcur by (unfold current_wb; by rewrite Hwb).
  pose proof (read_table_eq st wb _ ws Hcur Hws) as Hread.
  unfold bind in *.
  destruct (_load st) as [[[]|e] st1]; [|done].
  rewrite Hread.
  destruct (find_record_ok (id_column entity) person_id year month _ 2 Hrec)
    as [found ->].
  unfold of_result, ret.
  destruct found as [[? ?]|]; (eexists _, _; split; [reflexivity|]);
    exists (<[payments_sheet entity := normalize ws]> wb), (normalize ws);
    (split; [done|]; split; [by rewrite lookup_insert_eq|];
     by rewrite records_of_normalize).
Qed.

Lemma count_people_ok entity year month people : forall st paid0 pending0,
  ledger_ready int_of_str entity st ->
  exists paid1 pending1 st',
    count_people int_of_str entity year month people paid0 pending0 st
    = (Ok (paid1, pending1), st')
    /\ paid1 + pending1
       = paid0 + pending0
         + length (filter (fun p => person_id_of entity p ≠ "") people).
Proof.
  induction people as [|p people IH]; intros st paid0 pending0 Hst.
  - simpl. eexists _, _, _. split; [reflexivity|]. simpl. lia.
  - cbn [count_people]. rewrite filter_cons. fold (person_id_of entity p).
    case_bool_decide as Hpid.
    + destruct (IH st paid0 pending0 Hst) as (p1 & q1 & st' & -> & Hsum).
      eexists _, _, _. split; [reflexivity|].
      rewrite decide_False by (by intros H; apply H). done.
    + destruct (get_payment_status_ok entity (person_id_of entity p) year month st Hst)
        as (status & st1 & Hs & Hst1).
      unfold bind at 1. rewrite Hs.
      rewrite decide_True by done. cbn [length].
      case_bool_decide.
      * destruct (IH st1 (paid0 + 1) pending0 Hst1) as (p1 & q1 & st' & -> & Hsum).
        eexists _, _, _. split; [reflexivity|]. lia.
      * destruct (IH st1 paid0 (pending0 + 1) Hst1) as (p1 & q1 & st' & -> & Hsum).
        eexists _, _, _. split; [reflexivity|]. lia.
Qed.

Lemma people_payments_sheets entity : people_sheet entity ≠ payments_sheet entity.
Proof. unfold people_sheet, payments_sheet. by case_bool_decide. Qed.

Lemma list_people_eq entity st wb ws :
  current_wb st = Some wb -> wb !! people_sheet entity = Some ws ->
  list_people entity st
  = (Ok (records_of ws),
     Store (path_file st) (Some (<[people_sheet entity := normalize ws]> wb)) (save_ok st)).
Proof.
  intros Hwb Hws. unfold list_people, people_sheet in *.
  case_bool_decide; by apply read_table_eq.
Qed.

(** C2 (amended).  For every entity kind, year and month, [payment_stats]
    returns counts with [total = paid + pending], and this total is the
    number of records of the corresponding list operation whose ID, as a
    string, is not empty: a record with an empty ID is listed but not
    counted. *)
Theorem payment_stats_counts_ids entity year month st wb ws_people ws_pay :
  current_wb st = Some wb ->
  wb !! people_sheet entity = Some ws_people ->
  wb !! payments_sheet entity = Some ws_pay ->
  Forall (period_converts int_of_str) (records_of ws_pay) ->
  exists s people,
    (payment_stats int_of_str entity year month st).1 = Ok s
    /\ (list_people entity st).1 = Ok people
    /\ total s = paid s + pending s
    /\ total s = length (filter (fun p => person_id_of entity p ≠ "") people).
Proof.
  intros Hwb Hpeople Hpay Hconv.
  pose proof (list_people_eq entity st wb ws_people Hwb Hpeople) as Hlist.
  unfold payment_stats. fold (list_people entity). unfold bind at 1.
  rewrite Hlist.
  set (st1 := Store _ _ _).
  assert (ledger_ready int_of_str entity st1) as Hready.
  { exists (<[people_sheet entity := normalize ws_people]> wb), ws_pay.
    split; [done|]. split; [|done].
    rewrite lookup_insert_ne; [done|apply people_payments_sheets]. }
  destruct (count_people_ok entity year month (records_of ws_people) st1 0 0 Hready)
    as (p1 & q1 & st2 & Hcount & Hsum).
  unfold bind. rewrite Hcount. simpl.
  eexists _, _. repeat split; simpl; lia.
Qed.

(** *** Arrears *)






End Ledger.

(** * The properties on the example documents *)

(** A decidable statement about closed documents is settled by
    evaluating its decision procedure. *)
Ltac decide_by_eval := refine (bool_decide_unpack _ _); vm_compute; exact I.

Section Examples.

Lemma single_column_NoDup h (headers : list value) : NoDup headers -> single_column h headers.
Proof. intros Hnd i j Hi Hj. by eapply NoDup_lookup. Qed.

(** C2, as stated, fails: after [upsert_student] of a mapping without an
    ID, [list_students] returns one record and [payment_stats] counts
    nobody. *)
Lemma payment_stats_skips_empty_id :
  exists people s,
    (list_students noid_store).1 = Ok people
    /\ (payment_stats parse_decimal "student" 2026 3 noid_store).1 = Ok s
    /\ length people = 1
    /\ total s = 0
    /\ total s <> length people.
Proof.
  assert (Hlen : match (list_students noid_store).1 with
                 | Ok people => length people
                 | Raise _ => 0
                 end = 1) by (vm_compute; reflexivity).
  destruct (list_students noid_store).1 as [people|e]; [|discriminate Hlen].
  exists people, {| paid := 0; pending := 0; total := 0 |}.
  split; [reflexivity|]. split; [vm_compute; reflexivity|].
  split; [exact Hlen|]. cbn [total]. split; [reflexivity|]. rewrite Hlen. discriminate.
Qed.

(** C5, as stated, fails: when the save of [upsert_student] fails, the
    error is raised, the file is as before, but the cached document now
    lists the student, which the document on disk does not hold. *)
Lemma failed_save_mutates_cache :
  let st := with_save false schema_store in
  let r := upsert_student alice t0 st in
  r.1 = Raise PermissionError
  /\ path_file r.2 = path_file st
  /\ (list_students st).1 = Ok []
  /\ (exists rec, (list_students r.2).1 = Ok [rec]
                  /\ rec !! VStr "first_name" = Some (VStr "Alice"))
  /\ ((invalidate_cache ;;; list_students) r.2).1 = Ok [].
Proof.
  cbv zeta. split; [vm_compute; reflexivity|]. split; [decide_by_eval|].
  split; [vm_compute; reflexivity|]. split; [|vm_compute; reflexivity].
  assert (Hname : match (list_students (upsert_student alice t0
                                         (with_save false schema_store)).2).1 with
                  | Ok [rec] => rec !! VStr "first_name"
                  | _ => None
                  end = Some (VStr "Alice")) by (vm_compute; reflexivity).
  destruct (list_students _).1 as [[|rec [|? ?]]|e]; try discriminate Hname.
  exists rec. split; [reflexivity|exact Hname].
Qed.

(** C9 on a payments table with an empty row above the record: the record
    of STU-0001 for March 2026 is in sheet row 3; [set_payment] counts
    the records from 2 and so writes status, amount and time into row 2.
    The record itself stays Paid, and a row without key is left behind. *)
Theorem set_payment_row_drift :
  let r := set_payment parse_decimal "student" "STU-0001" 2026 3 "Pending" 500 t1
             gap_store in
  r.1 = Ok tt
  /\ (get_payment_status parse_decimal "student" "STU-0001" 2026 3 gap_store).1 = Ok "Paid"
  /\ (get_payment_status parse_decimal "student" "STU-0001" 2026 3 r.2).1 = Ok "Paid"
  /\ ws_rows <$> sheet_in (_wb r.2) STUDENT_PAYMENTS_SHEET
     = Some [hvals (payment_headers "student_id");
             [VNone; VNone; VNone; VStr "Pending"; VNum 500; VStr t1];
             [VStr "STU-0001"; VNum 2026; VNum 3; VStr "Paid"; VNum 500; VStr t0]].
Proof. cbv zeta. repeat split; vm_compute; reflexivity. Qed.

(** The same two calls on a table without empty rows: one record, Pending,
    500. *)
Lemma set_payment_toggle_example :
  let r := set_payment parse_decimal "student" "STU-0001" 2026 3 "Pending" 500 t1
             ledger_store in
  r.1 = Ok tt
  /\ ws_rows <$> sheet_in (_wb r.2) STUDENT_PAYMENTS_SHEET
     = Some [hvals (payment_headers "student_id");
             [VStr "STU-0001"; VNum 2026; VNum 3; VStr "Pending"; VNum 500; VStr t1]].
Proof. cbv zeta. split; vm_compute; reflexivity. Qed.

(** The one payment record of the example ledger, read field by field. *)
Lemma payments_sheet_ex_record :
  exists rec, records_of payments_sheet_ex = [rec]
    /\ dict_get rec "status" (VStr "") = VStr "Paid"
    /\ dict_get rec "amount" (VNum 0) = VNum 500
    /\ dict_get rec "year" (VNum 0) = VNum 2026
    /\ dict_get rec "month" (VNum 0) = VNum 3.
Proof.
  assert (H : match records_of payments_sheet_ex with
              | [rec] => [dict_get rec "status" (VStr ""); dict_get rec "amount" (VNum 0);
                          dict_get rec "year" (VNum 0); dict_get rec "month" (VNum 0)]
              | _ => []
              end = [VStr "Paid"; VNum 500; VNum 2026; VNum 3])
    by (vm_compute; reflexivity).
  destruct (records_of payments_sheet_ex) as [|rec [|? ?]]; try discriminate H.
  exists rec. injection H as -> -> -> ->. repeat split; reflexivity.
Qed.

End Examples.

(** * The properties at the example documents *)


(** The count of C2 on the example ledger: one student, who has paid
    March 2026. *)
Lemma payment_stats_counts_ids_witness :
  current_wb log_store = Some log_wb
  /\ log_wb !! people_sheet "student" = Some students_sheet
  /\ log_wb !! payments_sheet "student" = Some payments_sheet_ex
  /\ Forall (period_converts parse_decimal) (records_of payments_sheet_ex)
  /\ exists s people,
       (payment_stats parse_decimal "student" 2026 3 log_store).1 = Ok s
       /\ (list_people "student" log_store).1 = Ok people
       /\ total s = paid s + pending s
       /\ total s = length (filter (fun p => person_id_of "student" p ≠ "") people).
Proof.
  assert (H1 : current_wb log_store = Some log_wb) by decide_by_eval.
  assert (H2 : log_wb !! people_sheet "student" = Some students_sheet)
    by decide_by_eval.
  assert (H3 : log_wb !! payments_sheet "student" = Some payments_sheet_ex)
    by decide_by_eval.
  assert (H4 : Forall (period_converts parse_decimal) (records_of payments_sheet_ex)).
  { destruct payments_sheet_ex_record as (rec & -> & _ & _ & Hy & Hm).
    constructor; [|constructor]. split.
    - exists 2026%Z. rewrite Hy. reflexivity.
    - exists 3%Z. rewrite Hm. reflexivity. }
  repeat (split; [assumption|]).
  exact (payment_stats_counts_ids parse_decimal "student" 2026 3 log_store log_wb
           students_sheet payments_sheet_ex H1 H2 H3 H4).
Defined.


(** The failed save of C5 for the first [upsert_student] on the fresh
    document. *)
Lemma failed_save_keeps_mutation_witness :
  run_mutation parse_decimal (UpsertStudent alice t0) (with_save true schema_store)
  = (Ok true, roster_store)
  /\ run_mutation parse_decimal (UpsertStudent alice t0) (with_save false schema_store)
     = (Raise PermissionError, Store (path_file schema_store) (_wb roster_store) false)
  /\ path_file roster_store = _wb roster_store.
Proof.
  assert (H : run_mutation parse_decimal (UpsertStudent alice t0)
                (with_save true schema_store) = (Ok true, roster_store))
    by decide_by_eval.
  split; [exact H|].
  exact (failed_save_keeps_mutation parse_decimal (UpsertStudent alice t0)
           schema_store roster_store H).
Defined.

(** The repair of C7 on a sheet whose header is in row 2: the blank row 1
    is deleted. *)
Lemma header_repair_policy_witness :
  ["id"; "name"] ≠ []
  /\ forallb is_none (header_values shifted_sheet) = true
  /\ 2 <= max_row shifted_sheet
  /\ row_values 2 2 shifted_sheet = hvals ["id"; "name"]
  /\ max_row (_ensure_sheet_headers shifted_sheet ["id"; "name"])
     = max_row shifted_sheet - 1.
Proof.
  assert (H0 : ["id"; "name"] ≠ []) by discriminate.
  assert (H1 : forallb is_none (header_values shifted_sheet) = true)
    by (vm_compute; reflexivity).
  assert (H2 : 2 <= max_row shifted_sheet) by (vm_compute; lia).
  assert (H3 : row_values 2 2 shifted_sheet = hvals ["id"; "name"])
    by (vm_compute; reflexivity).
  repeat (split; [assumption|]).
  destruct (header_repair_policy shifted_sheet ["id"; "name"] H0) as [Hblank _].
  destruct (Hblank H1) as [Hshift _].
  destruct (Hshift (conj H2 H3)) as [Hrows _].
  exact Hrows.
Defined.

(** The deletion of C8 on the example roster: STU-0001 is deleted and the
    list is empty afterwards. *)
Lemma delete_student_semantics_witness :
  current_wb log_store = Some log_wb
  /\ log_wb !! STUDENTS_SHEET = Some students_sheet
  /\ single_column "student_id" (header_values students_sheet)
  /\ exists st', delete_student "STU-0001" log_store = (Ok true, st')
                 /\ path_file st' = _wb st'
                 /\ (list_students st').1 = Ok [].
Proof.
  assert (H1 : current_wb log_store = Some log_wb) by decide_by_eval.
  assert (H2 : log_wb !! STUDENTS_SHEET = Some students_sheet) by decide_by_eval.
  assert (H3 : single_column "student_id" (header_values students_sheet))
    by (apply single_column_NoDup; decide_by_eval).
  repeat (split; [assumption|]).
  assert (Hlen : length (records_of students_sheet) = 1) by (vm_compute; reflexivity).
  assert (Hsave : save_ok log_store = true) by (vm_compute; reflexivity).
  assert (Hex : Exists (has_id "student_id" "STU-0001") (records_of students_sheet))
    by decide_by_eval.
  destruct (delete_student_semantics "STU-0001" log_store log_wb students_sheet
              H1 H2 H3) as [[Hnone _]|(before & rec & after & Hsplit & _ & _ & Hdel)].
  - exfalso. apply Exists_exists in Hex as (rec & Hin & Hid).
    rewrite Forall_forall in Hnone. exact (Hnone rec Hin Hid).
  - destruct (Hdel Hsave) as (st' & Hrun & Hsaved & Hlist & _).
    exists st'. split; [exact Hrun|]. split; [exact Hsaved|].
    rewrite Hsplit in Hlen. rewrite length_app in Hlen. simpl in Hlen.
    destruct before as [|? ?]; [|simpl in Hlen; lia].
    destruct after as [|? ?]; [|simpl in Hlen; lia].
    exact Hlist.
Defined.

(** The tail of C10 on the example log: limit 0 and limit 1. *)
Lemma list_events_tail_witness :
  current_wb log_store = Some log_wb
  /\ log_wb !! ACTIVITY_SHEET = Some activity_sheet
  /\ (list_events 0 log_store).1 = Ok (records_of activity_sheet)
  /\ (1 <= 1)%Z
  /\ (list_events 1 log_store).1
     = Ok (drop (length (records_of activity_sheet)
                 - Nat.min (Z.to_nat 1) (length (records_of activity_sheet)))
             (records_of activity_sheet)).
Proof.
  assert (H1 : current_wb log_store = Some log_wb) by decide_by_eval.
  assert (H2 : log_wb !! ACTIVITY_SHEET = Some activity_sheet) by decide_by_eval.
  assert (H3 : (1 <= 1)%Z) by lia.
  destruct (list_events_tail log_store log_wb activity_sheet H1 H2) as [Hall Htail].
  repeat (split; [assumption|]).
  exact (Htail 1%Z H3).
Defined.

(** * Further properties of the store *)

Section InsertFacts.

Implicit Types (ws : worksheet) (row : list value) (rows : list (list value)).

Lemma decode_row_fmap (f : value -> value) (headers : list value) h :
  decode_row headers (f <$> headers) !! h
  = if decide (h ∈ headers) then Some (f h) else None.
Proof.
  induction headers as [|k headers IH] using rev_ind.
  - rewrite decide_False by apply not_elem_of_nil. done.
  - rewrite fmap_app. cbn [fmap list_fmap].
    rewrite decode_row_snoc by (by rewrite length_fmap).
    destruct (decide (h = k)) as [->|Hne].
    + rewrite lookup_insert_eq, decide_True; [done|]. apply elem_of_app. right. left.
    + rewrite lookup_insert_ne by done. rewrite IH.
      destruct (decide (h ∈ headers)) as [Hin|Hin].
      * rewrite decide_True; [done|]. apply elem_of_app. by left.
      * rewrite decide_False; [done|]. rewrite elem_of_app, list_elem_of_singleton. tauto.
Qed.

Lemma records_from_blank hdr k c :
  records_from hdr (replicate k (replicate c VNone)) = [].
Proof.
  unfold records_from. rewrite filter_none; [done|].
  intros r Hr%elem_of_replicate. destruct Hr as [-> _]. intros Hnb. apply Hnb.
  apply Is_true_true. apply forallb_forall. intros v Hv%list_elem_of_In.
  apply elem_of_replicate in Hv as [-> _]. done.
Qed.

Lemma append_below (vals : list value) rows cur :
  vals ≠ [] -> length rows <= cur ->
  append vals (Worksheet rows cur)
  = Worksheet (rows ++ replicate (cur - length rows) [] ++ [vals]) (S cur).
Proof.
  intros Hvals Hcur. unfold append. cbn [ws_rows ws_current_row].
  rewrite bool_decide_eq_false_2 by done. f_equal.
  unfold ensure_rows. replace (S cur - length rows) with (S (cur - length rows)) by lia.
  rewrite replicate_S_end, !app_assoc.
  replace (S cur - 1) with (length (rows ++ replicate (cur - length rows) ([] : list value)) + 0).
  2:{ rewrite length_app, length_replicate. lia. }
  rewrite alter_app_r. cbn. by rewrite drop_nil, app_nil_r.
Qed.

(** The insert branch of [upsert_in_sheet]: no record carries the ID, the
    new row goes below every row of the sheet. *)
Lemma upsert_in_sheet_new id_header data now ws person_id :
  single_column id_header (header_values ws) ->
  VStr id_header ∈ header_values ws ->
  dict_get data id_header (VStr "") = VStr person_id ->
  Forall (fun rec => ¬ has_id id_header person_id rec) (records_of ws) ->
  exists ws',
    upsert_in_sheet id_header data now ws = (Ok tt, ws')
    /\ header_values ws' = header_values ws
    /\ records_of ws'
       = records_of ws
         ++ [decode_row (header_values ws) (inserted_value data now <$> header_values ws)].
Proof.
  intros Huniq Hcol Hsid Hnone. unfold upsert_in_sheet, bind, lift.
  pose proof (length_header_values ws) as Hlen.
  pose proof (max_column_ge ws) as Hc1.
  pose proof (tail_le_max_column ws) as Hle.
  revert Hnone. rewrite records_of_from, data_rows_eq. intros Hnone.
  rewrite row1_values_eq, get_cell_row1. rewrite Hsid. cbn [py_str].
  set (hdr := header_values ws) in *. set (c := max_column ws) in *.
  set (rest := tail (ws_rows ws)) in *.
  assert (match ws_rows ws with
          | [] => [pad c []]
          | row :: rows => pad c row :: rows
          end = hdr :: rest) as ->.
  { unfold hdr, rest, header_values, grid. by destruct (ws_rows ws). }
  set (ws1 := Worksheet (hdr :: rest) (Nat.max 1 (ws_current_row ws))).
  assert (header_values ws1 = hdr) as Hhdr1
    by (apply header_values_full_first; [lia|by rewrite Hlen]).
  change (insert_values hdr data now) with (inserted_value data now <$> hdr).
  set (vals := inserted_value data now <$> hdr).
  assert (length vals = c) as Hvlen by (unfold vals; by rewrite length_fmap).
  destruct (find_row_by_id_cases id_header person_id ws1)
    as [[Hi ->]|[(i & Hi & Hno & ->)|(i & p1 & row & p2 & Hi & Hrest & Hno & Hrow & ->)]];
    rewrite Hhdr1 in Hi;
    change (tail (ws_rows ws1)) with rest in *;
    change (ws_current_row ws1) with (Nat.max 1 (ws_current_row ws)) in *.
  - by apply list_index_none in Hi.
  - apply list_index_lt in Hi as [Hilt Hi]. unfold modify. cbn [fst snd].
    rewrite ?Hhdr1. eexists. split; [reflexivity|].
    rewrite append_below.
    2:{ intros E. rewrite E in Hvlen. simpl in Hvlen. lia. }
    2:{ cbn [length]. rewrite length_fmap. destruct rest; simpl; lia. }
    set (k := _ - _).
    assert (Forall (fun r => length r <= c)
              ((pad (i + 1) <$> rest) ++ replicate k [] ++ [vals])) as Hf.
    { apply Forall_app. split; [apply Forall_pad_le; [lia|done]|].
      apply Forall_app. split; [|apply Forall_singleton; lia].
      apply Forall_forall. intros r Hr%elem_of_replicate. destruct Hr as [-> _].
      simpl. lia. }
    rewrite <- app_comm_cons.
    split; [apply header_values_full_first; rewrite ?Hlen; (lia || done)|].
    rewrite records_of_from, data_rows_eq. cbn [ws_rows tail].
    rewrite header_values_full_first by (rewrite ?Hlen; (lia || done)).
    rewrite max_column_first by (rewrite ?Hlen; (lia || done)).
    rewrite Hlen, !fmap_app, fmap_pad_pad, fmap_replicate by lia.
    cbn [fmap list_fmap]. rewrite (pad_ge c vals) by lia.
    rewrite !records_from_app. f_equal.
    replace (pad c []) with (replicate c VNone) by (unfold pad; simpl; f_equal; lia).
    rewrite records_from_blank. cbn [app].
    rewrite records_from_cons; [done|].
    apply (not_blank_at_col i). unfold at_col, vals.
    rewrite list_lookup_fmap, Hi. simpl. unfold inserted_value.
    repeat case_bool_decide; try done.
    unfold dict_get in Hsid. rewrite Hsid. done.
  - exfalso. apply list_index_lt in Hi as [Hilt Hi].
    rewrite Hrest in Hnone, Hle.
    apply Forall_app in Hle as [Hle1 Hle2]. apply Forall_cons in Hle2 as [Hler Hle2].
    rewrite fmap_app, fmap_cons, records_from_app, records_from_cons in Hnone
      by (by eapply row_with_value_not_blank).
    apply Forall_app in Hnone as [_ Hnone]. apply Forall_cons in Hnone as [Hnone _].
    apply Hnone. unfold has_id. rewrite (decode_row_lookup hdr (pad c row) i).
    + unfold at_col in Hrow. rewrite <- (lookup_pad c) in Hrow.
      destruct (pad c row !! i) eqn:E; [simpl in Hrow; by subst|].
      apply lookup_ge_None in E. rewrite length_pad in E. lia.
    + rewrite length_pad. lia.
    + done.
    + intros j Hj. by apply (Huniq j i).
Qed.

End InsertFacts.

Section TableFacts.

(** Reading a table of the cached document. *)
Lemma read_table_cached sheet d wb w ws :
  wb !! sheet = Some ws ->
  ((_load ;;; on_sheet sheet _sheet_to_dicts) (Store d (Some wb) w)).1 = Ok (records_of ws).
Proof. intros Hws. by rewrite (read_table_eq _ wb sheet ws). Qed.

(** [upsert_student] and [upsert_teacher] when no record carries the ID. *)
Lemma upsert_table_new sheet id_header data now st wb ws person_id :
  current_wb st = Some wb ->
  wb !! sheet = Some ws ->
  save_ok st = true ->
  id_header ≠ "created_at" -> id_header ≠ "updated_at" ->
  single_column id_header (header_values ws) ->
  VStr id_header ∈ header_values ws ->
  dict_get data id_header (VStr "") = VStr person_id ->
  Forall (fun rec => ¬ has_id id_header person_id rec) (records_of ws) ->
  exists new st',
    (_load ;;; on_sheet sheet (upsert_in_sheet id_header data now) ;;; _save) st = (Ok tt, st')
    /\ path_file st' = _wb st'
    /\ ((_load ;;; on_sheet sheet _sheet_to_dicts) st').1 = Ok (records_of ws ++ [new])
    /\ has_id id_header person_id new
    /\ forall h, new !! h = if decide (h ∈ header_values ws)
                            then Some (inserted_value data now h) else None.
Proof.
  intros Hwb Hws Hsave Hc Hu Huniq Hcol Hsid Hnone.
  destruct (upsert_in_sheet_new id_header data now ws person_id Huniq Hcol Hsid Hnone)
    as (ws' & Hup & Hhdr & Hrecs).
  assert ((_load ;;; on_sheet sheet (upsert_in_sheet id_header data now) ;;; _save) st
          = (Ok tt, Store (Some (<[sheet := ws']> wb)) (Some (<[sheet := ws']> wb)) true))
    as Hrun.
  { unfold bind.
    rewrite (load_eq st wb Hwb), (on_sheet_eq _ _ _ _ _ _ Hws), Hup. cbn [fst snd].
    unfold _save. cbn [save_ok _wb]. by rewrite Hsave. }
  eexists _, _. split; [exact Hrun|]. split; [done|]. split.
  { rewrite (read_table_cached _ _ _ _ ws') by (by rewrite lookup_insert_eq).
    by rewrite Hrecs. }
  assert (forall h, decode_row (header_values ws)
                      (inserted_value data now <$> header_values ws) !! h
                    = if decide (h ∈ header_values ws)
                      then Some (inserted_value data now h) else None) as Hnew
    by (intros h; apply decode_row_fmap).
  split; [|exact Hnew].
  unfold has_id. rewrite Hnew, decide_True by done. f_equal.
  unfold inserted_value. rewrite !bool_decide_eq_false_2 by congruence.
  exact Hsid.
Qed.


(** [delete_student] and [delete_teacher]. *)
Lemma delete_table sheet id_header person_id st wb ws :
  current_wb st = Some wb ->
  wb !! sheet = Some ws ->
  single_column id_header (header_values ws) ->
  (Forall (fun rec => ¬ has_id id_header person_id rec) (records_of ws)
   /\ exists st' ws',
        delete_person sheet id_header person_id st = (Ok false, st')
        /\ path_file st' = path_file st
        /\ _wb st' = Some (<[sheet := ws']> wb)
        /\ normalize ws' = normalize ws
        /\ ((_load ;;; on_sheet sheet _sheet_to_dicts) st').1 = Ok (records_of ws))
  \/ (exists before rec after,
        records_of ws = before ++ rec :: after
        /\ has_id id_header person_id rec
        /\ Forall (fun rec => ¬ has_id id_header person_id rec) before
        /\ (save_ok st = true ->
            exists st',
              delete_person sheet id_header person_id st = (Ok true, st')
              /\ path_file st' = _wb st'
              /\ ((_load ;;; on_sheet sheet _sheet_to_dicts) st').1 = Ok (before ++ after))).
Proof.
  intros Hwb Hws Huniq.
  set (read := (_load ;;; on_sheet sheet _sheet_to_dicts)).
  unfold delete_person, bind.
  rewrite (load_eq st wb Hwb), (on_sheet_eq _ _ _ _ _ _ Hws).
  destruct (delete_in_sheet_cases id_header person_id ws Huniq)
    as [[Hno (ws' & Hdel & Hnorm)]|(before & rec & after & ws' & Hrec & Hid & Hbefore & Hdel & Hafter)];
    rewrite Hdel; cbn [fst snd].
  - left. split; [done|].
    exists (Store (path_file st) (Some (<[sheet := ws']> wb)) (save_ok st)), ws'.
    repeat split; [done|]. unfold read.
    rewrite (read_table_cached _ _ _ _ ws') by (by rewrite lookup_insert_eq).
    by rewrite <- (records_of_normalize ws'), Hnorm, records_of_normalize.
  - right. exists before, rec, after. repeat split; [done..|].
    intros Hsave. unfold _save, ret. cbn [save_ok _wb]. rewrite Hsave.
    eexists. split; [reflexivity|]. split; [done|]. unfold read.
    rewrite (read_table_cached _ _ _ _ ws') by (by rewrite lookup_insert_eq).
    by rewrite Hafter.
Qed.

(** X1.  [upsert_student] on a mapping whose [student_id] no record
    carries appends one record below the others: the two time stamps are
    the time of the call, a header that is a key of the mapping gets the
    supplied value, every other header the empty string.  The document
    is saved; [list_students] returns the old records followed by the
    new one. *)
Theorem upsert_student_inserts data now st wb ws student_id :
  current_wb st = Some wb ->
  wb !! STUDENTS_SHEET = Some ws ->
  save_ok st = true ->
  single_column "student_id" (header_values ws) ->
  VStr "student_id" ∈ header_values ws ->
  dict_get data "student_id" (VStr "") = VStr student_id ->
  Forall (fun rec => ¬ has_id "student_id" student_id rec) (records_of ws) ->
  exists new st',
    upsert_student data now st = (Ok tt, st')
    /\ path_file st' = _wb st'
    /\ (list_students st').1 = Ok (records_of ws ++ [new])
    /\ has_id "student_id" student_id new
    /\ forall h, new !! h = if decide (h ∈ header_values ws)
                            then Some (inserted_value data now h) else None.
Proof.
  intros Hwb Hws Hsave Huniq Hcol Hid Hnone.
  by apply (upsert_table_new STUDENTS_SHEET "student_id" data now st wb ws student_id).
Qed.


(** X3.  [delete_teacher] returns false, without saving and with the
    teachers table reading as before, when no record carries the ID;
    otherwise it removes the first record with the ID, saves, and
    returns true. *)
Theorem delete_teacher_semantics teacher_id st wb ws :
  current_wb st = Some wb ->
  wb !! TEACHERS_SHEET = Some ws ->
  single_column "teacher_id" (header_values ws) ->
  let teachers := records_of ws in
  let with_id := has_id "teacher_id" teacher_id in
  (Forall (fun rec => ¬ with_id rec) teachers
   /\ exists st' ws',
        delete_teacher teacher_id st = (Ok false, st')
        /\ path_file st' = path_file st
        /\ _wb st' = Some (<[TEACHERS_SHEET := ws']> wb)
        /\ normalize ws' = normalize ws
        /\ (list_teachers st').1 = Ok teachers)
  \/ (exists before rec after,
        teachers = before ++ rec :: after
        /\ with_id rec
        /\ Forall (fun rec => ¬ with_id rec) before
        /\ (save_ok st = true ->
            exists st',
              delete_teacher teacher_id st = (Ok true, st')
              /\ path_file st' = _wb st'
              /\ (list_teachers st').1 = Ok (before ++ after))).
Proof.
  intros Hwb Hws Huniq.
  by apply (delete_table TEACHERS_SHEET "teacher_id" teacher_id st wb ws).
Qed.

End TableFacts.

Section AppendFacts.

Implicit Types (ws : worksheet) (row : list value) (rows : list (list value)).

Lemma max_list_app (l1 l2 : list nat) :
  max_list (l1 ++ l2) = Nat.max (max_list l1) (max_list l2).
Proof. induction l1 as [|x l1 IH]; simpl; [done|]. rewrite IH. lia. Qed.

Lemma max_list_replicate_0 k : max_list (replicate k 0) = 0.
Proof. induction k as [|k IH]; simpl; [done|]. by rewrite IH. Qed.

Lemma pad_nil c : pad c [] = replicate c VNone.
Proof. unfold pad. simpl. f_equal. lia. Qed.

(** A row written by [append] below the rows of the sheet shows up as one
    more row at the bottom of the rectangle, after the empty rows that
    lie in between when [_current_row] is beyond the last row. *)
Lemma grid_append (vals : list value) ws :
  length vals = max_column ws ->
  length (ws_rows ws) <= ws_current_row ws -> 1 <= ws_current_row ws ->
  grid (append vals ws)
  = grid ws ++ replicate (ws_current_row ws - max_row ws) (replicate (max_column ws) VNone)
    ++ [vals].
Proof.
  intros Hlen Hcur Hcur1. destruct ws as [rows cur]. cbn [ws_rows ws_current_row] in *.
  pose proof (max_column_ge (Worksheet rows cur)) as Hc1.
  rewrite append_below; [|intros E; rewrite E in Hlen; simpl in Hlen; lia|done].
  set (c := max_column (Worksheet rows cur)) in *.
  assert (max_column (Worksheet (rows ++ replicate (cur - length rows) [] ++ [vals]) (S cur))
          = c) as Hc.
  { unfold max_column. cbn [ws_rows]. rewrite !fmap_app, !max_list_app, fmap_replicate.
    cbn [fmap list_fmap length max_list]. rewrite max_list_replicate_0, Hlen.
    unfold c, max_column, id. cbn [ws_rows]. lia. }
  unfold grid at 1. rewrite Hc. cbn [ws_rows].
  rewrite ensure_rows_ge by (rewrite !length_app; simpl; lia).
  rewrite !fmap_app, fmap_replicate. cbn [fmap list_fmap].
  rewrite (pad_ge c vals) by lia. rewrite pad_nil.
  unfold grid, max_row. cbn [ws_rows]. fold c.
  destruct rows as [|row1 rows].
  - cbn [length fmap list_fmap app].
    replace (cur - 0) with (S (cur - 1)) by lia.
    unfold ensure_rows. cbn [length replicate app fmap list_fmap Nat.sub].
    replace (cur - Nat.max 1 0) with (cur - 1) by lia.
    by rewrite pad_nil.
  - rewrite ensure_rows_ge by (simpl; lia).
    replace (Nat.max 1 (length (row1 :: rows))) with (length (row1 :: rows))
      by (simpl; lia).
    done.
Qed.

Lemma grid_nonempty ws : exists hdr rows, grid ws = hdr :: rows.
Proof.
  pose proof (length_grid ws) as H. pose proof (max_row_ge ws).
  destruct (grid ws) as [|hdr rows]; [simpl in H; lia|eauto].
Qed.

Lemma grid_rows ws : grid ws = header_values ws :: data_rows ws.
Proof. unfold header_values, data_rows. by destruct (grid_nonempty ws) as (? & ? & ->). Qed.

Lemma append_rows (vals : list value) ws :
  length vals = max_column ws ->
  length (ws_rows ws) <= ws_current_row ws -> 1 <= ws_current_row ws ->
  header_values (append vals ws) = header_values ws
  /\ data_rows (append vals ws)
     = data_rows ws
       ++ replicate (ws_current_row ws - max_row ws) (replicate (max_column ws) VNone)
       ++ [vals].
Proof.
  intros Hlen Hcur Hcur1.
  pose proof (grid_append vals ws Hlen Hcur Hcur1) as Hgrid.
  unfold header_values, data_rows. rewrite Hgrid, (grid_rows ws). done.
Qed.

Lemma records_of_append (vals : list value) ws :
  length vals = max_column ws ->
  length (ws_rows ws) <= ws_current_row ws -> 1 <= ws_current_row ws ->
  ¬ forallb is_none vals ->
  header_values (append vals ws) = header_values ws
  /\ records_of (append vals ws) = records_of ws ++ [decode_row (header_values ws) vals].
Proof.
  intros Hlen Hcur Hcur1 Hvals.
  destruct (append_rows vals ws Hlen Hcur Hcur1) as [Hh Hd].
  split; [done|]. unfold records_of. rewrite Hh, Hd.
  change (decode_row ?hdr <$> filter ?P ?l) with (records_from hdr l).
  rewrite !records_from_app, records_from_blank, records_from_cons by done.
  done.
Qed.

Lemma max_row_append (vals : list value) ws :
  vals ≠ [] -> length (ws_rows ws) <= ws_current_row ws ->
  max_row (append vals ws) = S (ws_current_row ws)
  /\ ws_current_row (append vals ws) = S (ws_current_row ws).
Proof.
  intros Hvals Hcur. destruct ws as [rows cur]. cbn [ws_rows ws_current_row] in *.
  rewrite append_below by done. unfold max_row. cbn [ws_rows ws_current_row].
  rewrite !length_app, length_replicate. simpl. lia.
Qed.

End AppendFacts.

Section RecordFacts.

Implicit Types (ws : worksheet) (row : list value).

Lemma filter_all {A} (P : A -> Prop) `{forall x, Decision (P x)} (l : list A) :
  Forall P l -> filter P l = l.
Proof.
  induction 1 as [|x l Hx _ IH]; [done|]. by rewrite filter_cons_True, IH.
Qed.

Lemma payment_cell_is_update_cell (r : nat) status amount now ws ch :
  update_payment_cell r status amount now ws ch
  = update_cell r (payment_data status amount) now ws ch.
Proof.
  unfold update_payment_cell, update_cell, payment_data, py_dict. cbn [foldl fst snd].
  destruct (decide (ch.2 = VStr "created_at")) as [->|Hc]; [done|].
  rewrite (bool_decide_eq_false_2 (ch.2 = VStr "created_at")) by done.
  destruct (decide (ch.2 = VStr "updated_at")) as [->|Hu]; [done|].
  rewrite !(bool_decide_eq_false_2 (ch.2 = VStr "updated_at")) by done.
  destruct (decide (ch.2 = VStr "status")) as [->|Hs]; [done|].
  rewrite (bool_decide_eq_false_2 (ch.2 = VStr "status")) by done.
  destruct (decide (ch.2 = VStr "amount")) as [->|Ha]; [done|].
  rewrite (bool_decide_eq_false_2 (ch.2 = VStr "amount")) by done.
  by rewrite !lookup_insert_ne, lookup_empty by done.
Qed.

Lemma updated_payment_value status amount now h v :
  updated_value (payment_data status amount) now h v = payment_update status amount now h v.
Proof.
  unfold updated_value, payment_update, payment_data, py_dict. cbn [foldl fst snd].
  destruct (decide (h = VStr "created_at")) as [->|Hc]; [done|].
  rewrite !(bool_decide_eq_false_2 (h = VStr "created_at")) by done.
  destruct (decide (h = VStr "updated_at")) as [->|Hu]; [done|].
  rewrite !(bool_decide_eq_false_2 (h = VStr "updated_at")) by done.
  destruct (decide (h = VStr "status")) as [->|Hs]; [done|].
  rewrite (bool_decide_eq_false_2 (h = VStr "status")) by done.
  destruct (decide (h = VStr "amount")) as [->|Ha]; [done|].
  rewrite (bool_decide_eq_false_2 (h = VStr "amount")) by done.
  by rewrite !lookup_insert_ne, lookup_empty by done.
Qed.

Lemma foldl_ext_eq {A B} (f g : A -> B -> A) (l : list B) : forall a,
  (forall a b, f a b = g a b) -> foldl f a l = foldl g a l.
Proof. induction l as [|b l IH]; intros a H; simpl; [done|]. by rewrite H, IH. Qed.

Lemma not_blank_exists row : ¬ forallb is_none row -> exists j, at_col j row ≠ VNone.
Proof.
  induction row as [|v row IH]; [by intros []|]. cbn [forallb].
  destruct (is_none v) eqn:Hv.
  - intros Hrow. destruct (IH Hrow) as [j Hj]. by exists (S j).
  - intros _. exists 0. unfold at_col. cbn. unfold is_none in Hv.
    by apply bool_decide_eq_false_1 in Hv.
Qed.

Lemma payment_update_not_none status amount now h v :
  v ≠ VNone -> payment_update status amount now h v ≠ VNone.
Proof. intros Hv. unfold payment_update. by repeat case_bool_decide. Qed.

Lemma pad_full_rows c rows :
  Forall (fun r => length r = c) rows -> pad c <$> rows = rows.
Proof.
  induction 1 as [|r rows Hr _ IH]; [done|]. cbn [fmap list_fmap].
  change (list_fmap _ _ (pad c) rows) with (pad c <$> rows).
  rewrite IH, pad_ge by lia. done.
Qed.

Lemma records_of_full ws :
  no_empty_row ws -> records_of ws = decode_row (header_values ws) <$> data_rows ws.
Proof. intros H. unfold records_of. by rewrite filter_all. Qed.

(** A sheet whose rows all have the full width reads as it is stored. *)
Lemma read_full_sheet hdr rest cur c :
  length hdr = c -> 1 <= c -> Forall (fun r => length r = c) rest ->
  header_values (Worksheet (hdr :: rest) cur) = hdr
  /\ data_rows (Worksheet (hdr :: rest) cur) = rest.
Proof.
  intros Hh Hc Hrest. unfold header_values, data_rows.
  rewrite grid_full_first with (c := c); [|done|done|].
  - by rewrite pad_full_rows.
  - eapply Forall_impl; [exact Hrest|]. simpl. lia.
Qed.

Lemma payment_row_not_none id_col person_id year month status amount now headers :
  Forall (fun v => v ≠ VNone)
    (payment_row id_col person_id year month status amount now headers).
Proof.
  unfold payment_row. apply Forall_fmap, Forall_forall. intros h _. simpl.
  destruct (py_dict _ !! h) as [v|] eqn:E; [|done]. simpl.
  unfold py_dict in E. cbn [foldl fst snd] in E.
  repeat (apply lookup_insert_Some in E as [[_ <-]|[_ E]]; [done|]).
  by rewrite lookup_empty in E.
Qed.

Lemma payment_row_lookup id_col person_id year month status amount now headers :
  let new := decode_row headers
               (payment_row id_col person_id year month status amount now headers) in
  (forall h, h ∈ payment_headers id_col -> VStr h ∈ headers) ->
  id_col ∉ ["year"; "month"; "status"; "amount"; "updated_at"] ->
  new !! VStr id_col = Some (VStr person_id)
  /\ new !! VStr "year" = Some (VNum year)
  /\ new !! VStr "month" = Some (VNum month)
  /\ new !! VStr "status" = Some (VStr status)
  /\ new !! VStr "amount" = Some (VNum amount).
Proof.
  intros new Hcols Hid. unfold new, payment_row.
  rewrite !decode_row_fmap, !decide_True
    by (apply Hcols; unfold payment_headers; set_solver).
  unfold py_dict. cbn [foldl fst snd].
  assert (id_col ≠ "year" /\ id_col ≠ "month" /\ id_col ≠ "status"
          /\ id_col ≠ "amount" /\ id_col ≠ "updated_at") as (? & ? & ? & ? & ?)
    by (repeat split; intros ->; apply Hid; set_solver).
  repeat split; simpl.
  - rewrite !lookup_insert_ne by congruence. by rewrite lookup_insert_eq.
  - rewrite !lookup_insert_ne by done. by rewrite lookup_insert_eq.
  - rewrite !lookup_insert_ne by done. by rewrite lookup_insert_eq.
  - rewrite !lookup_insert_ne by done. by rewrite lookup_insert_eq.
  - rewrite !lookup_insert_ne by done. by rewrite lookup_insert_eq.
Qed.

Lemma py_dict_is_Some (items : list (value * value)) k :
  k ∈ items.*1 -> is_Some (py_dict items !! k).
Proof.
  unfold py_dict.
  cut (forall d : record, is_Some (d !! k) \/ k ∈ items.*1 ->
         is_Some (foldl (fun (d : record) kv => <[kv.1 := kv.2]> d) d items !! k)).
  { intros H Hin. apply H. by right. }
  induction items as [|[k' v'] items IH]; intros d [Hd|Hin]; cbn [foldl fst snd].
  - done.
  - by apply elem_of_nil in Hin.
  - apply IH. left. destruct (decide (k' = k)) as [->|?].
    + by rewrite lookup_insert_eq.
    + by rewrite lookup_insert_ne.
  - cbn [fmap list_fmap fst] in Hin. apply elem_of_cons in Hin as [->|Hin].
    + apply IH. left. by rewrite lookup_insert_eq.
    + apply IH. by right.
Qed.

(** Every record of a table has a field for every header of the table. *)
Lemma records_have_columns ws rec h :
  rec ∈ records_of ws -> h ∈ header_values ws -> is_Some (rec !! h).
Proof.
  intros Hrec Hh. unfold records_of in Hrec.
  apply list_elem_of_fmap in Hrec as (row & -> & Hrow).
  apply list_elem_of_filter in Hrow as [_ Hrow].
  assert (length row = max_column ws) as Hlen.
  { apply grid_row_length. rewrite grid_rows. by right. }
  apply py_dict_is_Some. rewrite fst_zip; [done|].
  rewrite length_header_values. lia.
Qed.

Lemma updated_payment_lookup status amount now (old : record) h :
  updated_record (payment_data status amount) now old !! h
  = payment_update status amount now h <$> old !! h.
Proof.
  unfold updated_record. rewrite map_lookup_imap.
  destruct (old !! h) as [v|]; [|done]. simpl. by rewrite updated_payment_value.
Qed.

End RecordFacts.

Section PaymentFacts.

Variable int_of_str : string -> option Z.

Implicit Types (ws : worksheet) (row : list value).

Lemma find_record_found id_col person_id year month before r after : forall idx,
  Forall (fun r => key_matches int_of_str id_col person_id year month r = Ok false) before ->
  key_matches int_of_str id_col person_id year month r = Ok true ->
  find_record int_of_str id_col person_id year month (before ++ r :: after) idx
  = Ok (Some (idx + length before, r)).
Proof.
  induction before as [|b before IH]; intros idx Hb Hr; cbn [app find_record length].
  - rewrite Hr. do 3 f_equal. lia.
  - apply Forall_cons in Hb as [Hb Hbefore]. rewrite Hb, IH by done.
    do 3 f_equal. lia.
Qed.

Lemma find_record_none id_col person_id year month rows : forall idx,
  Forall (fun r => key_matches int_of_str id_col person_id year month r = Ok false) rows ->
  find_record int_of_str id_col person_id year month rows idx = Ok None.
Proof.
  induction rows as [|b rows IH]; intros idx Hb; cbn [find_record]; [done|].
  apply Forall_cons in Hb as [Hb Hrows]. by rewrite Hb, IH.
Qed.

Lemma find_record_cases id_col person_id year month rows : forall idx found,
  find_record int_of_str id_col person_id year month rows idx = Ok found ->
  match found with
  | None =>
      Forall (fun r => key_matches int_of_str id_col person_id year month r = Ok false) rows
  | Some (k, r) =>
      exists before after,
        rows = before ++ r :: after /\ k = idx + length before
        /\ Forall (fun r => key_matches int_of_str id_col person_id year month r = Ok false)
             before
        /\ key_matches int_of_str id_col person_id year month r = Ok true
  end.
Proof.
  induction rows as [|b rows IH]; intros idx found; cbn [find_record].
  - intros [= <-]. constructor.
  - destruct (key_matches _ _ _ _ _ b) as [[|]|e] eqn:Hb; [| |done].
    + intros [= <-]. exists [], rows. repeat split; [simpl; lia|constructor|done].
    + intros Hfound. specialize (IH _ _ Hfound). destruct found as [[k r]|].
      * destruct IH as (before & after & -> & -> & Hbefore & Hr).
        exists (b :: before), after. repeat split; [simpl; lia|by constructor|done].
      * by constructor.
Qed.

(** [set_payment] on a table without empty rows in which a record has the
    key: that record is rewritten in place. *)
Lemma set_payment_in_sheet_existing id_col person_id year month status amount now ws
    before old after :
  no_empty_row ws ->
  records_of ws = before ++ old :: after ->
  Forall (fun r => key_matches int_of_str id_col person_id year month r = Ok false) before ->
  key_matches int_of_str id_col person_id year month old = Ok true ->
  exists ws',
    set_payment_in_sheet int_of_str id_col person_id year month status amount now ws
    = (Ok tt, ws')
    /\ header_values ws' = header_values ws
    /\ records_of ws'
       = before ++ updated_record (payment_data status amount) now old :: after
    /\ no_empty_row ws'
    /\ (ws_current_row ws <= max_row ws -> ws_current_row ws' <= max_row ws').
Proof.
  intros Hfull Hrecs Hbefore Hold.
  unfold set_payment_in_sheet, bind, lift.
  rewrite row1_values_eq, sheet_to_dicts_eq.
  set (ws1 := get_cell 1 (max_column ws) ws).
  assert (grid ws1 = grid ws) as Hg1 by apply grid_get_cell_row1.
  assert (records_of ws1 = records_of ws) as ->
    by (unfold records_of, header_values, data_rows; by rewrite Hg1).
  rewrite Hrecs, find_record_found by done.
  unfold of_result, ret, modify. cbn [fst snd].
  eexists. split; [reflexivity|].
  pose proof (length_grid ws1) as Hrows1. rewrite Hg1 in Hrows1.
  unfold normalize. rewrite Hg1, <- Hrows1.
  rewrite (foldl_ext_eq _ (update_cell (2 + length before) (payment_data status amount) now))
    by (intros; apply payment_cell_is_update_cell).
  pose proof (length_header_values ws) as Hlen.
  pose proof (max_column_ge ws) as Hc1.
  assert (Forall (fun r => length r = max_column ws) (data_rows ws)) as Hwidth.
  { apply Forall_forall. intros r Hr. apply grid_row_length.
    rewrite grid_rows. by right. }
  rewrite (records_of_full ws Hfull) in Hrecs.
  rewrite grid_rows. unfold no_empty_row in Hfull.
  set (hdr := header_values ws) in *. set (c := max_column ws) in *.
  apply fmap_app_inv in Hrecs as (p1 & l2 & -> & Hl2 & Hdata).
  symmetry in Hl2. apply fmap_cons_inv in Hl2 as (row & p2 & -> & -> & ->).
  rewrite Hdata in Hfull, Hwidth |- *. rewrite length_fmap.
  apply Forall_app in Hfull as [Hfull1 Hfull2].
  apply Forall_cons in Hfull2 as [Hfullr Hfull2].
  apply Forall_app in Hwidth as [Hw1 Hw2]. apply Forall_cons in Hw2 as [Hwr Hw2].
  replace (2 + length p1) with (S (length (hdr :: p1))) by (simpl; lia).
  rewrite app_comm_cons.
  rewrite (imap_ext pair (fun j h => (0 + j, h)) hdr) by done.
  rewrite update_row_middle by (rewrite !length_app; simpl; lia).
  set (cur2 := Nat.max _ _).
  set (new := update_cells (payment_data status amount) now 0 hdr row).
  destruct (update_cells_spec (payment_data status amount) now hdr 0 row) as (Hn1 & Hn2 & _).
  fold new in Hn1, Hn2.
  assert (length new = c) as Hnew by lia.
  assert (new = zip_with (payment_update status amount now) hdr row) as Hnew_eq.
  { rewrite <- (pad_ge c new) by lia. unfold new.
    rewrite pad_update_cells by lia. rewrite pad_ge by lia.
    clear. revert row. induction hdr as [|h hdr IH]; intros [|v row]; try done.
    cbn [zip_with]. by rewrite updated_payment_value, IH. }
  rewrite <- app_comm_cons.
  destruct (read_full_sheet hdr (p1 ++ new :: p2) cur2 c) as [Hh Hd]; [done|done| |].
  { apply Forall_app. split; [done|]. by apply Forall_cons. }
  assert (¬ forallb is_none new) as Hnb.
  { destruct (not_blank_exists row Hfullr) as [j Hj].
    apply (not_blank_at_col j). rewrite Hnew_eq. unfold at_col in *.
    rewrite lookup_zip_with.
    destruct (row !! j) as [v|] eqn:Hv; [|done].
    destruct (hdr !! j) as [h|] eqn:Hh'.
    - simpl. by apply payment_update_not_none.
    - apply lookup_ge_None in Hh'. apply lookup_lt_Some in Hv. lia. }
  split; [exact Hh|]. split.
  - unfold records_of. rewrite Hh, Hd.
    change (decode_row hdr <$> filter ?P ?l) with (records_from hdr l).
    rewrite records_from_app, records_from_cons by done.
    unfold records_from. rewrite !filter_all by done.
    f_equal. f_equal.
    rewrite <- (decode_row_updated (payment_data status amount) now hdr row).
    f_equal. rewrite Hnew_eq.
    clear. revert row. induction hdr as [|h hdr IH]; intros [|v row]; try done.
    cbn [zip_with]. by rewrite updated_payment_value, IH.
  - split.
    + unfold no_empty_row. rewrite Hd. apply Forall_app. split; [done|].
      by apply Forall_cons.
    + intros Hcur. unfold max_row. cbn [ws_rows ws_current_row]. unfold cur2.
      assert (ws_current_row ws1 = Nat.max 1 (ws_current_row ws)) as -> by done.
      pose proof (length_grid ws) as Hrows. rewrite grid_rows, Hdata in Hrows.
      fold hdr in Hrows. rewrite <- Hrows in Hcur.
      cbn [length] in *. rewrite !length_app in *. cbn [length] in *. lia.
Qed.

(** [set_payment] on a table in which no record has the key: a record is
    appended. *)
Lemma set_payment_in_sheet_new id_col person_id year month status amount now ws :
  Forall (fun r => key_matches int_of_str id_col person_id year month r = Ok false)
    (records_of ws) ->
  exists ws',
    set_payment_in_sheet int_of_str id_col person_id year month status amount now ws
    = (Ok tt, ws')
    /\ header_values ws' = header_values ws
    /\ records_of ws'
       = records_of ws
         ++ [decode_row (header_values ws)
               (payment_row id_col person_id year month status amount now (header_values ws))]
    /\ (no_empty_row ws -> ws_current_row ws <= max_row ws -> no_empty_row ws')
    /\ (ws_current_row ws <= max_row ws -> ws_current_row ws' <= max_row ws').
Proof.
  intros Hnone.
  unfold set_payment_in_sheet, bind, lift.
  rewrite row1_values_eq, sheet_to_dicts_eq.
  set (ws1 := get_cell 1 (max_column ws) ws).
  assert (grid ws1 = grid ws) as Hg1 by apply grid_get_cell_row1.
  assert (header_values ws1 = header_values ws) as Hh1
    by (unfold header_values; by rewrite Hg1).
  assert (data_rows ws1 = data_rows ws) as Hd1
    by (unfold data_rows; by rewrite Hg1).
  assert (records_of ws1 = records_of ws) as Hr1
    by (unfold records_of; by rewrite Hh1, Hd1).
  assert (max_column ws1 = max_column ws) as Hc1
    by (by rewrite <- !length_header_values, Hh1).
  assert (max_row ws1 = max_row ws) as Hm1 by (by rewrite <- !length_grid, Hg1).
  rewrite Hr1, find_record_none by done.
  unfold of_result, ret, modify. cbn [fst snd].
  change (fmap _ (header_values ws))
    with (payment_row id_col person_id year month status amount now (header_values ws)).
  set (vals := payment_row _ _ _ _ _ _ _ _).
  pose proof (payment_row_not_none id_col person_id year month status amount now
                (header_values ws)) as Hvals. fold vals in Hvals.
  pose proof (max_column_ge ws) as Hcge.
  assert (length vals = max_column ws) as Hvlen.
  { unfold vals, payment_row. by rewrite length_fmap, length_header_values. }
  assert (¬ forallb is_none vals) as Hnb.
  { destruct vals as [|v vals']; [simpl in Hvlen; lia|].
    apply Forall_cons in Hvals as [Hv _]. cbn [forallb]. unfold is_none.
    rewrite bool_decide_eq_false_2 by done. by intros []. }
  set (ws2 := normalize ws1).
  assert (length (ws_rows ws2) <= ws_current_row ws2) as Hcur2.
  { unfold ws2, normalize. cbn [ws_rows ws_current_row]. rewrite length_grid. lia. }
  assert (1 <= ws_current_row ws2) as Hcur2'.
  { unfold ws2, normalize. cbn [ws_rows ws_current_row]. pose proof (max_row_ge ws1). lia. }
  assert (max_column ws2 = max_column ws) as Hc2
    by (unfold ws2; by rewrite max_column_normalize).
  assert (max_row ws2 = max_row ws) as Hm2 by (unfold ws2; by rewrite max_row_normalize).
  assert (header_values ws2 = header_values ws) as Hh2
    by (unfold ws2, header_values; by rewrite grid_normalize).
  assert (data_rows ws2 = data_rows ws) as Hd2
    by (unfold ws2, data_rows; by rewrite grid_normalize, Hg1).
  eexists. split; [reflexivity|].
  destruct (records_of_append vals ws2) as [Hh Hr]; [by rewrite Hc2|done|done|done|].
  destruct (append_rows vals ws2) as [_ Hd]; [by rewrite Hc2|done|done|].
  destruct (max_row_append vals ws2) as [Hmr Hcr];
    [intros E; rewrite E in Hvlen; simpl in Hvlen; lia|done|].
  split; [by rewrite Hh|]. split.
  { rewrite Hr, Hh2. unfold ws2. by rewrite records_of_normalize, Hr1. }
  split.
  - intros Hfull Hcur. unfold no_empty_row. rewrite Hd, Hd2.
    assert (ws_current_row ws2 - max_row ws2 = 0) as ->.
    { rewrite Hm2. unfold ws2, normalize. cbn [ws_current_row].
      assert (ws_current_row ws1 = Nat.max 1 (ws_current_row ws)) as -> by done.
      pose proof (max_row_ge ws). lia. }
    cbn [replicate app]. apply Forall_app. split; [done|]. by apply Forall_singleton.
  - intros _. lia.
Qed.

Lemma key_matches_same id_col person_id year month (r r' : record) :
  r' !! VStr id_col = r !! VStr id_col ->
  r' !! VStr "year" = r !! VStr "year" ->
  r' !! VStr "month" = r !! VStr "month" ->
  key_matches int_of_str id_col person_id year month r'
  = key_matches int_of_str id_col person_id year month r.
Proof. intros H1 H2 H3. unfold key_matches, dict_get. by rewrite H1, H2, H3. Qed.

End PaymentFacts.

Section PaymentUpsert.

Variable int_of_str : string -> option Z.

Implicit Types (ws : worksheet) (row : list value).

Lemma not_key_of_false id_col person_id year month (recs : list record) :
  Forall (fun r => key_matches int_of_str id_col person_id year month r = Ok false) recs ->
  Forall (fun r => ¬ has_key int_of_str id_col person_id year month r) recs.
Proof.
  intros H. eapply Forall_impl; [exact H|]. intros r Hr. unfold has_key. by rewrite Hr.
Qed.

(** [set_payment] on a table without empty rows. *)
Lemma set_payment_in_sheet_upserts id_col person_id year month status amount now ws :
  id_col ∉ ["year"; "month"; "status"; "amount"; "updated_at"] ->
  no_empty_row ws ->
  ws_current_row ws <= max_row ws ->
  (forall h, h ∈ payment_headers id_col -> VStr h ∈ header_values ws) ->
  Forall (period_converts int_of_str) (records_of ws) ->
  let key := has_key int_of_str id_col person_id year month in
  exists ws' before new after,
    set_payment_in_sheet int_of_str id_col person_id year month status amount now ws
    = (Ok tt, ws')
    /\ header_values ws' = header_values ws
    /\ no_empty_row ws'
    /\ ws_current_row ws' <= max_row ws'
    /\ Forall (period_converts int_of_str) (records_of ws')
    /\ records_of ws' = before ++ new :: after
    /\ Forall (fun r => key_matches int_of_str id_col person_id year month r = Ok false) before
    /\ key new
    /\ new !! VStr "status" = Some (VStr status)
    /\ new !! VStr "amount" = Some (VNum amount)
    /\ length (filter key (records_of ws')) = Nat.max 1 (length (filter key (records_of ws)))
    /\ filter (fun r => ¬ key r) (records_of ws') = filter (fun r => ¬ key r) (records_of ws)
    /\ ((exists old, records_of ws = before ++ old :: after /\ key old)
        \/ (records_of ws = before /\ after = [])).
Proof.
  intros Hid Hfull Hcur Hcols Hconv key.
  assert (id_col ≠ "year" /\ id_col ≠ "month" /\ id_col ≠ "status"
          /\ id_col ≠ "amount" /\ id_col ≠ "updated_at") as (? & ? & ? & ? & ?)
    by (repeat split; intros ->; apply Hid; set_solver).
  destruct (find_record_ok int_of_str id_col person_id year month (records_of ws) 2 Hconv)
    as [found Hfound].
  apply find_record_cases in Hfound. destruct found as [[k old]|].
  - destruct Hfound as (before & after & Hrecs & _ & Hbefore & Hold).
    destruct (set_payment_in_sheet_existing int_of_str id_col person_id year month
                status amount now ws before old after Hfull Hrecs Hbefore Hold)
      as (ws' & Hrun & Hh & Hrecs' & Hfull' & Hcur').
    set (new := updated_record (payment_data status amount) now old) in *.
    assert (forall h, h ≠ VStr "updated_at" -> h ≠ VStr "status" -> h ≠ VStr "amount" ->
                      new !! h = old !! h) as Hsame.
    { intros h Hh1 Hh2 Hh3. unfold new. rewrite updated_payment_lookup.
      destruct (old !! h) as [v|]; [|done]. simpl. f_equal. unfold payment_update.
      by rewrite !bool_decide_eq_false_2. }
    assert (key_matches int_of_str id_col person_id year month new = Ok true) as Hnew.
    { rewrite <- Hold. apply key_matches_same; apply Hsame; congruence. }
    assert (forall h, h ∈ payment_headers id_col -> is_Some (old !! VStr h)) as Hold_cols.
    { intros h Hh'. apply (records_have_columns ws); [|by apply Hcols].
      rewrite Hrecs. apply elem_of_app. right. left. }
    exists ws', before, new, after.
    split; [done|]. split; [done|]. split; [done|]. split; [by apply Hcur'|].
    split.
    { rewrite Hrecs'. rewrite Hrecs in Hconv.
      apply Forall_app in Hconv as [Hc1 Hc2]. apply Forall_cons in Hc2 as [Hco Hc2].
      apply Forall_app. split; [done|]. apply Forall_cons. split; [|done].
      destruct Hco as [[y Hy] [m Hm]]. split.
      - exists y. unfold dict_get in *. by rewrite Hsame.
      - exists m. unfold dict_get in *. by rewrite Hsame. }
    split; [done|]. split; [done|]. split; [done|].
    split.
    { unfold new. rewrite updated_payment_lookup.
      destruct (Hold_cols "status") as [v ->]; [unfold payment_headers; set_solver|].
      reflexivity. }
    split.
    { unfold new. rewrite updated_payment_lookup.
      destruct (Hold_cols "amount") as [v ->]; [unfold payment_headers; set_solver|].
      reflexivity. }
    assert (key old) as Hkold by exact Hold.
    rewrite Hrecs', Hrecs, !filter_app.
    rewrite (filter_cons_True key new), (filter_cons_True key old) by done.
    rewrite (filter_cons_False (fun r => ¬ key r) new),
      (filter_cons_False (fun r => ¬ key r) old) by (by intros H'; apply H').
    split; [rewrite !length_app; cbn [length]; lia|]. split; [done|].
    left. by exists old.
  - destruct (set_payment_in_sheet_new int_of_str id_col person_id year month
                status amount now ws Hfound)
      as (ws' & Hrun & Hh & Hrecs' & Hfull' & Hcur').
    set (new := decode_row _ _) in *.
    destruct (payment_row_lookup id_col person_id year month status amount now
                (header_values ws) Hcols Hid) as (Hn1 & Hn2 & Hn3 & Hn4 & Hn5).
    fold new in Hn1, Hn2, Hn3, Hn4, Hn5.
    assert (key new) as Hnew.
    { unfold key, has_key, key_matches, dict_get. rewrite Hn1, Hn2, Hn3. simpl.
      by rewrite !bool_decide_eq_true_2. }
    exists ws', (records_of ws), new, [].
    split; [done|]. split; [done|]. split; [by apply Hfull'|]. split; [by apply Hcur'|].
    split.
    { rewrite Hrecs'. apply Forall_app. split; [done|]. apply Forall_singleton.
      split; [exists year|exists month]; unfold dict_get; [by rewrite Hn2|by rewrite Hn3]. }
    split; [done|]. split; [done|]. split; [done|]. split; [done|]. split; [done|].
    pose proof (not_key_of_false _ _ _ _ _ Hfound) as Hno.
    rewrite Hrecs', !filter_app.
    rewrite (filter_cons_True key new) by done.
    rewrite (filter_cons_False (fun r => ¬ key r) new) by (by intros H'; apply H').
    rewrite !filter_nil.
    rewrite (filter_none key); [|by apply Forall_forall].
    split; [done|]. split; [by rewrite app_nil_r|]. by right.
Qed.

(** X4.  [set_payment] on a payments table that has its six columns and no
    empty row is an upsert on the key (person, year, month): the call
    succeeds and saves; the first record of the key, if there is one, is
    rewritten in place, otherwise one record is appended; records of
    other keys are left as they are; and [get_payment_status] then
    returns the status that was set (Pending for the empty string).  The
    table is again one without empty rows, so the next call finds it in
    the same condition. *)
Theorem set_payment_upserts entity person_id year month status amount now st wb ws :
  current_wb st = Some wb ->
  wb !! payments_sheet entity = Some ws ->
  save_ok st = true ->
  no_empty_row ws ->
  ws_current_row ws <= max_row ws ->
  (forall h, h ∈ payment_headers (id_column entity) -> VStr h ∈ header_values ws) ->
  Forall (period_converts int_of_str) (records_of ws) ->
  let key := has_key int_of_str (id_column entity) person_id year month in
  exists st' ws',
    set_payment int_of_str entity person_id year month status amount now st = (Ok tt, st')
    /\ path_file st' = _wb st'
    /\ _wb st' = Some (<[payments_sheet entity := ws']> wb)
    /\ header_values ws' = header_values ws
    /\ no_empty_row ws'
    /\ ws_current_row ws' <= max_row ws'
    /\ Forall (period_converts int_of_str) (records_of ws')
    /\ length (filter key (records_of ws')) = Nat.max 1 (length (filter key (records_of ws)))
    /\ filter (fun r => ¬ key r) (records_of ws') = filter (fun r => ¬ key r) (records_of ws)
    /\ (get_payment_status int_of_str entity person_id year month st').1
       = Ok (if bool_decide (status = "") then "Pending" else status)
    /\ exists rec,
         (get_payment_record int_of_str entity person_id year month st').1 = Ok rec
         /\ key rec /\ rec !! VStr "amount" = Some (VNum amount).
Proof.
  intros Hwb Hws Hsave Hfull Hcur Hcols Hconv key.
  assert (id_column entity ∉ ["year"; "month"; "status"; "amount"; "updated_at"]) as Hid.
  { unfold id_column. case_bool_decide; intros Hin;
      repeat (apply elem_of_cons in Hin as [Hin|Hin]; [discriminate Hin|]);
      by apply elem_of_nil in Hin. }
  destruct (set_payment_in_sheet_upserts (id_column entity) person_id year month status
              amount now ws Hid Hfull Hcur Hcols Hconv)
    as (ws' & before & new & after & Hrun & Hh & Hfull' & Hcur' & Hconv' & Hrecs'
        & Hbefore & Hnew & Hstatus & Hamount & Hcount & Hothers & _).
  set (wb' := <[payments_sheet entity := ws']> wb).
  assert (set_payment int_of_str entity person_id year month status amount now st
          = (Ok tt, Store (Some wb') (Some wb') true)) as Hset.
  { unfold set_payment, bind.
    rewrite (load_eq st wb Hwb), (on_sheet_eq _ _ _ _ _ _ Hws), Hrun. cbn [fst snd].
    unfold _save. cbn [save_ok _wb]. by rewrite Hsave. }
  assert (get_payment_record int_of_str entity person_id year month
            (Store (Some wb') (Some wb') true)
          = (Ok new, Store (Some wb') (Some (<[payments_sheet entity := normalize ws']> wb'))
                       true)) as Hget.
  { unfold get_payment_record.
    assert (wb' !! payments_sheet entity = Some ws') as Hws' by apply lookup_insert_eq.
    pose proof (read_table_eq (Store (Some wb') (Some wb') true) wb'
                  (payments_sheet entity) ws' eq_refl Hws') as Hread.
    unfold bind in *. cbn [_load _wb] in *. rewrite Hread, Hrecs'.
    by rewrite find_record_found. }
  exists (Store (Some wb') (Some wb') true), ws'.
  split; [done|]. split; [done|]. split; [done|]. split; [done|]. split; [done|].
  split; [done|]. split; [done|]. split; [done|]. split; [done|].
  split.
  - unfold get_payment_status, bind. rewrite Hget. unfold ret. cbn [fst].
    unfold dict_get. rewrite Hstatus. simpl. unfold py_or. cbn [truthy].
    by case_bool_decide.
  - exists new. by rewrite Hget.
Qed.

End PaymentUpsert.

Section MoreLedgerFacts.

Variable int_of_str : string -> option Z.
Variable float_of_str : string -> option Z.









End MoreLedgerFacts.

Section StoreErrors.

Variable int_of_str : string -> option Z.
Variable float_of_str : string -> option Z.

(** X7.  Without a document, neither cached nor on disk, every operation
    of the store raises [FileNotFoundError] and leaves the store as it
    is: nothing is created. *)
Theorem no_document_raises (w : bool) :
  let st := Store None None w in
  (forall op, run_mutation int_of_str op st = (Raise FileNotFoundError, st))
  /\ list_students st = (Raise FileNotFoundError, st)
  /\ list_teachers st = (Raise FileNotFoundError, st)
  /\ (forall limit, list_events limit st = (Raise FileNotFoundError, st))
  /\ (forall entity, list_all_payments entity st = (Raise FileNotFoundError, st))
  /\ (forall entity person_id year month,
        get_payment_record int_of_str entity person_id year month st
        = (Raise FileNotFoundError, st)
        /\ get_payment_status int_of_str entity person_id year month st
           = (Raise FileNotFoundError, st)
        /\ payment_stats int_of_str entity year month st = (Raise FileNotFoundError, st))
  /\ (forall entity person_id year month default_amount,
        get_pending_months int_of_str float_of_str entity person_id year month
          default_amount st
        = (Raise FileNotFoundError, st)).
Proof.
  cbv zeta. split; [by intros []|]. split; [done|]. split; [done|]. split; [done|].
  split; [done|]. split.
  - intros entity person_id year month. split; [done|]. split; [done|].
    unfold payment_stats. by case_bool_decide.
  - done.
Qed.

(** X8.  When the document lacks the sheet of a mutating operation, the
    operation raises [KeyError]; the sheet is not created and the file
    is not written. *)
Theorem missing_sheet_raises op st wb :
  current_wb st = Some wb ->
  wb !! mutation_sheet op = None ->
  run_mutation int_of_str op st
  = (Raise KeyError, Store (path_file st) (Some wb) (save_ok st)).
Proof.
  intros Hwb Hws.
  destruct op; cbn [run_mutation mutation_sheet] in *;
    unfold upsert_student, upsert_teacher, set_payment, delete_student, delete_teacher,
      delete_person, add_event, bind;
    rewrite (load_eq st wb Hwb); unfold on_sheet; cbn [_wb]; by rewrite Hws.
Qed.

End StoreErrors.

Section SchemaFacts.

Implicit Types (ws : worksheet) (row : list value).

Lemma repair_empty_sheet headers :
  headers ≠ [] -> repair headers empty_sheet = Worksheet [hvals headers] 1.
Proof.
  intros Hne. unfold repair.
  assert (_ensure_sheet_headers empty_sheet headers = Worksheet [hvals headers] 1) as ->.
  { rewrite ensure_sheet_headers_eq by done. cbv zeta.
    change (max_column empty_sheet) with 1. cbn [empty_sheet ws_rows hd tail pad].
    cbn. destruct headers as [|h headers]; [done|]. cbn.
    by rewrite drop_nil, app_nil_r. }
  unfold _cleanup_sheet. by rewrite bool_decide_eq_true_2 by (cbn; lia).
Qed.

Lemma records_of_header_only hdr cur : records_of (Worksheet [hdr] cur) = [].
Proof. done. Qed.

Lemma kept_row_not_blank headers row c : kept_row headers row -> ¬ forallb is_none (pad c row).
Proof.
  intros (Hlen & _ & Hblank) Hall. apply Is_true_true in Hall.
  assert (forallb is_blank (take (length headers) row) = true) as E; [|congruence].
  apply forallb_forall. intros v Hv%list_elem_of_In.
  apply list_elem_of_lookup in Hv as [i Hi].
  apply lookup_take_Some in Hi as [Hi Hlt].
  pose proof (all_none_lookup (pad c row) i Hall) as Hnone.
  rewrite lookup_pad, Hi in Hnone. simpl in Hnone. by subst v.
Qed.

Lemma repaired_no_empty_row headers ws : repaired headers ws -> no_empty_row ws.
Proof.
  intros (row1 & rest & Hrows & _ & Hkept & _). unfold no_empty_row.
  rewrite data_rows_eq, Hrows. cbn [tail]. apply Forall_fmap.
  eapply Forall_impl; [exact Hkept|]. intros row Hrow. by eapply kept_row_not_blank.
Qed.

End SchemaFacts.

Section WorkbookFacts.

(** X9.  [ensure_workbook] works from the file, not from the cache.  When
    the save succeeds, the file and the cache hold the same document, in
    which each of the five tables exists, has every required column in
    its row 1, has neither an empty row nor a repeated header row below
    it, and takes the next [append] below its last row; any other sheet
    of the file is as it was.  When the save fails, the call raises and
    the store is as before. *)
Theorem ensure_workbook_repairs student_custom_fields teacher_custom_fields st :
  let doc := default ∅ (path_file st) in
  (save_ok st = true ->
   exists wb',
     ensure_workbook student_custom_fields teacher_custom_fields st
     = (Ok tt, Store (Some wb') (Some wb') true)
     /\ forall name,
          match table_headers student_custom_fields teacher_custom_fields name with
          | Some headers =>
              exists ws', wb' !! name = Some ws' /\ repaired headers ws' /\ no_empty_row ws'
          | None => wb' !! name = doc !! name
          end)
  /\ (save_ok st = false ->
      ensure_workbook student_custom_fields teacher_custom_fields st
      = (Raise PermissionError, st)).
Proof.
  intros doc. split; intros Hsave; unfold ensure_workbook; rewrite Hsave; [|done].
  eexists. split; [reflexivity|]. intros name.
  rewrite ensure_tables_lookup. fold doc.
  destruct (table_headers _ _ name) as [headers|] eqn:Hname; [|done].
  pose proof (table_headers_nonempty _ _ _ _ Hname) as Hne.
  pose proof (repair_repaired headers (default empty_sheet (doc !! name)) Hne) as Hrep.
  eexists. split; [reflexivity|]. split; [done|]. by eapply repaired_no_empty_row.
Qed.

(** X10.  [ensure_workbook] on a path without file creates the document
    with the five tables and nothing else; each table has its required
    columns as row 1 and no record. *)
Theorem ensure_workbook_fresh student_custom_fields teacher_custom_fields cache :
  exists wb',
    ensure_workbook student_custom_fields teacher_custom_fields (Store None cache true)
    = (Ok tt, Store (Some wb') (Some wb') true)
    /\ (forall name,
          wb' !! name
          = (fun headers => Worksheet [hvals headers] 1)
              <$> table_headers student_custom_fields teacher_custom_fields name)
    /\ (list_students (Store (Some wb') (Some wb') true)).1 = Ok []
    /\ (list_teachers (Store (Some wb') (Some wb') true)).1 = Ok []
    /\ (forall entity, (list_all_payments entity (Store (Some wb') (Some wb') true)).1 = Ok [])
    /\ (forall limit, (list_events limit (Store (Some wb') (Some wb') true)).1 = Ok []).
Proof.
  eexists. split; [reflexivity|].
  set (s := student_custom_fields). set (t := teacher_custom_fields).
  assert (forall name,
            ensure_tables s t ∅ !! name
            = (fun headers => Worksheet [hvals headers] 1) <$> table_headers s t name)
    as Hsheets.
  { intros name. rewrite ensure_tables_lookup.
    destruct (table_headers s t name) as [headers|] eqn:Hname; [|done].
    rewrite lookup_empty. cbn [default fmap option_fmap option_map].
    by rewrite repair_empty_sheet by (by eapply table_headers_nonempty). }
  cbn [path_file default]. split; [exact Hsheets|].
  assert (forall name headers,
            table_headers s t name = Some headers ->
            ((_load ;;; on_sheet name _sheet_to_dicts)
               (Store (Some (ensure_tables s t ∅)) (Some (ensure_tables s t ∅)) true)).1
            = Ok []) as Hread.
  { intros name headers Hname.
    rewrite (read_table_cached name _ _ _ (Worksheet [hvals headers] 1)); [done|].
    by rewrite Hsheets, Hname. }
  split; [by apply (Hread STUDENTS_SHEET (student_headers s))|].
  split; [by apply (Hread TEACHERS_SHEET (teacher_headers t))|].
  split.
  - intros entity. unfold list_all_payments, payments_sheet. case_bool_decide.
    + by apply (Hread STUDENT_PAYMENTS_SHEET (payment_headers "student_id")).
    + by apply (Hread TEACHER_PAYMENTS_SHEET (payment_headers "teacher_id")).
  - intros limit. unfold list_events.
    pose proof (Hread ACTIVITY_SHEET activity_headers eq_refl) as Hlog.
    unfold bind in *. cbn [_load _wb] in *.
    destruct (on_sheet ACTIVITY_SHEET _sheet_to_dicts _) as [[rows|e] st'];
      cbn [fst] in Hlog; [|done].
    injection Hlog as ->. unfold ret. cbn [fst]. f_equal.
    unfold slice_from. by rewrite drop_nil.
Qed.

(** X11.  [add_event] on an activity log with the five columns of the
    schema adds the event as the last record: the document is saved,
    [list_events(0)] returns the old log followed by the event, and
    [list_events(1)] returns the event alone. *)
Theorem add_event_appends event st wb ws :
  current_wb st = Some wb ->
  wb !! ACTIVITY_SHEET = Some ws ->
  save_ok st = true ->
  header_values ws = hvals activity_headers ->
  length (ws_rows ws) <= ws_current_row ws ->
  exists st',
    add_event event st = (Ok tt, st')
    /\ path_file st' = _wb st'
    /\ (list_events 0 st').1 = Ok (records_of ws ++ [event_record event])
    /\ (list_events 1 st').1 = Ok [event_record event].
Proof.
  intros Hwb Hws Hsave Hhdr Hcur.
  assert (max_column ws = 5) as Hc by (by rewrite <- length_header_values, Hhdr).
  assert (1 <= ws_current_row ws) as Hcur1.
  { destruct (ws_rows ws) as [|r rs] eqn:Hrows; [|simpl in Hcur; lia].
    exfalso. unfold header_values, grid in Hhdr. rewrite Hrows in Hhdr.
    unfold max_column in Hhdr. rewrite Hrows in Hhdr. by cbn in Hhdr. }
  destruct (records_of_append (event_row event) ws) as [Hh Hrecs];
    [by rewrite Hc|done|done|by intros []|].
  rewrite Hhdr in Hrecs. fold (event_record event) in Hrecs.
  set (ws' := append (event_row event) ws) in *.
  set (wb' := <[ACTIVITY_SHEET := ws']> wb).
  assert (add_event event st = (Ok tt, Store (Some wb') (Some wb') true)) as Hrun.
  { unfold add_event, bind.
    rewrite (load_eq st wb Hwb), (on_sheet_eq _ _ _ _ _ _ Hws). unfold modify. cbn [fst snd].
    unfold _save. cbn [save_ok _wb]. by rewrite Hsave. }
  assert (forall limit,
            (list_events limit (Store (Some wb') (Some wb') true)).1
            = Ok (slice_from (- limit) (records_of ws ++ [event_record event]))) as Hlist.
  { intros limit. unfold list_events.
    assert (wb' !! ACTIVITY_SHEET = Some ws') as Hws' by apply lookup_insert_eq.
    pose proof (read_table_eq (Store (Some wb') (Some wb') true) wb' ACTIVITY_SHEET ws'
                  eq_refl Hws') as Hread.
    unfold bind in *. cbn [_load _wb] in *.
    destruct (on_sheet ACTIVITY_SHEET _sheet_to_dicts _) as [[rows|e] st'];
      [|by inversion Hread].
    injection Hread as -> _. unfold ret. cbn [fst]. by rewrite Hrecs. }
  eexists. split; [exact Hrun|]. split; [done|]. split.
  - by rewrite Hlist, slice_from_0.
  - rewrite Hlist, slice_from_neg by lia. rewrite length_app. cbn [length].
    replace (length (records_of ws) + 1 - Nat.min (Z.to_nat 1) (length (records_of ws) + 1))
      with (length (records_of ws) + 0) by lia.
    by rewrite drop_app_add.
Qed.

(** X12.  A negative limit is not rejected by [list_events]: the slice
    then starts at the front, and the call returns the log without its
    first [-limit] events (nothing when the log is not longer). *)
Theorem list_events_negative_limit st wb ws (k : nat) :
  current_wb st = Some wb ->
  wb !! ACTIVITY_SHEET = Some ws ->
  1 <= k ->
  (list_events (- Z.of_nat k) st).1 = Ok (drop k (records_of ws)).
Proof.
  intros Hwb Hws Hk. unfold list_events.
  pose proof (read_table_eq st wb ACTIVITY_SHEET ws Hwb Hws) as Hread.
  unfold bind in *. rewrite (load_eq st wb Hwb) in *.
  destruct (on_sheet ACTIVITY_SHEET _sheet_to_dicts _) as [[rows|e] st'];
    [|by inversion Hread].
  injection Hread as -> _. unfold ret. cbn [fst]. f_equal.
  unfold slice_from. rewrite Z.opp_involutive.
  rewrite bool_decide_eq_false_2 by lia.
  destruct (decide (k <= length (records_of ws))) as [Hle|Hgt].
  - by rewrite Z.min_l, Nat2Z.id by lia.
  - rewrite Z.min_r, Nat2Z.id by lia. by rewrite !drop_ge by lia.
Qed.

End WorkbookFacts.

Section CleanupFacts.

Implicit Types (ws : worksheet) (row : list value) (rows : list (list value)).

Lemma read_pad n c row : n <= c -> take n (pad n (pad c row)) = take n (pad n row).
Proof.
  intros Hnc. apply list_eq. intros i. rewrite !lookup_take.
  destruct (decide (i < n)) as [Hi|Hi]; [|done].
  assert (forall l : list value, length l >= n ->
            l !! i = Some (default VNone (l !! i))) as Hsome.
  { intros l Hl. destruct (l !! i) eqn:E; [done|]. apply lookup_ge_None in E. lia. }
  rewrite (Hsome (pad n (pad c row))), (Hsome (pad n row))
    by (rewrite !length_pad; lia).
  by rewrite !lookup_pad.
Qed.

Lemma survives_pad headers c row :
  length headers <= c -> survives headers (pad c row) <-> survives headers row.
Proof. intros Hc. unfold survives. by rewrite read_pad. Qed.

Lemma not_survives_nil headers : headers ≠ [] -> ¬ survives headers [].
Proof.
  intros Hne [_ Hb]. rewrite pad_nil in Hb.
  rewrite take_ge in Hb by (by rewrite length_replicate).
  by rewrite all_blank_replicate in Hb.
Qed.

Lemma filter_survives_nils headers j :
  headers ≠ [] -> filter (survives headers) (replicate j []) = [].
Proof.
  intros Hne. apply filter_none. intros r Hr%elem_of_replicate. destruct Hr as [-> _].
  by apply not_survives_nil.
Qed.

Lemma trim_rows_split rows : exists j, rows = trim_rows rows ++ replicate j [].
Proof.
  induction rows as [|row rows [j IH]]; [by exists 0|]. cbn [trim_rows].
  destruct (trim_rows rows) as [|r rs] eqn:E.
  - case_bool_decide as Hrow.
    + subst row. exists (S j). cbn [app] in *. by rewrite IH at 1.
    + exists j. cbn [app] in *. by rewrite IH at 1.
  - exists j. rewrite IH at 1. done.
Qed.

Lemma trim_rows_app_nonempty l post :
  post ≠ [] -> Forall (fun r => r ≠ []) post -> trim_rows (l ++ post) = l ++ post.
Proof.
  intros Hne Hpost. induction l as [|a l IH]; cbn [app].
  - by apply trim_rows_nonempty.
  - cbn [trim_rows]. rewrite IH. destruct (l ++ post) eqn:E; [|done].
    apply app_eq_nil in E as [_ ->]. done.
Qed.

Lemma kept_row_survives headers row : kept_row headers row -> survives headers row.
Proof.
  intros (Hlen & Hne & Hb). unfold survives. by rewrite pad_ge.
Qed.

Lemma filter_pad_survives headers c rows :
  length headers <= c ->
  filter (survives headers) (pad c <$> rows) = pad c <$> filter (survives headers) rows.
Proof.
  intros Hc. induction rows as [|r rows IH]; [done|].
  cbn [fmap list_fmap]. change (list_fmap _ _ (pad c) rows) with (pad c <$> rows).
  rewrite !filter_cons. destruct (decide (survives headers r)) as [Hr|Hr].
  - rewrite decide_True by (by apply survives_pad). by rewrite IH.
  - rewrite decide_False by (by rewrite survives_pad). by rewrite IH.
Qed.

Lemma max_list_le (l : list nat) c : Forall (fun x => x <= c) l -> max_list l <= c.
Proof. induction 1 as [|x l Hx _ IH]; [simpl; lia|]. rewrite max_list_cons. lia. Qed.

Lemma max_column_le rows cur c :
  1 <= c -> Forall (fun r => length r <= c) rows -> max_column (Worksheet rows cur) <= c.
Proof.
  intros Hc Hrows. unfold max_column. cbn [ws_rows].
  assert (max_list (length <$> rows) <= c); [|lia].
  apply max_list_le. by apply Forall_fmap.
Qed.

Lemma cleaned_all headers c k rest :
  length rest <= k -> cleaned headers c k rest = pad c <$> filter (survives headers) rest.
Proof.
  intros Hk. unfold cleaned. by rewrite take_ge, drop_ge, app_nil_r by lia.
Qed.

Lemma cleaned_trimmed headers c k rest :
  headers ≠ [] -> length rest <= k ->
  cleaned headers c k (trim_rows rest) = cleaned headers c k rest.
Proof.
  intros Hh Hk. destruct (trim_rows_split rest) as [j Hj].
  rewrite !cleaned_all; [|done|].
  - rewrite Hj at 2. by rewrite filter_app, filter_survives_nils, app_nil_r.
  - pose proof (prefix_length _ _ (trim_rows_prefix rest)). lia.
Qed.

Lemma cleanup_rows_filter headers row1 c : forall k rest cur,
  headers ≠ [] -> row1 ≠ [] -> length headers <= c -> length row1 <= c ->
  Forall (fun r => length r <= c) rest ->
  Forall (kept_row headers) (drop k rest) ->
  exists rest' cur',
    cleanup_rows k headers (Worksheet (row1 :: rest) cur) = Worksheet (row1 :: rest') cur'
    /\ Forall (fun r => length r <= c) rest'
    /\ pad c <$> rest' = cleaned headers c k rest.
Proof.
  intros k rest cur Hh Hrow1 Hnc Hr1c. revert rest cur.
  assert (length headers ≠ 0) as Hn by (by destruct headers).
  assert (1 <= c) as Hc1 by lia.
  induction k as [|k IH]; intros rest cur Hwidth Hgood.
  { exists rest, cur. split; [done|]. split; [done|]. unfold cleaned.
    by rewrite take_0, filter_nil, drop_0. }
  cbn [cleanup_rows].
  assert (forall ws2 rest2 cur2,
            ws2 = Worksheet (row1 :: rest2) cur2 ->
            Forall (fun r => length r <= c) rest2 ->
            Forall (kept_row headers) (drop k rest2) ->
            cleaned headers c k rest2 = cleaned headers c (S k) rest ->
            exists rest' cur',
              cleanup_rows k headers ws2 = Worksheet (row1 :: rest') cur'
              /\ Forall (fun r => length r <= c) rest'
              /\ pad c <$> rest' = cleaned headers c (S k) rest) as Hnext.
  { intros ws2 rest2 cur2 -> Hw2 Hg2 <-. by apply IH. }
  destruct (decide (k < length rest)) as [Hk|Hk].
  - (* the row exists *)
    destruct (lookup_lt_is_Some_2 rest k Hk) as [row Hrow].
    assert (rest = take k rest ++ row :: drop (S k) rest) as Hsplit
      by (by rewrite <- (take_drop_middle rest k row) at 1).
    assert (Forall (kept_row headers) (drop (S k) rest)) as Hgpost by done.
    revert Hsplit Hgpost.
    generalize (drop (S k) rest). intros post Hsplit Hgpost.
    assert (length (take k rest) = k) as Hpre by (rewrite length_take; lia).
    revert Hsplit Hpre. generalize (take k rest). intros pre Hsplit Hpre.
    assert (Forall (fun r => length r <= c) pre /\ length row <= c
            /\ Forall (fun r => length r <= c) post) as (Hwpre & Hwrow & Hwpost).
    { rewrite Hsplit in Hwidth. apply Forall_app in Hwidth as [? Hw].
      by apply Forall_cons in Hw as [? ?]. }
    assert (cleaned headers c (S k) rest
            = pad c <$> (filter (survives headers) pre
                         ++ (if decide (survives headers row) then [row] else [])
                         ++ post)) as Hgoal.
    { unfold cleaned. rewrite Hsplit.
      replace (pre ++ row :: post) with ((pre ++ [row]) ++ post)
        by (by rewrite <- app_assoc).
      replace (S k) with (length (pre ++ [row])) by (rewrite length_app; simpl; lia).
      rewrite take_app_length, drop_app_length.
      rewrite filter_app, <- app_assoc, filter_cons, filter_nil.
      by destruct (decide (survives headers row)). }
    pose proof (read_cells_middle (row1 :: pre) row post cur (length headers) Hn) as Hr.
    cbn [length] in Hr. rewrite Hpre in Hr. rewrite <- app_comm_cons, <- Hsplit in Hr.
    rewrite Hr. clear Hr.
    set (vals := take (length headers) (pad (length headers) row)).
    set (ws1 := Worksheet _ _).
    assert (¬ survives headers row ->
      exists rest2 cur2,
      delete_rows (S (S k)) ws1 = Worksheet (row1 :: rest2) cur2
      /\ Forall (fun r => length r <= c) rest2
      /\ Forall (kept_row headers) (drop k rest2)
      /\ cleaned headers c k rest2 = cleaned headers c (S k) rest) as Hdelete.
    { intros Hns. unfold delete_rows, ws1. cbn [ws_rows].
      rewrite bool_decide_eq_true_2
        by (rewrite <- app_comm_cons; cbn [length]; rewrite length_app; simpl; lia).
      replace (S (S k) - 1) with (S k) by lia.
      set (c1 := max_column _).
      assert (c1 <= c) as Hc1c.
      { apply max_column_le; [done|]. rewrite <- app_comm_cons.
        apply Forall_cons. split; [done|]. apply Forall_app. split; [done|].
        apply Forall_cons. split; [rewrite length_pad; lia|done]. }
      rewrite <- app_comm_cons. cbn [take drop].
      rewrite take_app_length' by done.
      replace (drop (S k) (pre ++ pad (length headers) row :: post)) with post.
      2:{ replace (S k) with (length (pre ++ [pad (length headers) row]))
            by (rewrite length_app; simpl; lia).
          replace (pre ++ pad (length headers) row :: post)
            with ((pre ++ [pad (length headers) row]) ++ post)
            by (by rewrite <- app_assoc).
          by rewrite drop_app_length. }
      rewrite <- app_comm_cons, trim_rows_cons by done.
      eexists _, _. split; [reflexivity|].
      rewrite Hgoal, decide_False by done. cbn [app].
      destruct post as [|p post].
      - cbn [fmap list_fmap]. rewrite !app_nil_r.
        split; [eapply Forall_prefix; [apply trim_rows_prefix|done]|].
        split.
        + rewrite drop_ge; [done|].
          pose proof (prefix_length _ _ (trim_rows_prefix pre)). lia.
        + rewrite cleaned_trimmed by (done || lia). by apply cleaned_all; lia.
      - rewrite trim_rows_app_nonempty; [|done|].
        2:{ apply Forall_fmap. eapply Forall_impl; [exact Hgpost|].
            intros r (Hlen & _) E. simpl in E. apply (f_equal length) in E.
            rewrite length_pad in E. simpl in E. lia. }
        split; [apply Forall_app; split; [done|by apply Forall_pad_le]|].
        assert (drop k (pre ++ (pad c1 <$> p :: post)) = pad c1 <$> p :: post) as Hdrop
          by (rewrite <- Hpre; apply drop_app_length).
        assert (take k (pre ++ (pad c1 <$> p :: post)) = pre) as Htake
          by (rewrite <- Hpre; apply take_app_length).
        unfold cleaned. rewrite Hdrop, Htake.
        split.
        + apply Forall_fmap. eapply Forall_impl; [exact Hgpost|].
          intros r Hr. by apply kept_row_pad.
        + by rewrite !fmap_app, fmap_pad_pad. }
    destruct (decide (survives headers row)) as [Hs|Hns].
    + destruct Hs as [Hv Hb]. fold vals in Hv, Hb.
      rewrite bool_decide_eq_false_2 by done. rewrite Hb.
      unfold ws1. rewrite <- app_comm_cons.
      eapply Hnext; [reflexivity| | |].
      * apply Forall_app. split; [done|]. apply Forall_cons.
        split; [rewrite length_pad; lia|done].
      * rewrite <- Hpre at 1. rewrite drop_app_length. apply Forall_cons. split; [|done].
        unfold kept_row. rewrite length_pad. split; [lia|]. by split.
      * rewrite Hgoal. unfold cleaned.
        assert (drop k (pre ++ pad (length headers) row :: post)
                = pad (length headers) row :: post) as ->
          by (rewrite <- Hpre; apply drop_app_length).
        assert (take k (pre ++ pad (length headers) row :: post) = pre) as ->
          by (rewrite <- Hpre; apply take_app_length).
        rewrite !fmap_app, !fmap_cons, pad_pad.
        by replace (Nat.max c (length headers)) with c by lia.
    + destruct (Hdelete Hns) as (rest2 & cur2 & Hdel & Hw2 & Hg2 & Hcl).
      assert ((if bool_decide (vals = hvals headers) then delete_rows (S (S k)) ws1
               else if forallb is_blank vals then delete_rows (S (S k)) ws1 else ws1)
              = delete_rows (S (S k)) ws1) as ->.
      { case_bool_decide as Hv; [done|]. destruct (forallb is_blank vals) eqn:Hb; [done|].
        destruct Hns. by split. }
      by eapply Hnext.
  - (* the row is below the last row *)
    rewrite read_cells_eq by (lia || done).
    replace (S (S k) - 1) with (S k) by lia.
    cbn [ws_rows]. rewrite (lookup_ge_None_2 (row1 :: rest) (S k)) by (simpl; lia).
    change (pad (length headers) (default [] None))
      with (replicate (length headers - 0) VNone).
    rewrite Nat.sub_0_r.
    rewrite take_ge by (rewrite length_replicate; lia).
    assert (replicate (length headers) VNone ≠ hvals headers) as Hne.
    { destruct headers; [done|]. simpl. congruence. }
    rewrite (bool_decide_eq_false_2 _ Hne), all_blank_replicate.
    eapply (Hnext _ (trim_rows rest)).
    + unfold delete_rows, get_cell. cbn [ws_rows].
      replace (S (S k) - 1) with (S k) by lia.
      rewrite length_alter, length_ensure_rows. cbn [length].
      rewrite bool_decide_eq_true_2 by lia.
      rewrite take_alter_ge by lia. rewrite drop_alter_lt by lia.
      unfold ensure_rows. cbn [length].
      rewrite drop_ge by (rewrite length_app, length_replicate; cbn [length]; lia).
      cbn [fmap list_fmap]. rewrite app_nil_r.
      replace (S (S k) - S (length rest)) with (S (k - length rest)) by lia.
      rewrite replicate_S_end, app_assoc.
      replace (S k) with (length ((row1 :: rest) ++ replicate (k - length rest) []))
        by (rewrite length_app, length_replicate; cbn [length]; lia).
      rewrite take_app_length, trim_rows_empty_tail, trim_rows_cons by done.
      reflexivity.
    + eapply Forall_prefix; [apply trim_rows_prefix|done].
    + rewrite drop_ge; [done|].
      pose proof (prefix_length _ _ (trim_rows_prefix rest)). lia.
    + rewrite cleaned_trimmed by (done || lia).
      rewrite !cleaned_all by lia. done.
Qed.

End CleanupFacts.

Section CleanupTheorems.

Implicit Types (ws : worksheet) (row : list value) (rows : list (list value)).

Lemma cleanup_sheet_rows headers row1 rest cur c :
  headers ≠ [] -> row1 ≠ [] ->
  length headers <= c -> max_column (Worksheet (row1 :: rest) cur) <= c ->
  exists rest' cur',
    _cleanup_sheet (Worksheet (row1 :: rest) cur) headers = Worksheet (row1 :: rest') cur'
    /\ pad c <$> rest' = pad c <$> filter (survives headers) rest.
Proof.
  intros Hh Hrow1 Hn Hc.
  pose proof (rows_le_max_column (Worksheet (row1 :: rest) cur)) as Hw.
  cbn [ws_rows] in Hw. apply Forall_cons in Hw as [Hw1 Hw].
  unfold _cleanup_sheet, max_row. cbn [ws_rows length].
  destruct rest as [|r rest].
  { rewrite bool_decide_eq_true_2 by (simpl; lia). by exists [], cur. }
  rewrite bool_decide_eq_false_2 by (simpl; lia).
  replace (Nat.max 1 (S (length (r :: rest))) - 1) with (length (r :: rest)) by (simpl; lia).
  destruct (cleanup_rows_filter headers row1 c (length (r :: rest)) (r :: rest) cur)
    as (rest' & cur' & Hrun & _ & Hrest'); try done.
  - lia.
  - eapply Forall_impl; [exact Hw|]. simpl. lia.
  - by rewrite drop_all.
  - exists rest', cur'. split; [done|]. by rewrite Hrest', cleaned_all.
Qed.

(** X13.  [_cleanup_sheet] leaves row 1 alone and deletes, of the rows
    below it, exactly those whose first [len(headers)] cells repeat the
    header or are all blank; the other rows stay, in their order, with
    their values (a row may come out with more empty cells at its
    end). *)
Theorem cleanup_sheet_filters ws headers row1 rest :
  headers ≠ [] ->
  ws_rows ws = row1 :: rest -> row1 ≠ [] ->
  exists rest' cur',
    _cleanup_sheet ws headers = Worksheet (row1 :: rest') cur'
    /\ forall c, length headers <= c -> max_column ws <= c ->
                 pad c <$> rest' = pad c <$> filter (survives headers) rest.
Proof.
  intros Hh Hrows Hrow1. destruct ws as [rows cur]. cbn [ws_rows] in Hrows. subst rows.
  set (ws := Worksheet (row1 :: rest) cur).
  destruct (cleanup_sheet_rows headers row1 rest cur
              (Nat.max (length headers) (max_column ws)) Hh Hrow1)
    as (rest' & cur' & Hrun & _); [unfold ws; lia..|].
  exists rest', cur'. split; [exact Hrun|]. intros c Hn Hc.
  destruct (cleanup_sheet_rows headers row1 rest cur c Hh Hrow1 Hn Hc)
    as (rest2 & cur2 & Hrun2 & Hrest2).
  unfold ws in Hrun. rewrite Hrun in Hrun2. by injection Hrun2 as -> _.
Qed.

Lemma missing_columns_nil headers : forall existing,
  (forall h, h ∈ headers -> VStr h ∈ existing) -> missing_columns existing headers = [].
Proof.
  induction headers as [|h headers IH]; intros existing Hall; [done|].
  cbn [missing_columns]. rewrite bool_decide_eq_true_2 by (apply Hall; left).
  apply IH. intros h' Hh'. apply Hall. by right.
Qed.

Lemma header_values_row1 ws :
  header_values ws = pad (max_column ws) (hd [] (ws_rows ws)).
Proof. unfold header_values, grid. by destruct (ws_rows ws). Qed.

(** [_ensure_sheet_headers] on a sheet whose row 1 is not blank. *)
Lemma ensure_sheet_headers_nonblank ws headers :
  headers ≠ [] ->
  forallb is_none (header_values ws) = false ->
  _ensure_sheet_headers ws headers
  = Worksheet ((header_values ws ++ missing_columns (header_values ws) headers)
               :: tail (ws_rows ws))
              (Nat.max 1 (ws_current_row ws)).
Proof.
  intros Hh Hrow1. rewrite ensure_sheet_headers_eq by done. cbv zeta.
  rewrite <- header_values_row1, Hrow1.
  case_bool_decide as Hne; [done|].
  rewrite missing_columns_nil, app_nil_r; [done|].
  intros h Hin. rewrite Hne. unfold hvals. apply list_elem_of_fmap. eauto.
Qed.

(** X14.  [ensure_workbook] does not destroy a table that has a header:
    when row 1 of the sheet is not blank, the repaired sheet has the old
    row 1 followed by the required columns it lacked, and below it the
    old rows that the clean-up lets survive, in their order. *)
Theorem ensure_workbook_keeps_rows student_custom_fields teacher_custom_fields
    st wb ws name headers :
  path_file st = Some wb ->
  wb !! name = Some ws ->
  table_headers student_custom_fields teacher_custom_fields name = Some headers ->
  save_ok st = true ->
  forallb is_none (header_values ws) = false ->
  let row1 := header_values ws ++ missing_columns (header_values ws) headers in
  exists ws' rest',
    sheet_in (_wb (ensure_workbook student_custom_fields teacher_custom_fields st).2) name
    = Some ws'
    /\ ws_rows ws' = row1 :: rest'
    /\ forall c, length headers <= c -> length row1 <= c ->
                 pad c <$> rest' = pad c <$> filter (survives headers) (tail (ws_rows ws)).
Proof.
  intros Hfile Hws Hname Hsave Hrow1 row1.
  pose proof (table_headers_nonempty _ _ _ _ Hname) as Hh.
  unfold ensure_workbook. rewrite Hsave, Hfile.
  cbn [snd _wb sheet_in mbind option_bind default]. unfold id.
  rewrite ensure_tables_lookup, Hname, Hws. cbn [default]. unfold repair, id.
  rewrite ensure_sheet_headers_nonblank by done. fold row1.
  set (rest := tail (ws_rows ws)). set (cur := Nat.max 1 (ws_current_row ws)).
  pose proof (length_header_values ws) as Hlen.
  pose proof (max_column_ge ws) as Hc1.
  assert (row1 ≠ []) as Hne.
  { unfold row1. intros E. apply (f_equal length) in E.
    rewrite length_app in E. simpl in E. lia. }
  assert (max_column (Worksheet (row1 :: rest) cur) = length row1) as Hmax.
  { apply max_column_first.
    - unfold row1. rewrite length_app. lia.
    - eapply Forall_impl; [apply tail_le_max_column|].
      intros r Hr. simpl in Hr. unfold row1. rewrite length_app. lia. }
  destruct (cleanup_sheet_rows headers row1 rest cur
              (Nat.max (length headers) (length row1)) Hh Hne)
    as (rest' & cur' & Hrun & _); [lia..|].
  exists (Worksheet (row1 :: rest') cur'), rest'.
  split; [by rewrite Hrun|]. split; [done|]. intros c Hn Hc.
  destruct (cleanup_sheet_rows headers row1 rest cur c Hh Hne Hn) as (rest2 & cur2 & Hrun2 & Hrest2);
    [lia|].
  rewrite Hrun in Hrun2. by injection Hrun2 as -> _.
Qed.

End CleanupTheorems.

Section NextIdFresh.

Open Scope N_scope.

















Close Scope N_scope.

End NextIdFresh.

Section StatusFacts.

Variable int_of_str : string -> option Z.

Lemma get_payment_record_eq entity person_id year month st wb ws :
  current_wb st = Some wb ->
  wb !! payments_sheet entity = Some ws ->
  get_payment_record int_of_str entity person_id year month st
  = (match find_record int_of_str (id_column entity) person_id year month (records_of ws) 2
     with
     | Ok (Some (_, r)) => Ok r
     | Ok None => Ok default_record
     | Raise e => Raise e
     end,
     Store (path_file st) (Some (<[payments_sheet entity := normalize ws]> wb)) (save_ok st)).
Proof.
  intros Hwb Hws. unfold get_payment_record.
  pose proof (read_table_eq st wb _ ws Hwb Hws) as Hread.
  unfold bind in *. destruct (_load st) as [[[]|e] st0]; [|done]. rewrite Hread.
  destruct (find_record _ _ _ _ _ _ _) as [[[k r]|]|e]; done.
Qed.

Lemma find_record_raises id_col person_id year month before r after e : forall idx,
  Forall (fun r => key_matches int_of_str id_col person_id year month r = Ok false) before ->
  key_matches int_of_str id_col person_id year month r = Raise e ->
  find_record int_of_str id_col person_id year month (before ++ r :: after) idx = Raise e.
Proof.
  induction before as [|b before IH]; intros idx Hb Hr; cbn [app find_record].
  - by rewrite Hr.
  - apply Forall_cons in Hb as [Hb Hbefore]. by rewrite Hb, IH.
Qed.

(** X17.  [get_payment_record] goes through the records of the payments
    table in sheet order and stops at the first one it can decide on.
    Without a record of the key it returns the default record, and
    [get_payment_status] returns Pending.  The first record of the key
    is the one returned, also when later records have the same key.  A
    record of the person whose year or month cell does not convert with
    [int] (an empty cell, a text) stops the search with that error
    when no earlier record has the key. *)
Theorem payment_record_lookup entity person_id year month st wb ws :
  current_wb st = Some wb ->
  wb !! payments_sheet entity = Some ws ->
  let decides r := key_matches int_of_str (id_column entity) person_id year month r in
  (Forall (fun r => decides r = Ok false) (records_of ws) ->
     (get_payment_record int_of_str entity person_id year month st).1 = Ok default_record
     /\ (get_payment_status int_of_str entity person_id year month st).1 = Ok "Pending")
  /\ (forall before r after,
        records_of ws = before ++ r :: after ->
        Forall (fun r => decides r = Ok false) before ->
        (decides r = Ok true ->
           (get_payment_record int_of_str entity person_id year month st).1 = Ok r
           /\ (get_payment_status int_of_str entity person_id year month st).1
              = Ok (py_str (py_or (dict_get r "status" (VStr "Pending")) (VStr "Pending"))))
        /\ (forall e, decides r = Raise e ->
              (get_payment_record int_of_str entity person_id year month st).1 = Raise e
              /\ (get_payment_status int_of_str entity person_id year month st).1 = Raise e))
  /\ (forall r, py_str (dict_get r (id_column entity) (VStr "")) = person_id ->
                r !! VStr "year" = Some VNone -> decides r = Raise TypeError).
Proof.
  intros Hwb Hws decides.
  pose proof (get_payment_record_eq entity person_id year month st wb ws Hwb Hws) as Hget.
  split; [|split].
  - intros Hnone. unfold get_payment_status, bind. rewrite Hget.
    by rewrite find_record_none.
  - intros before r after Hrecs Hbefore. split.
    + intros Hr. unfold get_payment_status, bind. rewrite Hget, Hrecs.
      by rewrite find_record_found.
    + intros e Hr. unfold get_payment_status, bind. rewrite Hget, Hrecs.
      by rewrite (find_record_raises _ _ _ _ _ _ _ e).
  - intros r Hid Hyear. unfold decides, key_matches.
    rewrite bool_decide_eq_true_2 by done. unfold dict_get. by rewrite Hyear.
Qed.

Lemma recorded_status_found id_col person_id year month before r after :
  Forall (fun r => key_matches int_of_str id_col person_id year month r = Ok false) before ->
  key_matches int_of_str id_col person_id year month r = Ok true ->
  recorded_status int_of_str id_col person_id year month (before ++ r :: after)
  = py_str (py_or (dict_get r "status" (VStr "Pending")) (VStr "Pending")).
Proof.
  intros Hb Hr. unfold recorded_status. rewrite filter_app.
  rewrite (filter_none (has_key _ _ _ _ _)) by (by apply Forall_forall, not_key_of_false).
  by rewrite filter_cons_True.
Qed.

Lemma recorded_status_none id_col person_id year month records :
  Forall (fun r => key_matches int_of_str id_col person_id year month r = Ok false) records ->
  recorded_status int_of_str id_col person_id year month records = "Pending".
Proof.
  intros Hb. unfold recorded_status.
  by rewrite (filter_none (has_key _ _ _ _ _)) by (by apply Forall_forall, not_key_of_false).
Qed.

(** A store whose cached payments table of [entity] holds the given
    records. *)
Lemma get_payment_status_recorded entity person_id year month st wb ws :
  _wb st = Some wb ->
  wb !! payments_sheet entity = Some ws ->
  Forall (period_converts int_of_str) (records_of ws) ->
  get_payment_status int_of_str entity person_id year month st
  = (Ok (recorded_status int_of_str (id_column entity) person_id year month (records_of ws)),
     Store (path_file st) (Some (<[payments_sheet entity := normalize ws]> wb)) (save_ok st)).
Proof.
  intros Hwb Hws Hconv. unfold get_payment_status, bind.
  rewrite (get_payment_record_eq entity person_id year month st wb ws)
    by (done || (unfold current_wb; by rewrite Hwb)).
  destruct (find_record_ok int_of_str (id_column entity) person_id year month
              (records_of ws) 2 Hconv) as [found Hfound].
  rewrite Hfound. apply find_record_cases in Hfound. unfold ret.
  destruct found as [[k r]|].
  - destruct Hfound as (before & after & -> & _ & Hb & Hr).
    by rewrite recorded_status_found.
  - by rewrite recorded_status_none.
Qed.

Lemma count_people_eq entity year month payments people : forall st paid0 pending0,
  (exists wb ws, _wb st = Some wb /\ wb !! payments_sheet entity = Some ws
                 /\ records_of ws = payments) ->
  Forall (period_converts int_of_str) payments ->
  exists st',
    count_people int_of_str entity year month people paid0 pending0 st
    = (Ok (paid0 + length (filter (counted_paid int_of_str entity year month payments) people),
           pending0 + length (filter (fun p => counted entity p
                                  /\ ¬ counted_paid int_of_str entity year month payments p)
                                people)),
       st').
Proof.
  induction people as [|p people IH]; intros st paid0 pending0 Hst Hconv.
  - eexists. cbn [count_people filter list_filter length]. unfold ret.
    by rewrite !Nat.add_0_r.
  - cbn [count_people]. fold (person_id_of entity p).
    destruct Hst as (wb & ws & Hwb & Hws & Hrecs).
    rewrite !filter_cons.
    case_bool_decide as Hpid.
    + rewrite decide_False by (unfold counted_paid; tauto).
      rewrite decide_False by (unfold counted; tauto).
      apply IH; [|done]. by exists wb, ws.
    + unfold bind at 1.
      rewrite (get_payment_status_recorded entity _ year month st wb ws Hwb Hws)
        by (by rewrite Hrecs).
      rewrite Hrecs.
      set (st1 := Store _ _ _).
      assert (exists wb1 ws1, _wb st1 = Some wb1 /\ wb1 !! payments_sheet entity = Some ws1
                              /\ records_of ws1 = payments) as Hst1.
      { eexists _, (normalize ws). split; [reflexivity|].
        split; [apply lookup_insert_eq|]. by rewrite records_of_normalize. }
      case_bool_decide as Hpaid.
      * rewrite decide_True by (by split).
        rewrite decide_False by (intros [_ H]; apply H; by split).
        destruct (IH st1 (paid0 + 1) pending0 Hst1 Hconv) as [st' ->].
        exists st'. cbn [length]. do 3 f_equal; lia.
      * rewrite decide_False by (by intros [_ H]).
        rewrite decide_True by (split; [done|by intros [_ H]]).
        destruct (IH st1 paid0 (pending0 + 1) Hst1 Hconv) as [st' ->].
        exists st'. cbn [length]. do 3 f_equal; lia.
Qed.

(** X18.  The paid count of [payment_stats] is the number of listed people
    with a non-empty ID whose recorded status for the month reads paid,
    whatever the case of its letters; everyone else with an ID counts as
    pending, a person without record among them. *)
Theorem payment_stats_counts_paid entity year month st wb ws_people ws_pay :
  current_wb st = Some wb ->
  wb !! people_sheet entity = Some ws_people ->
  wb !! payments_sheet entity = Some ws_pay ->
  Forall (period_converts int_of_str) (records_of ws_pay) ->
  let people := records_of ws_people in
  let is_paid := counted_paid int_of_str entity year month (records_of ws_pay) in
  exists s,
    (payment_stats int_of_str entity year month st).1 = Ok s
    /\ paid s = length (filter is_paid people)
    /\ pending s = length (filter (fun p => counted entity p /\ ¬ is_paid p) people).
Proof.
  intros Hwb Hpeople Hpay Hconv people is_paid.
  pose proof (list_people_eq entity st wb ws_people Hwb Hpeople) as Hlist.
  unfold payment_stats. fold (list_people entity). unfold bind at 1.
  rewrite Hlist.
  set (st1 := Store _ _ _).
  destruct (count_people_eq entity year month (records_of ws_pay) people st1 0 0)
    as [st2 Hcount]; [|done|].
  { exists (<[people_sheet entity := normalize ws_people]> wb), ws_pay.
    split; [done|]. split; [|done].
    rewrite lookup_insert_ne; [done|apply people_payments_sheets]. }
  unfold bind. fold people. rewrite Hcount. unfold ret. cbn [fst snd].
  eexists. split; [reflexivity|]. by cbn [paid pending].
Qed.

End StatusFacts.

Section FindRowFacts.

Implicit Types (ws : worksheet) (row : list value) (rows : list (list value)).

Lemma cell_value_data_row ws r c :
  2 <= r -> cell_value r c ws = at_col (c - 1) (default [] (tail (ws_rows ws) !! (r - 2))).
Proof.
  intros Hr. unfold cell_value, at_col.
  destruct (ws_rows ws) as [|row1 rest] eqn:Hrows.
  - cbn [tail]. by rewrite !lookup_nil.
  - cbn [tail]. replace (r - 1) with (S (r - 2)) by lia. cbn [lookup list_lookup].
    change (list_lookup (r - 2) rest) with (rest !! (r - 2)).
    by destruct (rest !! (r - 2)).
Qed.

Lemma grid_searched ws i p :
  i < max_column ws ->
  Forall2 (fun r' r => r' = r \/ r' = pad (i + 1) r) p (tail (ws_rows ws)) ->
  forall cur, grid (Worksheet (header_values ws :: p) cur) = grid ws.
Proof.
  intros Hi Hp cur.
  pose proof (length_header_values ws) as Hlen.
  pose proof (max_column_ge ws) as Hc1.
  pose proof (tail_le_max_column ws) as Hle.
  rewrite grid_full_first with (c := max_column ws); [|done|done|].
  - rewrite grid_hd_tail. f_equal.
    revert Hp. generalize (tail (ws_rows ws)). intros rest Hp.
    induction Hp as [|r' r p rest [->| ->] _ IH]; [done|..]; cbn [fmap list_fmap].
    + by rewrite <- IH.
    + rewrite pad_pad. replace (Nat.max (max_column ws) (i + 1)) with (max_column ws) by lia.
      by rewrite <- IH.
  - revert Hp Hle. generalize (tail (ws_rows ws)). intros rest Hp Hle.
    induction Hp as [|r' r p rest [->| ->] _ IH]; [done|..];
      apply Forall_cons in Hle as [Hr Hle]; apply Forall_cons; (split; [|by apply IH]).
    + done.
    + rewrite length_pad. lia.
Qed.

Lemma Forall2_pad_all i (rest : list (list value)) :
  Forall2 (fun r' r => r' = r \/ r' = pad (i + 1) r) (pad (i + 1) <$> rest) rest.
Proof. induction rest as [|r rest IH]; [constructor|]. constructor; [by right|done]. Qed.

Lemma Forall2_same (rest : list (list value)) i :
  Forall2 (fun r' r => r' = r \/ r' = pad (i + 1) r) rest rest.
Proof. induction rest as [|r rest IH]; [constructor|]. constructor; [by left|done]. Qed.

(** X19.  [_find_row_by_id] never raises.  It returns the number of the
    first row, from row 2 down, whose cell in the first column headed
    [id_header] holds the ID, and [None] when there is no such column or
    no such row.  The search creates empty cells at most: the sheet
    shows the same values afterwards. *)
Theorem find_row_by_id_first id_header person_id ws :
  exists found ws',
    _find_row_by_id id_header person_id ws = (Ok found, ws')
    /\ grid ws' = grid ws
    /\ match found with
       | Some r =>
           exists i, list_index (VStr id_header) (header_values ws) = Some i
             /\ 2 <= r <= max_row ws
             /\ cell_value r (i + 1) ws = VStr person_id
             /\ forall r', 2 <= r' < r -> cell_value r' (i + 1) ws ≠ VStr person_id
       | None =>
           list_index (VStr id_header) (header_values ws) = None
           \/ exists i, list_index (VStr id_header) (header_values ws) = Some i
                /\ forall r', 2 <= r' -> cell_value r' (i + 1) ws ≠ VStr person_id
       end.
Proof.
  pose proof (length_header_values ws) as Hlen.
  destruct (find_row_by_id_cases id_header person_id ws)
    as [[Hi ->]|[(i & Hi & Hno & ->)|(i & p1 & row & p2 & Hi & Hrest & Hno & Hrow & ->)]].
  - eexists _, _. split; [reflexivity|]. split; [|by left].
    apply (grid_searched ws 0); [pose proof (max_column_ge ws); lia|apply Forall2_same].
  - pose proof (list_index_lt _ _ _ Hi) as [Hilt _].
    eexists _, _. split; [reflexivity|]. split.
    + apply (grid_searched ws i); [lia|apply Forall2_pad_all].
    + right. exists i. split; [done|]. intros r' Hr'.
      rewrite cell_value_data_row by done. replace (i + 1 - 1) with i by lia.
      destruct (tail (ws_rows ws) !! (r' - 2)) as [r|] eqn:E; [|done].
      by apply (proj1 (Forall_lookup _ _) Hno (r' - 2) r).
  - pose proof (list_index_lt _ _ _ Hi) as [Hilt _].
    eexists _, _. split; [reflexivity|]. split.
    + apply (grid_searched ws i); [lia|]. rewrite Hrest.
      apply Forall2_app; [apply Forall2_pad_all|].
      constructor; [by right|apply Forall2_same].
    + exists i. split; [done|].
      assert (length (tail (ws_rows ws)) = length p1 + S (length p2)) as Hl
        by (rewrite Hrest, length_app; done).
      split.
      { unfold max_row. destruct (ws_rows ws); simpl in *; lia. }
      split.
      { rewrite cell_value_data_row by lia. replace (i + 1 - 1) with i by lia.
        replace (2 + length p1 - 2) with (length p1) by lia.
        rewrite Hrest. by rewrite list_lookup_middle. }
      intros r' Hr'. rewrite cell_value_data_row by lia. replace (i + 1 - 1) with i by lia.
      rewrite Hrest, lookup_app_l by lia.
      destruct (p1 !! (r' - 2)) as [r|] eqn:E; [|done].
      by apply (proj1 (Forall_lookup _ _) Hno (r' - 2) r).
Qed.

(** X20.  Listing a table is repeatable and leaves the file alone: the
    second call returns what the first returned and changes nothing any
    more.  After [invalidate_cache] the next listing comes from the
    file, whatever the cache held. *)
Theorem listing_repeatable sheet st wb ws :
  current_wb st = Some wb ->
  wb !! sheet = Some ws ->
  let list := (_load ;;; on_sheet sheet _sheet_to_dicts) : M store (list record) in
  exists st1,
    list st = (Ok (records_of ws), st1)
    /\ path_file st1 = path_file st
    /\ list st1 = (Ok (records_of ws), st1)
    /\ (forall file_wb file_ws,
          path_file st = Some file_wb -> file_wb !! sheet = Some file_ws ->
          ((invalidate_cache ;;; list) st).1 = Ok (records_of file_ws)).
Proof.
  intros Hwb Hws list. unfold list.
  rewrite (read_table_eq st wb sheet ws Hwb Hws).
  eexists. split; [reflexivity|]. split; [done|]. split.
  - rewrite (read_table_eq _ (<[sheet := normalize ws]> wb) sheet (normalize ws));
      [|done|apply lookup_insert_eq].
    by rewrite records_of_normalize, normalize_idem, insert_insert_eq.
  - intros file_wb file_ws Hfile Hsheet. unfold bind at 1, invalidate_cache, modify.
    by rewrite (read_table_eq _ file_wb sheet file_ws).
Qed.

End FindRowFacts.

Section HeaderFacts.

Implicit Types (ws : worksheet) (row : list value).

(** X21.  After [_ensure_sheet_headers] every required column heads a
    column of row 1, and a second call changes nothing that the sheet
    shows. *)
Theorem ensure_sheet_headers_complete ws headers :
  headers ≠ [] ->
  let ws' := _ensure_sheet_headers ws headers in
  (forall h, h ∈ headers -> exists c, 1 <= c /\ cell_value 1 c ws' = VStr h)
  /\ grid (_ensure_sheet_headers ws' headers) = grid ws'.
Proof.
  intros Hh ws'.
  destruct (ensure_sheet_headers_row1 ws headers Hh) as (row1 & rest & cur & Hws' & Hall & Hcur).
  fold ws' in Hws'. split.
  - intros h Hin. apply Hall, list_elem_of_lookup in Hin as [i Hi].
    exists (S i). split; [lia|]. rewrite Hws'. unfold cell_value. cbn.
    rewrite Nat.sub_0_r. by rewrite Hi.
  - destruct (first_row_not_blank headers row1 Hh Hall) as [Hne Hnb].
    assert (forallb is_none (header_values ws') = false) as Hrow1.
    { rewrite header_values_row1, Hws'. cbn [ws_rows hd]. apply Hnb. }
    rewrite ensure_sheet_headers_nonblank by done.
    rewrite missing_columns_nil, app_nil_r.
    + apply (grid_searched ws' 0); [pose proof (max_column_ge ws'); lia|apply Forall2_same].
    + intros h Hin. rewrite header_values_row1, Hws'. cbn [ws_rows hd].
      unfold pad. apply elem_of_app. left. by apply Hall.
Qed.

End HeaderFacts.

Section FieldNames.

Lemma name_char_not_space a : is_name_char a = true -> isspace a = false.
Proof. destruct a as [[] [] [] [] [] [] [] []]; vm_compute; congruence. Qed.

Lemma str_forall_filter p s : str_forall p (str_filter p s) = true.
Proof.
  induction s as [|a s IH]; [done|]. cbn [str_filter].
  destruct (p a) eqn:E; [|done]. cbn [str_forall]. by rewrite E, IH.
Qed.

Lemma str_filter_all p s : str_forall p s = true -> str_filter p s = s.
Proof.
  induction s as [|a s IH]; [done|]. cbn [str_forall]. intros [Ha Hs]%andb_true_iff.
  cbn [str_filter]. by rewrite Ha, IH.
Qed.

Lemma lstrip_name s : str_forall is_name_char s = true -> lstrip s = s.
Proof.
  destruct s as [|a s]; [done|]. cbn [str_forall]. intros [Ha _]%andb_true_iff.
  cbn [lstrip]. by rewrite name_char_not_space.
Qed.

Lemma rstrip_name s : str_forall is_name_char s = true -> rstrip s = s.
Proof.
  induction s as [|a s IH]; [done|]. cbn [str_forall]. intros [Ha Hs]%andb_true_iff.
  cbn [rstrip]. rewrite IH by done. rewrite name_char_not_space by done.
  by destruct s.
Qed.

Lemma sub_spaces_name s : str_forall is_name_char s = true -> sub_spaces false s = s.
Proof.
  induction s as [|a s IH]; [done|]. cbn [str_forall]. intros [Ha Hs]%andb_true_iff.
  cbn [sub_spaces]. by rewrite name_char_not_space, IH.
Qed.

Lemma normalize_name s : str_forall is_name_char s = true -> _normalize_field_name s = s.
Proof.
  intros Hs. unfold _normalize_field_name, strip.
  by rewrite lstrip_name, rstrip_name, sub_spaces_name, str_filter_all.
Qed.

Lemma str_forall_app p s1 s2 :
  str_forall p (s1 +:+ s2) = str_forall p s1 && str_forall p s2.
Proof.
  induction s1 as [|a s1 IH]; [done|].
  change (String a s1 +:+ s2) with (String a (s1 +:+ s2)). cbn [str_forall].
  by rewrite IH, andb_assoc.
Qed.

Lemma str_app_assoc (s1 s2 s3 : string) : (s1 +:+ s2) +:+ s3 = s1 +:+ s2 +:+ s3.
Proof.
  induction s1 as [|a s1 IH]; [done|].
  change ((String a s1 +:+ s2) +:+ s3) with (String a ((s1 +:+ s2) +:+ s3)).
  by rewrite IH.
Qed.

Lemma rstrip_app s b :
  b ≠ EmptyString -> str_forall is_name_char b = true -> rstrip (s +:+ b) = s +:+ b.
Proof.
  intros Hb Hname. induction s as [|a s IH].
  - by apply rstrip_name.
  - change (String a s +:+ b) with (String a (s +:+ b)). cbn [rstrip]. rewrite IH.
    destruct (s +:+ b) eqn:E; [|done]. destruct s; [|discriminate E]. by destruct Hb.
Qed.

Lemma sub_spaces_app_name a s :
  str_forall is_name_char a = true ->
  sub_spaces false (a +:+ s) = a +:+ sub_spaces false s.
Proof.
  induction a as [|c a IH]; [done|]. cbn [str_forall]. intros [Hc Ha]%andb_true_iff.
  change (String c a +:+ s) with (String c (a +:+ s)). cbn [sub_spaces].
  rewrite name_char_not_space by done. by rewrite IH.
Qed.

Lemma sub_spaces_run w b :
  str_forall isspace w = true -> str_forall is_name_char b = true ->
  sub_spaces true (w +:+ b) = b.
Proof.
  intros Hw Hb. induction w as [|c w IH].
  - destruct b as [|d b]; [done|]. cbn [str_forall] in Hb.
    apply andb_true_iff in Hb as [Hd Hb].
    change (EmptyString +:+ String d b) with (String d b). cbn [sub_spaces].
    rewrite name_char_not_space by done. by rewrite sub_spaces_name.
  - cbn [str_forall] in Hw. apply andb_true_iff in Hw as [Hc Hw].
    change (String c w +:+ b) with (String c (w +:+ b)). cbn [sub_spaces].
    rewrite Hc. by apply IH.
Qed.

(** X22.  [_normalize_field_name] returns a string of letters, digits,
    underscores and hyphens only.  A string that consists of such
    characters is returned as it is, so normalizing twice is the same as
    normalizing once.  White space between two words is replaced, the
    whole run of it, by one underscore. *)
Theorem normalize_field_name_canonical name :
  str_forall is_name_char (_normalize_field_name name) = true
  /\ (str_forall is_name_char name = true -> _normalize_field_name name = name)
  /\ _normalize_field_name (_normalize_field_name name) = _normalize_field_name name
  /\ (forall a w b,
        name = a +:+ w +:+ b ->
        a ≠ EmptyString -> str_forall is_name_char a = true ->
        w ≠ EmptyString -> str_forall isspace w = true ->
        b ≠ EmptyString -> str_forall is_name_char b = true ->
        _normalize_field_name name = a +:+ "_" +:+ b).
Proof.
  assert (str_forall is_name_char (_normalize_field_name name) = true) as H
    by apply str_forall_filter.
  split; [exact H|]. split; [apply normalize_name|]. split; [by apply normalize_name|].
  intros a w b -> Ha Hna Hw Hsw Hb Hnb. unfold _normalize_field_name, strip.
  assert (lstrip (a +:+ w +:+ b) = a +:+ w +:+ b) as ->.
  { destruct a as [|c a]; [done|]. cbn [str_forall] in Hna.
    apply andb_true_iff in Hna as [Hc _].
    change (String c a +:+ ?x) with (String c (a +:+ x)). cbn [lstrip].
    by rewrite name_char_not_space. }
  rewrite <- str_app_assoc, rstrip_app, str_app_assoc by done.
  rewrite sub_spaces_app_name by done.
  destruct w as [|c w]; [done|]. cbn [str_forall] in Hsw.
  apply andb_true_iff in Hsw as [Hc Hsw].
  change (String c w +:+ b) with (String c (w +:+ b)). cbn [sub_spaces].
  rewrite Hc, sub_spaces_run by done.
  apply str_filter_all. rewrite str_forall_app, Hna.
  change (String "_" b) with ("_" +:+ b). by rewrite str_forall_app, Hnb.
Qed.

End FieldNames.

(** * The further properties at the example documents *)

Section MoreExamples.


Lemma payments_sheet_ex_converts :
  Forall (period_converts parse_decimal) (records_of payments_sheet_ex).
Proof.
  destruct payments_sheet_ex_record as (rec & -> & _ & _ & Hy & Hm).
  constructor; [|constructor]. split.
  - exists 2026%Z. rewrite Hy. reflexivity.
  - exists 3%Z. rewrite Hm. reflexivity.
Qed.

Lemma payments_sheet_ex_columns h :
  h ∈ payment_headers (id_column "student") -> VStr h ∈ header_values payments_sheet_ex.
Proof.
  intros Hin. vm_compute in Hin.
  repeat (apply elem_of_cons in Hin as [->|Hin]; [decide_by_eval|]).
  by apply elem_of_nil in Hin.
Qed.

End MoreExamples.

Lemma upsert_student_inserts_witness :
  current_wb schema_store = Some schema_wb
  /\ schema_wb !! STUDENTS_SHEET = Some schema_students
  /\ save_ok schema_store = true
  /\ single_column "student_id" (header_values schema_students)
  /\ VStr "student_id" ∈ header_values schema_students
  /\ dict_get alice "student_id" (VStr "") = VStr "STU-0001"
  /\ Forall (fun rec => ¬ has_id "student_id" "STU-0001" rec) (records_of schema_students)
  /\ exists st', upsert_student alice t0 schema_store = (Ok tt, st')
                 /\ path_file st' = _wb st'.
Proof.
  assert (H1 : current_wb schema_store = Some schema_wb) by decide_by_eval.
  assert (H2 : schema_wb !! STUDENTS_SHEET = Some schema_students) by decide_by_eval.
  assert (H3 : save_ok schema_store = true) by (vm_compute; reflexivity).
  assert (H4 : single_column "student_id" (header_values schema_students))
    by (apply single_column_NoDup; decide_by_eval).
  assert (H5 : VStr "student_id" ∈ header_values schema_students) by decide_by_eval.
  assert (H6 : dict_get alice "student_id" (VStr "") = VStr "STU-0001")
    by (vm_compute; reflexivity).
  assert (H7 : Forall (fun rec => ¬ has_id "student_id" "STU-0001" rec)
                 (records_of schema_students)) by decide_by_eval.
  repeat (split; [assumption|]).
  destruct (upsert_student_inserts alice t0 schema_store schema_wb schema_students
              "STU-0001" H1 H2 H3 H4 H5 H6 H7) as (new & st' & Hrun & Hsaved & _).
  exists st'. split; assumption.
Defined.


Lemma delete_teacher_semantics_witness :
  current_wb schema_store = Some schema_wb
  /\ schema_wb !! TEACHERS_SHEET = Some schema_teachers
  /\ single_column "teacher_id" (header_values schema_teachers)
  /\ exists st', delete_teacher "TCH-0001" schema_store = (Ok false, st')
                 /\ path_file st' = path_file schema_store.
Proof.
  assert (H1 : current_wb schema_store = Some schema_wb) by decide_by_eval.
  assert (H2 : schema_wb !! TEACHERS_SHEET = Some schema_teachers) by decide_by_eval.
  assert (H3 : single_column "teacher_id" (header_values schema_teachers))
    by (apply single_column_NoDup; decide_by_eval).
  repeat (split; [assumption|]).
  assert (Hlen : length (records_of schema_teachers) = 0) by (vm_compute; reflexivity).
  destruct (delete_teacher_semantics "TCH-0001" schema_store schema_wb schema_teachers
              H1 H2 H3)
    as [(_ & st' & ws' & Hrun & Hfile & _)|(before & rec & after & Hsplit & _)].
  - exists st'. split; assumption.
  - exfalso. rewrite Hsplit, length_app in Hlen. simpl in Hlen. lia.
Defined.

Lemma set_payment_upserts_witness :
  current_wb log_store = Some log_wb
  /\ log_wb !! payments_sheet "student" = Some payments_sheet_ex
  /\ save_ok log_store = true
  /\ no_empty_row payments_sheet_ex
  /\ ws_current_row payments_sheet_ex <= max_row payments_sheet_ex
  /\ (forall h, h ∈ payment_headers (id_column "student")
                -> VStr h ∈ header_values payments_sheet_ex)
  /\ Forall (period_converts parse_decimal) (records_of payments_sheet_ex)
  /\ exists st',
       set_payment parse_decimal "student" "STU-0001" 2026 3 "Pending" 500 t1 log_store
       = (Ok tt, st')
       /\ (get_payment_status parse_decimal "student" "STU-0001" 2026 3 st').1
          = Ok "Pending".
Proof.
  assert (H1 : current_wb log_store = Some log_wb) by decide_by_eval.
  assert (H2 : log_wb !! payments_sheet "student" = Some payments_sheet_ex)
    by decide_by_eval.
  assert (H3 : save_ok log_store = true) by (vm_compute; reflexivity).
  assert (H4 : no_empty_row payments_sheet_ex) by decide_by_eval.
  assert (H5 : ws_current_row payments_sheet_ex <= max_row payments_sheet_ex)
    by decide_by_eval.
  pose proof payments_sheet_ex_columns as H6.
  pose proof payments_sheet_ex_converts as H7.
  repeat (split; [assumption|]).
  destruct (set_payment_upserts parse_decimal "student" "STU-0001" 2026 3 "Pending" 500 t1
              log_store log_wb payments_sheet_ex H1 H2 H3 H4 H5 H6 H7)
    as (st' & ws' & Hrun & _ & _ & _ & _ & _ & _ & _ & _ & Hstatus & _).
  exists st'. split; assumption.
Defined.



Lemma missing_sheet_raises_witness :
  current_wb empty_doc_store = Some ∅
  /\ (∅ : workbook) !! mutation_sheet (AddEvent toggle_event) = None
  /\ run_mutation parse_decimal (AddEvent toggle_event) empty_doc_store
     = (Raise KeyError, Store (path_file empty_doc_store) (Some ∅) (save_ok empty_doc_store)).
Proof.
  assert (H1 : current_wb empty_doc_store = Some ∅) by reflexivity.
  assert (H2 : (∅ : workbook) !! mutation_sheet (AddEvent toggle_event) = None)
    by apply lookup_empty.
  repeat (split; [assumption|]).
  exact (missing_sheet_raises parse_decimal (AddEvent toggle_event) empty_doc_store ∅ H1 H2).
Defined.

Lemma ensure_workbook_repairs_witness :
  save_ok blank_store = true
  /\ exists wb', ensure_workbook [] [] blank_store
                 = (Ok tt, Store (Some wb') (Some wb') true).
Proof.
  assert (H1 : save_ok blank_store = true) by reflexivity.
  split; [exact H1|].
  destruct (ensure_workbook_repairs [] [] blank_store) as [Hok _].
  destruct (Hok H1) as (wb' & Hrun & _). by exists wb'.
Defined.

Lemma add_event_appends_witness :
  current_wb log_store = Some log_wb
  /\ log_wb !! ACTIVITY_SHEET = Some activity_sheet
  /\ save_ok log_store = true
  /\ header_values activity_sheet = hvals activity_headers
  /\ length (ws_rows activity_sheet) <= ws_current_row activity_sheet
  /\ exists st',
       add_event toggle_event log_store = (Ok tt, st')
       /\ (list_events 1 st').1 = Ok [event_record toggle_event].
Proof.
  assert (H1 : current_wb log_store = Some log_wb) by decide_by_eval.
  assert (H2 : log_wb !! ACTIVITY_SHEET = Some activity_sheet) by decide_by_eval.
  assert (H3 : save_ok log_store = true) by (vm_compute; reflexivity).
  assert (H4 : header_values activity_sheet = hvals activity_headers) by decide_by_eval.
  assert (H5 : length (ws_rows activity_sheet) <= ws_current_row activity_sheet)
    by decide_by_eval.
  repeat (split; [assumption|]).
  destruct (add_event_appends toggle_event log_store log_wb activity_sheet H1 H2 H3 H4 H5)
    as (st' & Hrun & _ & _ & Hlast).
  exists st'. split; assumption.
Defined.

Lemma list_events_negative_limit_witness :
  current_wb log_store = Some log_wb
  /\ log_wb !! ACTIVITY_SHEET = Some activity_sheet
  /\ 1 <= 1
  /\ (list_events (- Z.of_nat 1) log_store).1 = Ok (drop 1 (records_of activity_sheet)).
Proof.
  assert (H1 : current_wb log_store = Some log_wb) by decide_by_eval.
  assert (H2 : log_wb !! ACTIVITY_SHEET = Some activity_sheet) by decide_by_eval.
  assert (H3 : 1 <= 1) by lia.
  repeat (split; [assumption|]).
  exact (list_events_negative_limit log_store log_wb activity_sheet 1 H1 H2 H3).
Defined.

Lemma cleanup_sheet_filters_witness :
  ["id"; "name"] ≠ []
  /\ ws_rows dirty_sheet
     = [VStr "id"; VStr "name"] :: [[]; [VStr "7"; VStr "x"]; [VStr "id"; VStr "name"]]
  /\ [VStr "id"; VStr "name"] ≠ []
  /\ exists rest' cur',
       _cleanup_sheet dirty_sheet ["id"; "name"]
       = Worksheet ([VStr "id"; VStr "name"] :: rest') cur'
       /\ pad 2 <$> rest' = [[VStr "7"; VStr "x"]].
Proof.
  assert (H1 : ["id"; "name"] ≠ []) by discriminate.
  assert (H2 : ws_rows dirty_sheet
               = [VStr "id"; VStr "name"]
                 :: [[]; [VStr "7"; VStr "x"]; [VStr "id"; VStr "name"]]) by reflexivity.
  assert (H3 : [VStr "id"; VStr "name"] ≠ []) by discriminate.
  repeat (split; [assumption|]).
  destruct (cleanup_sheet_filters dirty_sheet ["id"; "name"] _ _ H1 H2 H3)
    as (rest' & cur' & Hrun & Hrows).
  exists rest', cur'. split; [exact Hrun|].
  rewrite (Hrows 2) by (vm_compute; lia). vm_compute. reflexivity.
Defined.

Lemma ensure_workbook_keeps_rows_witness :
  path_file gap_store = Some gap_wb
  /\ gap_wb !! STUDENT_PAYMENTS_SHEET = Some gap_sheet
  /\ table_headers [] [] STUDENT_PAYMENTS_SHEET = Some (payment_headers "student_id")
  /\ save_ok gap_store = true
  /\ forallb is_none (header_values gap_sheet) = false
  /\ exists ws' rest',
       sheet_in (_wb (ensure_workbook [] [] gap_store).2) STUDENT_PAYMENTS_SHEET = Some ws'
       /\ ws_rows ws' = hvals (payment_headers "student_id") :: rest'.
Proof.
  assert (H1 : path_file gap_store = Some gap_wb) by reflexivity.
  assert (H2 : gap_wb !! STUDENT_PAYMENTS_SHEET = Some gap_sheet) by apply lookup_insert_eq.
  assert (H3 : table_headers [] [] STUDENT_PAYMENTS_SHEET
               = Some (payment_headers "student_id")) by reflexivity.
  assert (H4 : save_ok gap_store = true) by reflexivity.
  assert (H5 : forallb is_none (header_values gap_sheet) = false)
    by (vm_compute; reflexivity).
  repeat (split; [assumption|]).
  destruct (ensure_workbook_keeps_rows [] [] gap_store gap_wb gap_sheet
              STUDENT_PAYMENTS_SHEET (payment_headers "student_id") H1 H2 H3 H4 H5)
    as (ws' & rest' & Hsheet & Hrows & _).
  exists ws', rest'. split; [exact Hsheet|]. rewrite Hrows. reflexivity.
Defined.

Lemma payment_record_lookup_witness :
  current_wb log_store = Some log_wb
  /\ log_wb !! payments_sheet "student" = Some payments_sheet_ex
  /\ Forall (fun r => key_matches parse_decimal (id_column "student") "STU-0002" 2026 3 r
                      = Ok false) (records_of payments_sheet_ex)
  /\ (get_payment_status parse_decimal "student" "STU-0002" 2026 3 log_store).1
     = Ok "Pending".
Proof.
  assert (H1 : current_wb log_store = Some log_wb) by decide_by_eval.
  assert (H2 : log_wb !! payments_sheet "student" = Some payments_sheet_ex)
    by decide_by_eval.
  assert (H3 : Forall (fun r => key_matches parse_decimal (id_column "student") "STU-0002"
                                  2026 3 r = Ok false) (records_of payments_sheet_ex))
    by decide_by_eval.
  repeat (split; [assumption|]).
  destruct (payment_record_lookup parse_decimal "student" "STU-0002" 2026 3 log_store
              log_wb payments_sheet_ex H1 H2) as (Hnone & _).
  exact (proj2 (Hnone H3)).
Defined.

Lemma payment_stats_counts_paid_witness :
  current_wb log_store = Some log_wb
  /\ log_wb !! people_sheet "student" = Some students_sheet
  /\ log_wb !! payments_sheet "student" = Some payments_sheet_ex
  /\ Forall (period_converts parse_decimal) (records_of payments_sheet_ex)
  /\ exists s,
       (payment_stats parse_decimal "student" 2026 3 log_store).1 = Ok s
       /\ paid s
          = length (filter (counted_paid parse_decimal "student" 2026 3
                              (records_of payments_sheet_ex))
                      (records_of students_sheet)).
Proof.
  assert (H1 : current_wb log_store = Some log_wb) by decide_by_eval.
  assert (H2 : log_wb !! people_sheet "student" = Some students_sheet) by decide_by_eval.
  assert (H3 : log_wb !! payments_sheet "student" = Some payments_sheet_ex)
    by decide_by_eval.
  pose proof payments_sheet_ex_converts as H4.
  repeat (split; [assumption|]).
  destruct (payment_stats_counts_paid parse_decimal "student" 2026 3 log_store log_wb
              students_sheet payments_sheet_ex H1 H2 H3 H4) as (s & Hs & Hpaid & _).
  exists s. split; assumption.
Defined.

Lemma listing_repeatable_witness :
  current_wb log_store = Some log_wb
  /\ log_wb !! STUDENTS_SHEET = Some students_sheet
  /\ exists st1,
       list_students log_store = (Ok (records_of students_sheet), st1)
       /\ list_students st1 = (Ok (records_of students_sheet), st1).
Proof.
  assert (H1 : current_wb log_store = Some log_wb) by decide_by_eval.
  assert (H2 : log_wb !! STUDENTS_SHEET = Some students_sheet) by decide_by_eval.
  repeat (split; [assumption|]).
  destruct (listing_repeatable STUDENTS_SHEET log_store log_wb students_sheet H1 H2)
    as (st1 & Hfirst & _ & Hsecond & _).
  exists st1. split; assumption.
Defined.

Lemma ensure_sheet_headers_complete_witness :
  ["id"; "name"] ≠ []
  /\ grid (_ensure_sheet_headers (_ensure_sheet_headers shifted_sheet ["id"; "name"])
             ["id"; "name"])
     = grid (_ensure_sheet_headers shifted_sheet ["id"; "name"]).
Proof.
  assert (H1 : ["id"; "name"] ≠ []) by discriminate.
  split; [exact H1|].
  exact (proj2 (ensure_sheet_headers_complete shifted_sheet ["id"; "name"] H1)).
Defined.

Lemma normalize_field_name_canonical_witness :
  "blood  group" = "blood" +:+ "  " +:+ "group"
  /\ "blood" ≠ EmptyString /\ str_forall is_name_char "blood" = true
  /\ "  " ≠ EmptyString /\ str_forall isspace "  " = true
  /\ "group" ≠ EmptyString /\ str_forall is_name_char "group" = true
  /\ _normalize_field_name "blood  group" = "blood_group".
Proof.
  assert (H0 : "blood  group" = "blood" +:+ "  " +:+ "group") by reflexivity.
  assert (H1 : "blood" ≠ EmptyString) by discriminate.
  assert (H2 : str_forall is_name_char "blood" = true) by reflexivity.
  assert (H3 : "  " ≠ EmptyString) by discriminate.
  assert (H4 : str_forall isspace "  " = true) by reflexivity.
  assert (H5 : "group" ≠ EmptyString) by discriminate.
  assert (H6 : str_forall is_name_char "group" = true) by reflexivity.
  repeat (split; [assumption|]).
  destruct (normalize_field_name_canonical "blood  group") as (_ & _ & _ & Hwords).
  exact (Hwords "blood" "  " "group" H0 H1 H2 H3 H4 H5 H6).
Defined.
